(** * Student panel backend: authentication and authorization core

    A shallow embedding of the Express/Mongoose code of

      - [src/middleware/roleAuth.js]  ([canAccessSchool], [canPerformCRUD], [canViewData]),
      - [src/middleware/auth.js]      ([protect]),
      - [src/models/User.js]          (schema, [getSignedJwtToken], [getRefreshToken]),
      - [src/routes/auth.js]          ([register], [onboarding], [login], [refresh]),
      - [src/routes/students.js], [src/routes/schools.js] (the tenant filter of the
        list queries),

    followed by the statements proved about them.

    Conventions.  A handler is a function of the environment variables, of the
    values the run draws from outside (clock, generated id, salt) and of the
    database; it returns the HTTP response and the database it leaves behind.
    Library code that is not part of the repository is modelled as follows:
    [jsonwebtoken] symbolically (a token is the key, the payload and the two
    timestamps it carries), [bcryptjs] and validator.js's [isEmail] as the
    operations of the class [Lib], MongoDB collections as lists in insertion
    order with their unique indexes checked on insertion, Mongoose documents
    as records that [save()] validates and writes back under their [_id].

    A handler runs alone on the database, from its first await to its
    answer, and reads the clock once.  The one thing that runs beside it is
    the re-hash that the [pre('save')] hook of the user model starts behind
    its [next()]; where it lands is among the values drawn from outside.
    Strings are sequences of code units below 256; a body field is a JSON
    string or absent, except the password of [/login], which may be any
    JSON value. *)

From Stdlib Require Import String Ascii List ZArith Bool Arith Lia Eqdep_dec.
Import ListNotations.
Open Scope string_scope.

(* ------------------------------------------------------------------ *)
(** ** JavaScript values *)

Module JS.

(** A property that holds a string or is [undefined]. *)
Definition truthy (v : option string) : bool :=
  match v with
  | Some s => negb (s =? "")
  | None => false
  end.

(** [a || b]. *)
Definition or (a b : option string) : option string :=
  if truthy a then a else b.

(** [v || dflt] for a string [dflt]. *)
Definition or_else (v : option string) (dflt : string) : string :=
  match v with
  | Some s => if s =? "" then dflt else s
  | None => dflt
  end.

(** A destructuring default, [{ v = dflt }]: taken for [undefined] only. *)
Definition default (v : option string) (dflt : string) : string :=
  match v with
  | Some s => s
  | None => dflt
  end.

(** [v === s] for a string [s]. *)
Definition strict_eq (v : option string) (s : string) : bool :=
  match v with
  | Some x => x =? s
  | None => false
  end.

Fixpoint all_chars (p : ascii -> bool) (s : string) : bool :=
  match s with
  | EmptyString => true
  | String c s' => p c && all_chars p s'
  end.

Definition code (c : ascii) : nat := nat_of_ascii c.

Definition in_range (lo hi : nat) (c : ascii) : bool :=
  (lo <=? code c)%nat && (code c <=? hi)%nat.

Definition isDigit : ascii -> bool := in_range 48 57.
Definition isLower : ascii -> bool := in_range 97 122.
Definition isUpper : ascii -> bool := in_range 65 90.
Definition isAlnum (c : ascii) : bool := isDigit c || isLower c || isUpper c.

(** [\w] of a regular expression without flags. *)
Definition isWord (c : ascii) : bool := isAlnum c || (code c =? 95)%nat.

(** White space and line terminators removed by [String.prototype.trim]:
    among the code units below 256 these are tab to carriage return, the
    space and the no-break space. *)
Definition isSpace (c : ascii) : bool :=
  (code c =? 32)%nat || in_range 9 13 c || (code c =? 160)%nat.

Fixpoint trimStart (s : string) : string :=
  match s with
  | EmptyString => EmptyString
  | String c s' => if isSpace c then trimStart s' else s
  end.

Fixpoint trimEnd (s : string) : string :=
  match s with
  | EmptyString => EmptyString
  | String c s' =>
      match trimEnd s' with
      | EmptyString => if isSpace c then EmptyString else String c EmptyString
      | t => String c t
      end
  end.

Definition trim (s : string) : string := trimEnd (trimStart s).

(** [s.replace(/[^+\d]/g, '')]. *)
Fixpoint keep (p : ascii -> bool) (s : string) : string :=
  match s with
  | EmptyString => EmptyString
  | String c s' => if p c then String c (keep p s') else keep p s'
  end.

End JS.

(* ------------------------------------------------------------------ *)
(** ** Regular expressions

    The schema patterns are run by a matcher that carries the set of
    positions reached so far; [ends r starts] is the set of positions [j]
    such that [r] matches the input between some [i] of [starts] and [j]. *)

Module Regex.

Inductive regex : Type :=
| Eps
| Cls (p : ascii -> bool)
| Cat (a b : regex)
| Alt (a b : regex)
| Star (a : regex)
| Rep (a : regex) (lo hi : nat)     (* a{lo,hi} *)
| WordB.                            (* \b *)

Definition Chr (c : ascii) : regex := Cls (Ascii.eqb c).
Definition Opt (a : regex) : regex := Alt a Eps.
Definition Plus (a : regex) : regex := Cat a (Star a).

Fixpoint Lit (s : string) : regex :=
  match s with
  | EmptyString => Eps
  | String c s' => Cat (Chr c) (Lit s')
  end.

Fixpoint insert (i : nat) (l : list nat) : list nat :=
  match l with
  | [] => [i]
  | j :: l' => if (i =? j)%nat then l else j :: insert i l'
  end.

Definition union (a b : list nat) : list nat := fold_right insert a b.

Definition fresh (seen l : list nat) : list nat :=
  filter (fun i => negb (existsb (Nat.eqb i) seen)) l.

(** Least set that holds [frontier] and is closed under [step]. *)
Fixpoint closure (step : list nat -> list nat) (fuel : nat)
         (seen frontier : list nat) : list nat :=
  match fuel with
  | O => seen
  | S fuel' =>
      match fresh seen (step frontier) with
      | [] => seen
      | more => closure step fuel' (union seen more) more
      end
  end.

(** Between [lo] and [hi] further rounds of [step]. *)
Fixpoint rounds (step : list nat -> list nat) (lo hi : nat)
         (cur : list nat) : list nat :=
  match hi with
  | O => match lo with O => cur | S _ => [] end
  | S hi' =>
      match lo with
      | O => union cur (rounds step O hi' (step cur))
      | S lo' => rounds step lo' hi' (step cur)
      end
  end.

Section Input.

Variable s : string.

Definition word_at (i : nat) : bool :=
  match String.get i s with
  | Some c => JS.isWord c
  | None => false
  end.

Definition boundary (i : nat) : bool :=
  xorb (match i with O => false | S i' => word_at i' end) (word_at i).

Fixpoint ends (r : regex) (starts : list nat) : list nat :=
  match r with
  | Eps => starts
  | Cls p =>
      flat_map (fun i => match String.get i s with
                         | Some c => if p c then [S i] else []
                         | None => []
                         end) starts
  | Cat a b => ends b (ends a starts)
  | Alt a b => union (ends a starts) (ends b starts)
  | Star a => closure (ends a) (S (String.length s)) starts starts
  | Rep a lo hi => rounds (ends a) lo hi starts
  | WordB => filter boundary starts
  end.

End Input.

(** [/^r$/.test(s)]. *)
Definition test_anchored (r : regex) (s : string) : bool :=
  existsb (Nat.eqb (String.length s)) (ends s r [O]).

(** [/r/.test(s)]: a match anywhere. *)
Definition test (r : regex) (s : string) : bool :=
  match ends s r (seq 0 (S (String.length s))) with
  | [] => false
  | _ :: _ => true
  end.

End Regex.

(* ------------------------------------------------------------------ *)
(** ** Patterns of the schemas *)

Module Patterns.
Import Regex.

Definition w : regex := Cls JS.isWord.
Definition d : regex := Cls JS.isDigit.
Definition oneOf (set : string) (c : ascii) : bool :=
  negb (JS.all_chars (fun x => negb (Ascii.eqb x c)) set).

(** [/^\w+([\.-]?\w+)*@\w+([\.-]?\w+)*(\.\w{2,3})+$/]
    ([email] of the user schema and of [adminContact]). *)
Definition email_re : regex :=
  let name := Cat (Plus w) (Star (Cat (Opt (Cls (oneOf ".-"))) (Plus w))) in
  Cat name (Cat (Chr "@") (Cat name (Plus (Cat (Chr ".") (Rep w 2 3))))).

(** [/^[\+]?[1-9][\d]{0,15}$/] ([adminContact.phone]). *)
Definition phone_re : regex :=
  Cat (Opt (Chr "+")) (Cat (Cls (JS.in_range 49 57)) (Rep d 0 15)).

(** The [website] pattern of the school schema, which is not anchored:
    [https?:\/\/], an optional [www\.], one to 256 characters of
    [-a-zA-Z0-9@:%._\+~#=], a dot, one to six characters of [a-zA-Z0-9()],
    [\b], and any number of characters of [-a-zA-Z0-9()@:%_\+.~#?&//=]. *)
Definition website_re : regex :=
  let host c := JS.isAlnum c || oneOf "-@:%._+~#=" c in
  let tld c := JS.isAlnum c || oneOf "()" c in
  let path c := JS.isAlnum c || oneOf "-()@:%_+.~#?&/=" c in
  Cat (Lit "http") (Cat (Opt (Chr "s")) (Cat (Lit "://") (Cat (Opt (Lit "www."))
    (Cat (Rep (Cls host) 1 256) (Cat (Chr ".") (Cat (Rep (Cls tld) 1 6)
      (Cat WordB (Star (Cls path))))))))).

Definition email_match : string -> bool := test_anchored email_re.
Definition phone_match : string -> bool := test_anchored phone_re.
Definition website_match : string -> bool := test website_re.

End Patterns.

(* ------------------------------------------------------------------ *)
(** ** Identifiers, tokens, JSON *)

(** A MongoDB [ObjectId]: twelve bytes, kept as the 24 lower-case
    hexadecimal digits that [toString()] prints. *)
Definition isHexDigit (c : ascii) : bool :=
  JS.isDigit c || JS.in_range 97 102 c.

Definition isObjectIdHex (s : string) : bool :=
  (String.length s =? 24)%nat && JS.all_chars isHexDigit s.

Record ObjectId : Type := mkObjectId {
  oid_hex : string;
  oid_wf : isObjectIdHex oid_hex = true
}.

Definition toString (o : ObjectId) : string := oid_hex o.

Definition oid_eqb (a b : ObjectId) : bool := toString a =? toString b.

(** A string that may be a JSON Web Token.  [Signed key id iat exp] is the
    HS256 token over the payload [{ id, iat, exp }] whose signature verifies
    under [key] and under no other key; [Plain s] is any other string. *)
Inductive Token : Type :=
| Signed (key : string) (id : ObjectId) (iat exp : Z)
| Plain (s : string).

Definition token_eqb (a b : Token) : bool :=
  match a, b with
  | Signed k i t e, Signed k' i' t' e' =>
      (k =? k') && oid_eqb i i' && (t =? t')%Z && (e =? e')%Z
  | Plain s, Plain s' => s =? s'
  | _, _ => false
  end.

#[warnings="-register-all"] Inductive Json : Type :=
| JNull
| JBool (b : bool)
| JNum (n : Z)
| JStr (s : string)
| JTok (t : Token)
| JObj (fields : list (string * Json)).

(** An object literal as [res.json] sends it: properties whose value is
    [undefined] are left out. *)
Definition obj (fields : list (string * option Json)) : Json :=
  JObj (flat_map (fun kv => match snd kv with
                            | Some v => [(fst kv, v)]
                            | None => []
                            end) fields).

Definition jid (o : ObjectId) : Json := JStr (toString o).

Record Response : Type := mkResponse {
  status : nat;
  body : Json
}.

(** [res.status(code).json(fields)]. *)
Definition reply (code : nat) (fields : list (string * option Json)) : Response :=
  mkResponse code (obj fields).

(** [k ~> v] is the property [k: v]; [k ~>? v] is one whose value may be
    [undefined]. *)
Notation "k ~> v" := (k%string, Some v)
  (at level 60, no associativity, only parsing).
Notation "k ~>? v" := (k%string, v)
  (at level 60, no associativity, only parsing).

(* ------------------------------------------------------------------ *)
(** ** Documents and collections *)

(** A document of the [users] collection ([userSchema]).  The reset-token
    fields, [passwordChangedAt] and the two timestamps of the schema are
    written by no handler modelled here and are left out. *)
Record User : Type := mkUser {
  u_id : ObjectId;
  u_name : string;
  u_email : string;
  u_password : string;                (* the bcrypt hash *)
  u_role : string;
  u_schoolId : option ObjectId;
  u_isActive : bool;
  u_lastLogin : Z;
  u_refreshToken : option Token
}.

(** A document of the [admins] or of the [school_admins] collection
    ([adminSchema], [schoolAdminSchema]). *)
Record Legacy : Type := mkLegacy {
  l_name : option string;
  l_email : string;
  l_password : string;                (* bcrypt hash *)
  l_isDeleted : bool
}.

Inductive Address : Type :=
| AddressObject (street city state country postalCode : option string).

Record School : Type := mkSchool {
  s_id : ObjectId;
  s_name : string;
  s_board : string;
  s_adminName : string;
  s_adminEmail : string;
  s_adminPhone : string;
  s_address : option Address;
  s_website : option string;
  s_description : option string;
  s_status : string
}.

Record DB : Type := mkDB {
  users : list User;
  admins : list Legacy;
  school_admins : list Legacy;
  schools : list School
}.

(** [process.env].  The two [EXPIRES_IN] entries hold the time span that the
    configured string denotes, in seconds. *)
Record Env : Type := mkEnv {
  JWT_SECRET : option string;
  JWT_EXPIRES_IN : option Z;
  JWT_REFRESH_SECRET : option string;
  JWT_REFRESH_EXPIRES_IN : option Z;
  SUPER_ADMIN_EMAIL : option string;
  SUPER_ADMIN_PASSWORD : option string;
  ENABLE_CRUD_FOR_SCHOOL_ADMIN : option string
}.

(** What one run of a handler takes from outside the program. *)
Record Io : Type := mkIo {
  now : Z;                 (* [Date.now()], milliseconds *)
  newId : ObjectId;        (* the [_id] generated for a document created in the run *)
  salt : string;           (* the salt drawn by [bcrypt.genSalt] *)
  late : option (string * string)
    (* the race of [/login]: [Some] when the re-hash that the hook of the
       first [save] started behind [next()] is done before the second
       [save] begins, with the salt it drew and the salt that the hook of
       the second [save] draws *)
}.

(** The libraries whose results the handlers only pass on.  A bcrypt hash
    has sixty characters.  [first_error] is [Object.values(error.errors)[0]]
    of a Mongoose [ValidationError], given the messages of the paths that
    failed: which of them Mongoose reports first depends on the state of
    the paths of the document (loaded, modified, in a subdocument) and is
    not modelled beyond the case of a single message. *)
Class Lib : Type := {
  isEmail : string -> bool;                 (* validator.js *)
  bcrypt_hash : string -> string -> string; (* [bcrypt.hash(data, salt)] *)
  bcrypt_compare : string -> string -> bool; (* [bcrypt.compare(data, hash)] *)
  first_error : list string -> option string;
  bcrypt_hash_length :
    forall data salt, String.length (bcrypt_hash data salt) = 60%nat;
  first_error_single : forall m, first_error [m] = Some m
}.

(* ------------------------------------------------------------------ *)
(** ** jsonwebtoken *)

Module jwt.

Inductive VerifyError : Type := JsonWebTokenError | TokenExpiredError.

Record Payload : Type := mkPayload {
  id : ObjectId;
  iat : Z;
  exp : Z
}.

(** [Math.floor(Date.now() / 1000)]. *)
Definition clock (io : Io) : Z := (now io / 1000)%Z.

(** [jwt.sign({ id }, secret, { expiresIn })]; [None] when it throws for
    want of a secret. *)
Definition sign (i : ObjectId) (secret : option string) (expiresIn : Z)
           (io : Io) : option Token :=
  match secret with
  | Some key =>
      if key =? "" then None
      else Some (Signed key i (clock io) (clock io + expiresIn))
  | None => None
  end.

(** [jwt.verify(token, secret)]: the signature is checked before the
    expiry, and a token is expired from the second [exp] on. *)
Definition verify (token : option Token) (secret : option string)
           (io : Io) : VerifyError + Payload :=
  match token with
  | Some (Signed key i t e) =>
      match secret with
      | Some k =>
          if (k =? "") || negb (k =? key) then inl JsonWebTokenError
          else if (e <=? clock io)%Z then inl TokenExpiredError
          else inr (mkPayload i t e)
      | None => inl JsonWebTokenError
      end
  | Some (Plain _) | None => inl JsonWebTokenError
  end.

End jwt.

(* ------------------------------------------------------------------ *)
(** ** Methods of the user model ([src/models/User.js]) *)

Definition seven_days : Z := 604800.
Definition thirty_days : Z := 2592000.

(** [process.env.X || dflt] for a time span. *)
Definition span_or (v : option Z) (dflt : Z) : Z :=
  match v with
  | Some n => n
  | None => dflt
  end.

(** [userSchema.methods.getSignedJwtToken] and [getRefreshToken] (lines 66
    to 81). *)
Definition getSignedJwtToken (env : Env) (io : Io) (this : User) : option Token :=
  jwt.sign (u_id this) (JWT_SECRET env)
           (span_or (JWT_EXPIRES_IN env) seven_days) io.

Definition getRefreshToken (env : Env) (io : Io) (this : User) : option Token :=
  jwt.sign (u_id this) (JWT_REFRESH_SECRET env)
           (span_or (JWT_REFRESH_EXPIRES_IN env) thirty_days) io.

Definition findById (l : list User) (i : ObjectId) : option User :=
  find (fun u => oid_eqb (u_id u) i) l.

(* ------------------------------------------------------------------ *)
(** ** Middleware ([src/middleware/auth.js], [src/middleware/roleAuth.js]) *)

(** What the middleware reads of a request.  The [Authorization] header is
    kept as the words that [split(' ')] returns; [user] is [req.user]. *)
Record Request : Type := mkRequest {
  method : string;
  authorization : option (list Token);
  params_schoolId : option string;
  body_schoolId : option string;
  query_schoolId : option string;
  user : option User
}.

Definition set_user (req : Request) (u : User) : Request :=
  mkRequest (method req) (authorization req) (params_schoolId req)
            (body_schoolId req) (query_schoolId req) (Some u).

(** A middleware either answers or calls [next()]. *)
Inductive Step : Type :=
| send (r : Response)
| next (req : Request).

(** [header.startsWith('Bearer')], on the words of the header. *)
Definition startsWithBearer (words : list Token) : bool :=
  match words with
  | Plain s :: _ => String.prefix "Bearer" s
  | _ => false
  end.

(** [protect] ([src/middleware/auth.js], lines 4 to 41). *)
Definition protect (env : Env) (io : Io) (db : DB) (req : Request) : Step :=
  match authorization req with
  | Some words =>
      if startsWithBearer words then
        let token := nth_error words 1 in
        match jwt.verify token (JWT_SECRET env) io with
        | inr decoded =>
            match findById (users db) (jwt.id decoded) with
            | None =>
                send (reply 401 ["success" ~> JBool false;
                                 "error" ~> JStr "User not found"])
            | Some u => next (set_user req u)
            end
        | inl _ =>
            send (reply 401 ["success" ~> JBool false;
                             "error" ~> JStr "Not authorized, token failed"])
        end
      else
        send (reply 401 ["success" ~> JBool false;
                         "error" ~> JStr "Not authorized, no token"])
  | None =>
      send (reply 401 ["success" ~> JBool false;
                       "error" ~> JStr "Not authorized, no token"])
  end.

(** [req.params.schoolId || req.body.schoolId || req.query.schoolId]. *)
Definition requestedSchoolId (req : Request) : option string :=
  JS.or (JS.or (params_schoolId req) (body_schoolId req)) (query_schoolId req).

(** [canAccessSchool] ([src/middleware/roleAuth.js], lines 25 to 68). *)
Definition canAccessSchool (req : Request) : Step :=
  match user req with
  | None => send (reply 401 ["message" ~> JStr "Authentication required"])
  | Some u =>
      let schoolId := requestedSchoolId req in
      if u_role u =? "super_admin" then next req
      else if u_role u =? "school_admin" then
        match u_schoolId u with
        | None =>
            send (reply 403
                   ["message" ~> JStr "School admin not associated with any school";
                    "currentRole" ~> JStr (u_role u)])
        | Some own =>
            if JS.truthy schoolId && negb (JS.strict_eq schoolId (toString own))
            then send (reply 403
                   ["message" ~> JStr "Access denied. You can only access your own school data.";
                    "currentRole" ~> JStr (u_role u);
                    "yourSchoolId" ~> jid own;
                    "requestedSchoolId" ~>? option_map JStr schoolId])
            else next req
        end
      else
        send (reply 403 ["message" ~> JStr "Access denied. Insufficient privileges.";
                         "currentRole" ~> JStr (u_role u)])
  end.

(** [canPerformCRUD] (lines 71 to 91). *)
Definition canPerformCRUD (req : Request) : Step :=
  match user req with
  | None => send (reply 401 ["message" ~> JStr "Authentication required"])
  | Some u =>
      if negb (u_role u =? "super_admin") then
        send (reply 403
               ["message" ~> JStr "Access denied. CRUD operations are restricted to super admins only.";
                "requiredRole" ~> JStr "super_admin";
                "currentRole" ~> JStr (u_role u);
                "operation" ~> JStr (method req)])
      else next req
  end.

(** [canViewData] (lines 94 to 113). *)
Definition canViewData (req : Request) : Step :=
  match user req with
  | None => send (reply 401 ["message" ~> JStr "Authentication required"])
  | Some u =>
      if existsb (String.eqb (u_role u)) ["super_admin"; "school_admin"]
      then next req
      else send (reply 403
                  ["message" ~> JStr "Access denied. Insufficient privileges to view data.";
                   "currentRole" ~> JStr (u_role u)])
  end.

(** [router.METHOD(path, m1, m2, ..., handler)]: the middleware run in
    order until one answers. *)
Fixpoint chain (ms : list (Request -> Step)) (req : Request) : Step :=
  match ms with
  | [] => next req
  | m :: ms' =>
      match m req with
      | send r => send r
      | next req' => chain ms' req'
      end
  end.

(* ------------------------------------------------------------------ *)
(** ** Tenant filter of the list routes
    ([src/routes/students.js], [src/routes/schools.js])

    Of the handlers only the entry of the Mongo query that scopes the result
    to a school is modelled: [query.schoolId] for students, [query._id] for
    schools.  The entry is absent, an [ObjectId] taken from [req.user], or
    the string of the query parameter. *)

Inductive QueryValue : Type :=
| QId (o : option ObjectId)
| QStr (s : string).

(** The [catch] of the list handlers, for the one exception that the
    modelled part can raise: reading [req.user.role] without [req.user].
    Behind [protect] it does not occur. *)
Definition server_error : Response :=
  reply 500 ["message" ~> JStr "Server error";
             "error" ~> JStr "Cannot read properties of undefined (reading 'role')"].

(** [GET /api/students] ([src/routes/students.js], lines 12 to 45): the
    handler after its middleware. *)
Definition students_query (req : Request) : Response + option QueryValue :=
  match user req with
  | None => inl server_error
  | Some u =>
      if u_role u =? "school_admin" then inr (Some (QId (u_schoolId u)))
      else match query_schoolId req with
           | Some schoolId =>
               if negb (schoolId =? "") then inr (Some (QStr schoolId))
               else inr None
           | None => inr None
           end
  end.

Definition students_list (env : Env) (io : Io) (db : DB) (req : Request)
  : Response + option QueryValue :=
  match chain [protect env io db; canViewData; canAccessSchool] req with
  | send r => inl r
  | next req' => students_query req'
  end.

(** [GET /api/schools] ([src/routes/schools.js], lines 10 to 46). *)
Definition schools_query (req : Request) : Response + option QueryValue :=
  match user req with
  | None => inl server_error
  | Some u =>
      if (u_role u =? "school_admin")
         && match u_schoolId u with Some _ => true | None => false end
      then inr (Some (QId (u_schoolId u)))
      else inr None
  end.

Definition schools_list (env : Env) (io : Io) (db : DB) (req : Request)
  : Response + option QueryValue :=
  match chain [protect env io db; canViewData] req with
  | send r => inl r
  | next req' => schools_query req'
  end.

(** [DELETE /api/students/:id], [DELETE /api/schools/:id] and the other
    mutating routes run [protect, canPerformCRUD] before their handler. *)
Definition mutation_gate (env : Env) (io : Io) (db : DB) : Request -> Step :=
  chain [protect env io db; canPerformCRUD].

(* ------------------------------------------------------------------ *)
(** ** Handlers as programs over the database

    The body of a handler threads the database through its awaits and ends
    in one of three ways: it falls through with a value, it throws, or it
    returns a response early. *)

Inductive Err : Type :=
| ValidationError (messages : list string)   (* Mongoose document validation *)
| MongoServerError                           (* E11000, duplicate key *)
| JsonWebTokenError
| TokenExpiredError
| Error (message : string).                  (* anything else *)

Inductive Out (A : Type) : Type :=
| Val (a : A)
| Throw (e : Err)
| Return (r : Response).

Arguments Val {A} a.
Arguments Throw {A} e.
Arguments Return {A} r.

Definition M (A : Type) : Type := DB -> Out A * DB.

Definition ret {A : Type} (a : A) : M A := fun db => (Val a, db).

Definition bind {A B : Type} (c : M A) (k : A -> M B) : M B :=
  fun db =>
    match c db with
    | (Val a, db') => k a db'
    | (Throw e, db') => (Throw e, db')
    | (Return r, db') => (Return r, db')
    end.

Definition throw {A : Type} (e : Err) : M A := fun db => (Throw e, db).
Definition respond {A : Type} (r : Response) : M A := fun db => (Return r, db).
Definition gets {A : Type} (f : DB -> A) : M A := fun db => (Val (f db), db).
Definition modify (f : DB -> DB) : M unit := fun db => (Val tt, f db).

Notation "x <- c ;; k" := (bind c (fun x => k))
  (at level 61, c at next level, right associativity).
Notation "c ;; k" := (bind c (fun _ => k))
  (at level 61, right associativity).

(** A value that a synchronous call returns or, when [None], throws for. *)
Definition orThrow {A : Type} (v : option A) (e : Err) : M A :=
  match v with
  | Some a => ret a
  | None => throw e
  end.

(** [try { body } catch (error) { handler }] around a whole handler. *)
Definition try_catch (c : M Response) (h : Err -> Response)
  : DB -> Response * DB :=
  fun db =>
    match c db with
    | (Val r, db') => (r, db')
    | (Return r, db') => (r, db')
    | (Throw e, db') => (h e, db')
    end.

(* ------------------------------------------------------------------ *)
(** ** Schema validation ([src/models/User.js], [src/models/School.js]) *)

Definition check (ok : bool) (message : string) : list string :=
  if ok then [] else [message].

(** The validators of one path; [required] fails on the empty string, the
    others are tried only on a value that is present. *)
Definition required_then (v required_msg : string) (rest : list string)
  : list string :=
  if v =? "" then [required_msg] else rest.

Definition roles : list string := ["super_admin"; "school_admin"].
Definition boards : list string :=
  ["CBSE"; "ICSE"; "State Board"; "IB"; "Cambridge"; "Other"].

Definition isIn (l : list string) (v : string) : bool :=
  existsb (String.eqb v) l.

(** The message of Mongoose for an [enum] without one of its own. *)
Definition enum_message (value path : string) : string :=
  "`" ++ value ++ "` is not a valid enum value for path `" ++ path ++ "`.".

(** Validation of a user document: the messages of the paths that fail, one
    for each, listed in the order of the schema (the order in which Mongoose
    reports them is another matter, see [first_error]).  The [password]
    path is validated only when the document carries it ([select: false]). *)
Definition validateUser (withPassword : bool) (u : User) : list string :=
  required_then (u_name u) "Please add a name"
    (check (String.length (u_name u) <=? 50)%nat
           "Name cannot be more than 50 characters")
  ++ required_then (u_email u) "Please add an email"
    (check (Patterns.email_match (u_email u)) "Please add a valid email")
  ++ (if withPassword then
        required_then (u_password u) "Please add a password"
          (check (6 <=? String.length (u_password u))%nat
                 "Password must be at least 6 characters")
      else [])
  ++ check (isIn roles (u_role u)) (enum_message (u_role u) "role").

Definition validateOptional (v : option string) (msgs : string -> list string)
  : list string :=
  match v with
  | Some s => msgs s
  | None => []
  end.

(** The same for a school document that [School.create] builds; the paths
    of the contact are those of the subdocument [adminContact]. *)
Definition validateSchool (s : School) : list string :=
  required_then (s_name s) "Please add a school name"
    (check (String.length (s_name s) <=? 200)%nat
           "School name cannot be more than 200 characters")
  ++ required_then (s_board s) "Please add a board"
    (check (isIn boards (s_board s)) (enum_message (s_board s) "board"))
  ++ required_then (s_adminName s) "Please add admin contact name"
    (check (String.length (s_adminName s) <=? 100)%nat
           "Name cannot be more than 100 characters")
  ++ required_then (s_adminEmail s) "Please add admin contact email"
    (check (Patterns.email_match (s_adminEmail s)) "Please add a valid email")
  ++ required_then (s_adminPhone s) "Please add admin contact phone"
    (check (Patterns.phone_match (s_adminPhone s))
           "Please add a valid phone number")
  ++ validateOptional (s_website s) (fun v =>
       check (Patterns.website_match v) "Please add a valid website URL")
  ++ validateOptional (s_description s) (fun v =>
       check (String.length v <=? 1000)%nat
             "Description cannot be more than 1000 characters")
  ++ check (isIn ["active"; "inactive"; "pending"] (s_status s))
           (enum_message (s_status s) "status").

(* ------------------------------------------------------------------ *)
(** ** Model operations (Mongoose) *)

Definition with_users (f : list User -> list User) (db : DB) : DB :=
  mkDB (f (users db)) (admins db) (school_admins db) (schools db).

Definition with_admins (f : list Legacy -> list Legacy) (db : DB) : DB :=
  mkDB (users db) (f (admins db)) (school_admins db) (schools db).

Definition with_schools (f : list School -> list School) (db : DB) : DB :=
  mkDB (users db) (admins db) (school_admins db) (f (schools db)).

Definition set_password (u : User) (v : string) : User :=
  mkUser (u_id u) (u_name u) (u_email u) v (u_role u) (u_schoolId u)
         (u_isActive u) (u_lastLogin u) (u_refreshToken u).

Definition set_name (u : User) (v : string) : User :=
  mkUser (u_id u) v (u_email u) (u_password u) (u_role u) (u_schoolId u)
         (u_isActive u) (u_lastLogin u) (u_refreshToken u).

Definition set_schoolId (u : User) (v : ObjectId) : User :=
  mkUser (u_id u) (u_name u) (u_email u) (u_password u) (u_role u) (Some v)
         (u_isActive u) (u_lastLogin u) (u_refreshToken u).

Definition set_lastLogin (u : User) (v : Z) : User :=
  mkUser (u_id u) (u_name u) (u_email u) (u_password u) (u_role u)
         (u_schoolId u) (u_isActive u) v (u_refreshToken u).

Definition set_refreshToken (u : User) (v : option Token) : User :=
  mkUser (u_id u) (u_name u) (u_email u) (u_password u) (u_role u)
         (u_schoolId u) (u_isActive u) (u_lastLogin u) v.

Definition by_email (email : string) (u : User) : bool := u_email u =? email.

(** [Model.findOne({ email })] and
    [Model.findOne({ email, isDeleted: { $ne: true } })] on a legacy
    collection. *)
Definition legacy_findOne (l : list Legacy) (email : string) (live : bool)
  : option Legacy :=
  find (fun r => (l_email r =? email) && negb (live && l_isDeleted r)) l.

Definition replace_user (u : User) (l : list User) : list User :=
  map (fun v => if oid_eqb (u_id v) (u_id u) then u else v) l.

(** Insertion under the unique indexes on [_id] and on [email]. *)
Definition insert_user (u : User) : M unit :=
  fun db =>
    if existsb (fun v => oid_eqb (u_id v) (u_id u) || (u_email v =? u_email u))
               (users db)
    then (Throw MongoServerError, db)
    else (Val tt, with_users (fun l => (l ++ [u])%list) db).

Section Models.

Context {lib : Lib}.

Definition User_findOne (email : string) : M (option User) :=
  gets (fun db => find (by_email email) (users db)).

Definition User_findById (i : ObjectId) : M (option User) :=
  gets (fun db => findById (users db) i).

(** [User.create({ name, email, password, role })]: the setters of the
    schema ([trim]), the defaults, validation, the [pre('save')] hook that
    hashes the new password, and the insertion. *)
Definition User_create (io : Io) (name email password role : string)
  : M User :=
  let doc := mkUser (newId io) (JS.trim name) email password role None true
                    (now io) None in
  match validateUser true doc with
  | [] =>
      let saved := set_password doc (bcrypt_hash password (salt io)) in
      insert_user saved ;; ret saved
  | messages => throw (ValidationError messages)
  end.

(** [document.save()] of a document that was loaded or created before and
    whose [password] counts as unmodified: validation of the paths that the
    document carries, then the write; the [pre('save')] hook calls [next()]
    and the stored hash stays.  The hook does not return there: it goes on
    to draw a salt and to assign [this.password] the hash of
    [this.password].  On a document without [password] that hash fails and
    nothing follows; on a document that carries it the assignment reaches
    the document in memory some time later, which matters to a further
    [save] of the same document: see [User_save_again]. *)
Definition User_save (withPassword : bool) (doc : User) : M unit :=
  match validateUser withPassword doc with
  | [] => modify (with_users (replace_user doc))
  | messages => throw (ValidationError messages)
  end.

(** The second [save] of a document that carries [password], in a request
    that has saved it once ([/login]: [updateLastLogin], then [save]).  If
    the late re-hash of the first [save] is not done when the second
    begins, the second is a [save] like the first.  If it is done ([late
    io]), [password] holds the hash of the stored hash and counts as
    modified: the document is validated as it stands, then the hook, which
    does not call [next()] early this time, hashes [password] once more,
    and the write stores the result. *)
Definition User_save_again (io : Io) (doc : User) : M unit :=
  match late io with
  | None => User_save true doc
  | Some (salt1, salt2) =>
      let landed := set_password doc (bcrypt_hash (u_password doc) salt1) in
      match validateUser true landed with
      | [] =>
          modify (with_users
                    (replace_user
                       (set_password doc
                          (bcrypt_hash (u_password landed) salt2))))
      | messages => throw (ValidationError messages)
      end
  end.

(** [User.findOneAndUpdate({ email }, { name, email, password, role,
    isActive }, { upsert: true, new: true, setDefaultsOnInsert: true })].
    Setters run on the update; validators do not. *)
Definition User_findOneAndUpdate (io : Io) (email : string)
           (name email' password role : string) (isActive : bool) : M User :=
  found <- User_findOne email ;;
  match found with
  | Some u =>
      let u' := mkUser (u_id u) (JS.trim name) email' password role
                       (u_schoolId u) isActive (u_lastLogin u)
                       (u_refreshToken u) in
      modify (with_users (replace_user u')) ;; ret u'
  | None =>
      let u' := mkUser (newId io) (JS.trim name) email' password role None
                       isActive (now io) None in
      insert_user u' ;; ret u'
  end.

(** [Admin.create({ name, email, password, isDeleted: false })]. *)
Definition Admin_create (name email password : string) : M unit :=
  fun db =>
    if password =? "" then (Throw (ValidationError ["Path `password` is required."]), db)
    else if existsb (fun r => l_email r =? email) (admins db)
    then (Throw MongoServerError, db)
    else (Val tt, with_admins
                    (fun l => (l ++ [mkLegacy (Some name) email password false])%list)
                    db).

(** [School.create({ ... })]; [name] carries a unique index. *)
Definition School_create (doc : School) : M School :=
  match validateSchool doc with
  | [] =>
      fun db =>
        if existsb (fun s => oid_eqb (s_id s) (s_id doc)
                             || (s_name s =? s_name doc)) (schools db)
        then (Throw MongoServerError, db)
        else (Val doc, with_schools (fun l => (l ++ [doc])%list) db)
  | messages => throw (ValidationError messages)
  end.

End Models.

(* ------------------------------------------------------------------ *)
(** ** Routes of [src/routes/auth.js]

    The file registers [/me], [/logout] and [/refresh] twice; Express runs
    the handler registered first, which always answers, so the second
    handlers are dead and are not modelled. *)

(** A body field as JSON gives it, where a handler tells the difference: a
    string, or a value of another type with the strings that
    express-validator hands to a standard validator for it ([toString] of
    the value, or of each element when the value is an array). *)
Inductive Field : Type :=
| FStr (s : string)
| FOther (seen : list string).

(** The string that a field is, if it is one. *)
Definition text (v : Field) : string :=
  match v with
  | FStr s => s
  | FOther _ => EmptyString
  end.

(** The request bodies.  A required text field that is absent fails the
    same validator as the empty string and is represented by it.  A
    [LoginBody] is a body of [/login] whose password is a string. *)
Record RegisterBody : Type := mkRegisterBody {
  reg_name : string;
  reg_email : string;
  reg_password : string;
  reg_role : option string;
  reg_target : option string
}.

Record LoginBody : Type := mkLoginBody {
  login_email : string;
  login_password : string
}.

Record OnboardingBody : Type := mkOnboardingBody {
  schoolName : string;
  board : string;
  adminName : string;
  adminEmail : string;
  adminPhone : string;
  schoolAddress : option (Address + string);
  website : option string;
  description : option string
}.

(** [validationResult(req)]: the messages of the failed chains, in order. *)
Definition validationResult (chains : list (bool * string)) : list string :=
  flat_map (fun c => check (fst c) (snd c)) chains.

(** [.optional().isIn(values)]. *)
Definition optional_isIn (values : list string) (v : option string) : bool :=
  match v with
  | Some s => isIn values s
  | None => true
  end.

Definition user_json (u : User) : Json :=
  obj ["id" ~> jid (u_id u);
       "name" ~> JStr (u_name u);
       "email" ~> JStr (u_email u);
       "role" ~> JStr (u_role u);
       "schoolId" ~>? option_map jid (u_schoolId u)].

Definition failure (code : nat) (message : string) : Response :=
  reply code ["success" ~> JBool false; "message" ~> JStr message].

Definition failure_error (code : nat) (error : string) : Response :=
  reply code ["success" ~> JBool false; "error" ~> JStr error].

Definition no_secret : Err := Error "secretOrPrivateKey must have a value".

Section Routes.

Context {lib : Lib}.

(** [body(field).isEmail()]. *)
Definition isEmailField (v : string) : bool := negb (v =? "") && isEmail v.

(** The validation chains of [/register]. *)
Definition register_chains (b : RegisterBody) : list (bool * string) :=
  [((2 <=? String.length (reg_name b))%nat, "Name is required");
   (isEmailField (reg_email b), "Valid email is required");
   ((6 <=? String.length (reg_password b))%nat,
    "Password must be at least 6 characters");
   (optional_isIn ["super_admin"; "school_admin"] (reg_role b), "Invalid role");
   (optional_isIn ["users"; "admins"] (reg_target b), "Invalid target store")].

(** [POST /api/auth/register] ([src/routes/auth.js], lines 13 to 55). *)
Definition register (env : Env) (io : Io) (b : RegisterBody)
  : DB -> Response * DB :=
  try_catch
    (match validationResult (register_chains b) with
     | msg :: _ => respond (failure 400 msg)
     | [] =>
         let name := reg_name b in
         let email := reg_email b in
         let password := reg_password b in
         let role := JS.default (reg_role b) "school_admin" in
         let target := JS.default (reg_target b) "users" in
         (if target =? "admins" then
            existingAdmin <- gets (fun db => legacy_findOne (admins db) email false) ;;
            match existingAdmin with
            | Some _ => respond (failure 400 "Email already registered (admins)")
            | None => ret tt
            end
          else
            existing <- User_findOne email ;;
            match existing with
            | Some _ => respond (failure 400 "Email already registered")
            | None => ret tt
            end) ;;
         user <- (if target =? "admins" then
                    temp <- User_create io name email password role ;;
                    Admin_create name email (u_password temp) ;;
                    ret temp
                  else User_create io name email password role) ;;
         token <- orThrow (getSignedJwtToken env io user) no_secret ;;
         refreshToken <- orThrow (getRefreshToken env io user) no_secret ;;
         let user := set_refreshToken user (Some refreshToken) in
         User_save true user ;;
         ret (reply 201 ["success" ~> JBool true;
                         "token" ~> JTok token;
                         "refreshToken" ~> JTok refreshToken;
                         "user" ~> user_json user])
     end)
    (fun _ => failure 500 "Server error").

(** [allowedBoards.has(board) ? board : 'Other']. *)
Definition safeBoard (b : string) : string :=
  if isIn boards b then b else "Other".

(** [(adminPhone || '').toString().replace(/[^+\d]/g, '')]. *)
Definition sanitizedPhone (phone : string) : string :=
  JS.keep (fun c => Ascii.eqb c "+" || JS.isDigit c) phone.

Definition address_of (v : option (Address + string)) : option Address :=
  match v with
  | Some (inl a) => Some a
  | Some (inr street) =>
      if street =? "" then None
      else Some (AddressObject (Some street) None None None None)
  | None => None
  end.

Definition if_truthy (v : option string) : option string :=
  if JS.truthy v then v else None.

(** The validation chains of [/onboarding]. *)
Definition onboarding_chains (b : OnboardingBody) : list (bool * string) :=
  [(negb (schoolName b =? ""), "School name is required");
   (negb (board b =? ""), "Board is required");
   (negb (adminName b =? ""), "Admin name is required");
   (isEmailField (adminEmail b), "Valid admin email is required");
   (negb (adminPhone b =? ""), "Admin phone is required")].

(** [POST /api/auth/onboarding], behind [protect] (lines 58 to 106). *)
Definition onboarding (env : Env) (io : Io) (req : Request)
           (b : OnboardingBody) : DB -> Response * DB :=
  fun db =>
    match protect env io db req with
    | send r => (r, db)
    | next req' =>
        try_catch
          (match validationResult (onboarding_chains b) with
           | msg :: _ => respond (failure 400 msg)
           | [] =>
               school <- School_create
                           (mkSchool (newId io) (JS.trim (schoolName b))
                                     (safeBoard (board b))
                                     (JS.trim (adminName b)) (adminEmail b)
                                     (sanitizedPhone (adminPhone b))
                                     (address_of (schoolAddress b))
                                     (if_truthy (website b))
                                     (if_truthy (description b))
                                     "active") ;;
               found <- match user req' with
                        | Some u => User_findById (u_id u)
                        | None => ret None
                        end ;;
               user <- orThrow found (Error "TypeError") ;;
               let user := set_schoolId user (s_id school) in
               let user := if (0 <? String.length (JS.trim (adminName b)))%nat
                           then set_name user (JS.trim (adminName b))
                           else user in
               User_save false user ;;
               ret (reply 200 ["success" ~> JBool true;
                               "user" ~> user_json user])
           end)
          (fun error =>
             match error with
             | ValidationError messages =>
                 failure 400 (JS.or_else (first_error messages)
                                         "Validation error")
             | _ => failure 500 "Server error"
             end)
          db
    end.

(** The guard of the environment super admin in [/login]. *)
Definition is_env_super_admin (env : Env) (email password : string) : bool :=
  JS.truthy (SUPER_ADMIN_EMAIL env) && JS.truthy (SUPER_ADMIN_PASSWORD env)
  && JS.strict_eq (SUPER_ADMIN_EMAIL env) email
  && JS.strict_eq (SUPER_ADMIN_PASSWORD env) password.

(** The tail shared by the two branches of [/login]: sign, store the
    refresh token, answer.  In the branch of the environment super admin
    the document has no [password] and this is its only [save]; in the
    other ([again]) the document carries [password] and has been saved by
    [updateLastLogin]. *)
Definition issue_tokens (env : Env) (io : Io) (again : bool)
           (user : User) : M Response :=
  token <- orThrow (getSignedJwtToken env io user) no_secret ;;
  refreshToken <- orThrow (getRefreshToken env io user) no_secret ;;
  let user := set_refreshToken user (Some refreshToken) in
  (if again then User_save_again io user else User_save false user) ;;
  ret (reply 200 ["success" ~> JBool true;
                  "token" ~> JTok token;
                  "refreshToken" ~> JTok refreshToken;
                  "user" ~> user_json user]).

(** [bcrypt.compare(data, hash)] on a body field: bcryptjs rejects with
    "Illegal arguments" when [data] is not a string. *)
Definition compare_field (data : Field) (hash : string) : M bool :=
  match data with
  | FStr s => ret (bcrypt_compare s hash)
  | FOther _ => throw (Error "Illegal arguments")
  end.

(** The fallback on one legacy collection: look the address up among the
    records that are not deleted, compare, upsert into [users]. *)
Definition legacy_login (io : Io) (collection : DB -> list Legacy)
           (dflt role : string) (email : string) (password : Field)
  : M (option User) :=
  record <- gets (fun db => legacy_findOne (collection db) email true) ;;
  match record with
  | Some r =>
      ok <- compare_field password (l_password r) ;;
      if negb ok
      then respond (failure 401 "Invalid credentials")
      else
        upserted <- User_findOneAndUpdate io (l_email r)
                      (JS.or_else (l_name r) dflt) (l_email r)
                      (l_password r) role true ;;
        ret (Some upserted)
  | None => ret None
  end.

(** [body(field).isLength({ min })]. *)
Definition isLengthMin (min : nat) (v : Field) : bool :=
  match v with
  | FStr s => (min <=? String.length s)%nat
  | FOther seen => forallb (fun s => (min <=? String.length s)%nat) seen
  end.

(** The validation chains of [/login]. *)
Definition login_chains_on (email : string) (password : Field)
  : list (bool * string) :=
  [(isEmailField email, "Please provide a valid email");
   (isLengthMin 6 password, "Password must be at least 6 characters long")].

Definition login_chains (b : LoginBody) : list (bool * string) :=
  login_chains_on (login_email b) (FStr (login_password b)).

(** The guard of the environment super admin on the fields of the body:
    [===] holds between strings only. *)
Definition env_credentials (env : Env) (email : string) (password : Field)
  : bool :=
  match password with
  | FStr p => is_env_super_admin env email p
  | FOther _ => false
  end.

(** [POST /api/auth/login] (lines 109 to 187), on the e-mail, a string, and
    the password of the body. *)
Definition login_on (env : Env) (io : Io) (email : string) (password : Field)
  : DB -> Response * DB :=
  try_catch
    (match validationResult (login_chains_on email password) with
     | msg :: _ => respond (failure 400 msg)
     | [] =>
         if env_credentials env email password then
           let hashed := bcrypt_hash (text password) (salt io) in
           mirror <- User_findOneAndUpdate io email "Super Admin" email hashed
                                           "super_admin" true ;;
           issue_tokens env io false mirror
         else
           found <- User_findOne email ;;
           user <- match found with
                   | None =>
                       legacy_login io admins "Admin" "super_admin"
                                    email password
                   | Some user =>
                       if negb (u_isActive user)
                       then respond (failure 401 "Account is deactivated")
                       else
                         isMatch <- compare_field password (u_password user) ;;
                         if negb isMatch
                         then respond (failure 401 "Invalid credentials")
                         else ret (Some user)
                   end ;;
           user <- match user with
                   | None =>
                       legacy_login io school_admins "School Admin"
                                    "school_admin" email password
                   | Some _ => ret user
                   end ;;
           match user with
           | None => respond (failure 401 "Invalid credentials")
           | Some user =>
               let user := set_lastLogin user (now io) in
               User_save true user ;;
               issue_tokens env io true user
           end
     end)
    (fun _ => failure 500 "Server error").

(** The same on a body whose password is a string. *)
Definition login (env : Env) (io : Io) (b : LoginBody)
  : DB -> Response * DB :=
  login_on env io (login_email b) (FStr (login_password b)).

(** [body('refreshToken').notEmpty()]. *)
Definition notEmptyToken (t : option Token) : bool :=
  match t with
  | Some (Plain s) => negb (s =? "")
  | Some (Signed _ _ _ _) => true
  | None => false
  end.

(** [stored !== presented] on the refresh token. *)
Definition differs (stored presented : option Token) : bool :=
  match stored, presented with
  | Some a, Some b => negb (token_eqb a b)
  | _, _ => true
  end.

(** [POST /api/auth/refresh] (lines 214 to 275). *)
Definition refresh (env : Env) (io : Io) (refreshToken : option Token)
  : DB -> Response * DB :=
  try_catch
    (match validationResult
             [(notEmptyToken refreshToken, "Refresh token is required")] with
     | msg :: _ => respond (failure_error 400 msg)
     | [] =>
         decoded <- match jwt.verify refreshToken (JWT_REFRESH_SECRET env) io with
                    | inr payload => ret payload
                    | inl jwt.JsonWebTokenError => throw JsonWebTokenError
                    | inl jwt.TokenExpiredError => throw TokenExpiredError
                    end ;;
         found <- User_findById (jwt.id decoded) ;;
         match found with
         | None => respond (failure_error 401 "Invalid refresh token")
         | Some user =>
             if differs (u_refreshToken user) refreshToken
             then respond (failure_error 401 "Invalid refresh token")
             else
               newToken <- orThrow (getSignedJwtToken env io user) no_secret ;;
               newRefreshToken <- orThrow (getRefreshToken env io user) no_secret ;;
               let user := set_refreshToken user (Some newRefreshToken) in
               User_save false user ;;
               ret (reply 200 ["success" ~> JBool true;
                               "token" ~> JTok newToken;
                               "refreshToken" ~> JTok newRefreshToken])
         end
     end)
    (fun error =>
       match error with
       | JsonWebTokenError => failure_error 401 "Invalid refresh token"
       | TokenExpiredError => failure_error 401 "Refresh token expired"
       | _ => failure_error 500 "Server error"
       end).

End Routes.

(* ------------------------------------------------------------------ *)
(** ** Named answers

    The responses that the statements below refer to, as the code builds
    them. *)

(** [canAccessSchool] on a school admin who names another school. *)
Definition WrongTenant (u : User) (own : ObjectId) (requested : string)
  : Response :=
  reply 403
    ["message" ~> JStr "Access denied. You can only access your own school data.";
     "currentRole" ~> JStr (u_role u);
     "yourSchoolId" ~> jid own;
     "requestedSchoolId" ~> JStr requested].

(** [canPerformCRUD] on anyone but a super admin. *)
Definition RoleInsufficient (u : User) (operation : string) : Response :=
  reply 403
    ["message" ~> JStr "Access denied. CRUD operations are restricted to super admins only.";
     "requiredRole" ~> JStr "super_admin";
     "currentRole" ~> JStr (u_role u);
     "operation" ~> JStr operation].

(** [protect] on a token whose user is not in [users]. *)
Definition IdentityGone : Response := failure_error 401 "User not found".

(** [protect] on a token that [jwt.verify] rejects, expired or not. *)
Definition TokenFailed : Response :=
  failure_error 401 "Not authorized, token failed".

Definition InvalidCredentials : Response := failure 401 "Invalid credentials".
Definition AccountDeactivated : Response := failure 401 "Account is deactivated".
Definition EmailTaken : Response := failure 400 "Email already registered".
Definition EmailTakenAdmins : Response :=
  failure 400 "Email already registered (admins)".
Definition ServerError : Response := failure 500 "Server error".

(** [/refresh] on a token that is not the stored one. *)
Definition StaleRefresh : Response := failure_error 401 "Invalid refresh token".
Definition RefreshExpired : Response := failure_error 401 "Refresh token expired".

(** A request that [protect] lets through as [u]. *)
Definition authenticated (env : Env) (io : Io) (db : DB) (req : Request)
           (u : User) : Prop :=
  protect env io db req = next (set_user req u).

(** [Authorization: Bearer <token>]. *)
Definition bearer (t : Token) : option (list Token) :=
  Some [Plain "Bearer"; t].

(** The header that carries the token just signed, if one was signed. *)
Definition bearer_of (t : option Token) : option (list Token) :=
  match t with
  | Some t => bearer t
  | None => None
  end.

(* ------------------------------------------------------------------ *)
(** ** Vocabulary of the statements *)

(** The legacy record that decides a login for [email] when [users] has no
    document for it: the record of [admins] that is not deleted, else that
    of [school_admins], each with the default name and the role of its
    collection. *)
Definition deciding_record (db : DB) (email : string)
  : option (Legacy * string * string) :=
  match legacy_findOne (admins db) email true with
  | Some r => Some (r, "Admin", "super_admin")
  | None =>
      match legacy_findOne (school_admins db) email true with
      | Some r => Some (r, "School Admin", "school_admin")
      | None => None
      end
  end.

(** The user document that the upsert of [/login] inserts for the legacy
    record [r]. *)
Definition materialized (io : Io) (r : Legacy) (dflt role : string) : User :=
  mkUser (newId io) (JS.trim (JS.or_else (l_name r) dflt)) (l_email r)
         (l_password r) role None true (now io) None.

(** Two user documents that differ at most in [password], [lastLogin] and
    [refreshToken]. *)
Definition same_account (u v : User) : Prop :=
  u_id u = u_id v /\ u_name u = u_name v /\ u_email u = u_email v
  /\ u_role u = u_role v /\ u_isActive u = u_isActive v
  /\ u_schoolId u = u_schoolId v.

Section Vocabulary.

Context {lib : Lib}.




End Vocabulary.

(** The answer of [/refresh] to a stale token [t] at [io]: the token is
    verified before it is compared. *)
Definition stale_answer (env : Env) (io : Io) (t : Token) : Response :=
  match jwt.verify (Some t) (JWT_REFRESH_SECRET env) io with
  | inl jwt.TokenExpiredError => RefreshExpired
  | _ => StaleRefresh
  end.

(** The answer of a successful [/refresh]. *)
Definition rotated (newToken newRefreshToken : Token) : Response :=
  reply 200 ["success" ~> JBool true;
             "token" ~> JTok newToken;
             "refreshToken" ~> JTok newRefreshToken].

(** The answer of a successful [/register] or [/login]. *)
Definition session (code : nat) (token refreshToken : Token) (u : User)
  : Response :=
  reply code ["success" ~> JBool true;
              "token" ~> JTok token;
              "refreshToken" ~> JTok refreshToken;
              "user" ~> user_json u].

(** Evaluation of the plumbing of a handler. *)
Ltac run :=
  cbv beta iota zeta delta
      [bind ret gets modify throw respond orThrow try_catch
       User_findOne User_findById compare_field].

Ltac run_in H :=
  cbv beta iota zeta delta
      [bind ret gets modify throw respond orThrow try_catch
       User_findOne User_findById compare_field] in H.

(** [/login] on a body, laid open. *)
Ltac open_login :=
  unfold login, login_on;
  cbn [env_credentials text];
  repeat match goal with
         | |- context [login_chains_on (login_email ?b)
                                       (FStr (login_password ?b))] =>
             change (login_chains_on (login_email b) (FStr (login_password b)))
               with (login_chains b)
         end.

(* ------------------------------------------------------------------ *)
(** ** Sample data

    A library instance and a few documents on which the statements are run.
    [isEmail] is instantiated by the schema pattern, which agrees with
    validator.js on the addresses used here; the hash puts twenty-two
    characters of the salt in front of thirty-one characters of the data,
    and [compare] looks for the data behind a salt.  The first error of a
    validation is the first of the list. *)

Module Sample.

Definition salt22 : string := "abcdefghijklmnopqrstuv".

(** [n] characters of [s], filled up with NUL. *)
Fixpoint fit (n : nat) (s : string) : string :=
  match n with
  | O => EmptyString
  | S n' =>
      match s with
      | EmptyString => String Ascii.zero (fit n' EmptyString)
      | String c s' => String c (fit n' s')
      end
  end.

Definition hash (data salt : string) : string :=
  "$2a$12$" ++ fit 22 salt ++ fit 31 data.

Definition compare (data hashed : string) : bool :=
  String.prefix "$2a$12$" hashed
  && (String.substring 29 31 hashed =? fit 31 data).

Definition fit_length : forall n s, String.length (fit n s) = n :=
  fix go (n : nat) (s : string) {struct n} : String.length (fit n s) = n :=
    match n with
    | O => eq_refl
    | S n' =>
        match s with
        | EmptyString => f_equal S (go n' EmptyString)
        | String _ s' => f_equal S (go n' s')
        end
    end.

Definition append_length : forall s t,
    String.length (s ++ t) = (String.length s + String.length t)%nat :=
  fix go (s t : string) {struct s} :=
    match s with
    | EmptyString => eq_refl
    | String _ s' => f_equal S (go s' t)
    end.

Definition hash_length (data salt : string)
  : String.length (hash data salt) = 60%nat :=
  eq_trans (append_length "$2a$12$" (fit 22 salt ++ fit 31 data))
    (f_equal (Nat.add 7)
       (eq_trans (append_length (fit 22 salt) (fit 31 data))
          (f_equal2 Nat.add (fit_length 22 salt) (fit_length 31 data)))).

#[export] Instance lib : Lib := {|
  isEmail := Patterns.email_match;
  bcrypt_hash := hash;
  bcrypt_compare := compare;
  first_error := @hd_error string;
  bcrypt_hash_length := hash_length;
  first_error_single := fun m => eq_refl
|}.

Definition oid (hex : string) (wf : isObjectIdHex hex = true) : ObjectId :=
  mkObjectId hex wf.

Definition T1 : ObjectId := oid "64b000000000000000000001" eq_refl.
Definition T2 : ObjectId := oid "64b000000000000000000002" eq_refl.
Definition id_a : ObjectId := oid "64a00000000000000000000a" eq_refl.
Definition id_b : ObjectId := oid "64a00000000000000000000b" eq_refl.
Definition id_c : ObjectId := oid "64a00000000000000000000c" eq_refl.

Definition env : Env :=
  mkEnv (Some "access-secret") None (Some "refresh-secret") None
        None None None.

(** The same, with the flag of the README switched on. *)
Definition env_crud : Env :=
  mkEnv (Some "access-secret") None (Some "refresh-secret") None
        None None (Some "true").

Definition io0 : Io := mkIo 1700000000500 id_c salt22 None.

(** Seven days later. *)
Definition io_week : Io := mkIo (1700000000500 + 604800000) id_c salt22 None.

(** A school admin of [T1]. *)
Definition alice : User :=
  mkUser id_a "Alice" "a@x.com" (hash "secret1" salt22) "school_admin"
         (Some T1) true 0 None.

(** The same account, deactivated. *)
Definition alice_off : User :=
  mkUser id_a "Alice" "a@x.com" (hash "secret1" salt22) "school_admin"
         (Some T1) false 0 None.

Definition db_alice : DB := mkDB [alice] [] [] [].
Definition db_alice_off : DB := mkDB [alice_off] [] [] [].

Definition access_a : Token :=
  Signed "access-secret" id_a 1700000000 (1700000000 + seven_days).

Definition get (path : option string) : Request :=
  mkRequest "GET" (bearer access_a) None None path None.

Definition delete : Request :=
  mkRequest "DELETE" (bearer access_a) None None None None.

Definition post : Request :=
  mkRequest "POST" (bearer access_a) None None None None.

Definition db_empty : DB := mkDB [] [] [] [].

(** Registration bodies. *)
Definition reg_super : RegisterBody :=
  mkRegisterBody "Mallory" "m@x.com" "secret1" (Some "super_admin") None.

Definition reg_plain : RegisterBody :=
  mkRegisterBody "Mallory" "m@x.com" "secret1" None None.

Definition reg_taken : RegisterBody :=
  mkRegisterBody "Alice Again" "a@x.com" "secret2" None (Some "admins").

(** Legacy records for one address, with different passwords. *)
Definition bob_admin : Legacy :=
  mkLegacy (Some "Bob") "b@y.com" (hash "adminpw1" salt22) false.

Definition bob_admin_deleted : Legacy :=
  mkLegacy (Some "Bob") "b@y.com" (hash "adminpw1" salt22) true.

Definition bob_school : Legacy :=
  mkLegacy (Some " Bob B. ") "b@y.com" (hash "schoolpw" salt22) false.

Definition db_two_stores : DB := mkDB [] [bob_admin] [bob_school] [].
Definition db_deleted_admin : DB := mkDB [] [bob_admin_deleted] [bob_school] [].

Definition login_bob : LoginBody := mkLoginBody "b@y.com" "schoolpw".
Definition login_alice : LoginBody := mkLoginBody "a@x.com" "secret1".

(** The refresh token that a login of Alice at [io0] returns. *)
Definition refresh_a : Token :=
  Signed "refresh-secret" id_a 1700000000 (1700000000 + thirty_days).

(** The same token signed one second earlier. *)
Definition refresh_a_old : Token :=
  Signed "refresh-secret" id_a 1699999999 (1699999999 + thirty_days).

Definition alice_session (t : Token) : User :=
  mkUser id_a "Alice" "a@x.com" (hash "secret1" salt22) "school_admin"
         (Some T1) true 0 (Some t).

(** One minute after [io0]. *)
Definition io_minute : Io := mkIo (1700000000500 + 60000) id_c salt22 None.

(** A second onboarding of Alice, who belongs to [T1] already. *)
Definition acme : School :=
  mkSchool T1 "Acme" "CBSE" "Alice" "a@x.com" "+15551234567" None None None
           "active".

Definition db_onboarded : DB := mkDB [alice] [] [] [acme].

Definition acme_two : OnboardingBody :=
  mkOnboardingBody "Acme Two" "CBSE" "Alice" "a@x.com" "+1 (555) 123-4567"
                   None None None.

End Sample.

(* ------------------------------------------------------------------ *)
(** ** The other middleware *)

(** [requireSuperAdmin] ([src/middleware/roleAuth.js], lines 4 to 22). *)
Definition requireSuperAdmin (req : Request) : Step :=
  match user req with
  | None => send (reply 401 ["message" ~> JStr "Authentication required"])
  | Some u =>
      if negb (u_role u =? "super_admin") then
        send (reply 403
               ["message" ~> JStr "Access denied. Super admin privileges required.";
                "requiredRole" ~> JStr "super_admin";
                "currentRole" ~> JStr (u_role u)])
      else next req
  end.

(** The guards that [src/middleware/auth.js] exports beside [protect]
    (lines 43 to 83).  They are synchronous and have no [catch]. *)
Module auth.

Definition denied (error : string) : Response :=
  reply 403 ["success" ~> JBool false; "error" ~> JStr error].

Definition requireSuperAdmin (req : Request) : Step :=
  match user req with
  | Some u =>
      if u_role u =? "super_admin" then next req
      else send (denied "Access denied. Super admin privileges required.")
  | None => send (denied "Access denied. Super admin privileges required.")
  end.

Definition requireSchoolAdmin (req : Request) : Step :=
  match user req with
  | Some u =>
      if u_role u =? "school_admin" then next req
      else send (denied "Access denied. School admin privileges required.")
  | None => send (denied "Access denied. School admin privileges required.")
  end.

(** [req.user.schoolId === schoolId]: an [ObjectId] is an object and is
    never identical to a string; the two sides are identical only when both
    are [undefined]. *)
Definition same_school (own : option ObjectId) (schoolId : option string)
  : bool :=
  match own, schoolId with
  | None, None => true
  | _, _ => false
  end.

(** [canAccessSchool]; [None] when reading [req.user.role] throws. *)
Definition canAccessSchool (req : Request) : option Step :=
  let schoolId := requestedSchoolId req in
  match user req with
  | None => None
  | Some u =>
      if u_role u =? "super_admin" then Some (next req)
      else if (u_role u =? "school_admin") && same_school (u_schoolId u) schoolId
      then Some (next req)
      else Some (send (denied
             "Access denied. You can only access your assigned school data."))
  end.

End auth.

(* ------------------------------------------------------------------ *)
(** ** The other routes that scope to a school

    [new mongoose.Types.ObjectId(s)] and the cast of [findById] belong to
    the driver: [ObjectId_from s] is the identifier that [s] denotes, if it
    denotes one, and the two messages are those of the errors raised when
    it does not. *)

Class Bson : Type := {
  ObjectId_from : string -> option ObjectId;
  BSONError_message : string -> string;
  CastError_message : string -> string
}.

Section Scoped.

Context {bson : Bson}.

Definition caught (message : string) : Response :=
  reply 500 ["message" ~> JStr "Server error"; "error" ~> JStr message].

Definition role_of_undefined : string :=
  "Cannot read properties of undefined (reading 'role')".

(** [GET /api/students/stats/overview] ([src/routes/students.js], lines 270
    to 283): the [schoolId] entry of the [$match] stage. *)
Definition students_stats_query (req : Request)
  : Response + option QueryValue :=
  if JS.truthy (query_schoolId req) then
    match ObjectId_from (JS.default (query_schoolId req) "") with
    | Some i => inr (Some (QId (Some i)))
    | None => inl (reply 400 ["message" ~> JStr "Invalid schoolId"])
    end
  else
    match user req with
    | Some u =>
        if u_role u =? "school_admin" then
          match u_schoolId u with
          | Some own =>
              match ObjectId_from (toString own) with
              | Some i => inr (Some (QId (Some i)))
              | None => inl (caught (BSONError_message (toString own)))
              end
          | None => inr None
          end
        else inr None
    | None => inr None
    end.

Definition students_stats (env : Env) (io : Io) (db : DB) (req : Request)
  : Response + option QueryValue :=
  match chain [protect env io db; canViewData; canAccessSchool] req with
  | send r => inl r
  | next req' => students_stats_query req'
  end.

(** [GET /api/students/search/advanced] (lines 363 to 391): the
    [schoolId] entry of the query. *)
Definition students_search_query (req : Request) : option QueryValue :=
  if JS.truthy (query_schoolId req)
  then Some (QStr (JS.default (query_schoolId req) ""))
  else None.

Definition students_search (env : Env) (io : Io) (db : DB) (req : Request)
  : Response + option QueryValue :=
  match chain [protect env io db; canViewData; canAccessSchool] req with
  | send r => inl r
  | next req' => inr (students_search_query req')
  end.

(** [GET /api/schools/:id] ([src/routes/schools.js], lines 49 to 63): the
    answer, or the school document that is sent. *)
Definition schools_get_handler (db : DB) (req : Request) (id : string)
  : Response + School :=
  match ObjectId_from id with
  | None => inl (caught (CastError_message id))
  | Some i =>
      match find (fun s => oid_eqb (s_id s) i) (schools db) with
      | None => inl (reply 404 ["message" ~> JStr "School not found"])
      | Some school =>
          match user req with
          | None => inl (caught role_of_undefined)
          | Some u =>
              if u_role u =? "school_admin" then
                match u_schoolId u with
                | None =>
                    inl (caught
                      "Cannot read properties of undefined (reading 'toString')")
                | Some own =>
                    if negb (toString (s_id school) =? toString own)
                    then inl (reply 403
                      ["message" ~> JStr "Access denied. You can only view your own school."])
                    else inr school
                end
              else inr school
          end
      end
  end.

Definition schools_get (env : Env) (io : Io) (db : DB) (req : Request)
           (id : string) : Response + School :=
  match chain [protect env io db; canViewData; canAccessSchool] req with
  | send r => inl r
  | next req' => schools_get_handler db req' id
  end.

End Scoped.

(* ------------------------------------------------------------------ *)
(** ** More sample data *)

Module Fixture.

(** The driver on strings of 24 lower-case hexadecimal digits, which every
    version accepts. *)
Definition parse (s : string) : option ObjectId :=
  match isObjectIdHex s as ok return isObjectIdHex s = ok -> option ObjectId with
  | true => fun wf => Some (mkObjectId s wf)
  | false => fun _ => None
  end eq_refl.

#[export] Instance bson : Bson := {|
  ObjectId_from := parse;
  BSONError_message := fun _ => "input must be a 24 character hex string";
  CastError_message := fun s => "Cast to ObjectId failed for value " ++ s
|}.

(** Alice names her own school in the body and another in the query
    string. *)
Definition get_mixed : Request :=
  mkRequest "GET" (bearer Sample.access_a) None
            (Some (toString Sample.T1)) (Some (toString Sample.T2)) None.

Definition acme2 : School :=
  mkSchool Sample.T2 "Beta" "ICSE" "Bob" "b@y.com" "+15550000000" None None
           None "active".

Definition db_schools : DB := mkDB [Sample.alice] [] [] [Sample.acme; acme2].

(** A super admin, and a request of hers behind [protect]. *)
Definition root : User :=
  mkUser Sample.id_b "Root" "root@x.com" (Sample.hash "rootpw1" Sample.salt22)
         "super_admin" None true 0 None.

Definition delete_as_root : Request :=
  mkRequest "DELETE" None None (Some (toString Sample.T2)) None (Some root).

(** A request of Alice behind [protect] that names her school. *)
Definition get_as_alice : Request :=
  mkRequest "GET" None None None (Some (toString Sample.T1)) (Some Sample.alice).

End Fixture.

(* ------------------------------------------------------------------ *)
(** ** Logout, and the routes taken together *)

(** [POST /api/auth/logout], behind [protect] ([src/routes/auth.js], lines
    192 to 209). *)
Definition logout (env : Env) (io : Io) (req : Request)
  : DB -> Response * DB :=
  fun db =>
    match protect env io db req with
    | send r => (r, db)
    | next req' =>
        try_catch
          (user <- orThrow (user req') (Error "TypeError") ;;
           User_save false (set_refreshToken user None) ;;
           ret (reply 200 ["success" ~> JBool true;
                           "message" ~> JStr "Logged out successfully"]))
          (fun _ => failure_error 500 "Server error")
          db
    end.

(** [userSchema.methods.changedPasswordAfter] ([src/models/User.js], lines
    89 to 101), as a function of [this.passwordChangedAt], a date given by
    its milliseconds; [parseInt] cuts the quotient towards zero. *)
Definition changedPasswordAfter (passwordChangedAt : option Z)
           (JWTTimestamp : Z) : bool :=
  match passwordChangedAt with
  | Some ms => (JWTTimestamp <? Z.quot ms 1000)%Z
  | None => false
  end.

(** A request to one of the routes of [src/routes/auth.js] that write. *)
Inductive Call : Type :=
| Register (b : RegisterBody)
| Login (email : string) (password : Field)
| Refresh (refreshToken : option Token)
| Logout (req : Request)
| Onboarding (req : Request) (b : OnboardingBody).

Section Serve.

Context {lib : Lib}.

Definition serve (env : Env) (io : Io) (c : Call) : DB -> Response * DB :=
  match c with
  | Register b => register env io b
  | Login email password => login_on env io email password
  | Refresh t => refresh env io t
  | Logout req => logout env io req
  | Onboarding req b => onboarding env io req b
  end.

(** The database after a sequence of requests, each with what it takes
    from outside. *)
Fixpoint serve_all (env : Env) (calls : list (Io * Call)) (db : DB) : DB :=
  match calls with
  | [] => db
  | (io, c) :: rest => serve_all env rest (snd (serve env io c db))
  end.

End Serve.

(** The keys of [users] are unique. *)
Definition unique_keys (db : DB) : Prop :=
  NoDup (map u_id (users db)) /\ NoDup (map u_email (users db)).

(** [users] holds a document with the [_id] and the [email] of [doc]. *)
Definition present (doc : User) (db : DB) : Prop :=
  exists v, In v (users db) /\ u_id v = u_id doc /\ u_email v = u_email doc.

(** A step of a handler, started where the keys are unique and [P] holds:
    it keeps the keys unique, keeps every document present, and returns a
    value with [Q]. *)
Definition sound {A : Type} (P : DB -> Prop) (c : M A)
           (Q : A -> DB -> Prop) : Prop :=
  forall db,
    unique_keys db -> P db ->
    unique_keys (snd (c db))
    /\ (forall doc, present doc db -> present doc (snd (c db)))
    /\ (forall a, fst (c db) = Val a -> Q a (snd (c db))).

(** The password that the second [save] of [/login] stores for a document
    whose stored hash is [password]. *)
Definition stored_password {lib : Lib} (io : Io) (password : string) : string :=
  match late io with
  | None => password
  | Some (salt1, salt2) => bcrypt_hash (bcrypt_hash password salt1) salt2
  end.

(** The document that an accepted login of [u] at [io] leaves in [users]. *)
Definition logged_in {lib : Lib} (io : Io) (u : User) (refreshToken : Token)
  : User :=
  set_password (set_refreshToken (set_lastLogin u (now io)) (Some refreshToken))
               (stored_password io (u_password u)).


(** The document that a login of the environment super admin leaves in
    place of [u]. *)
Definition taken_over {lib : Lib} (io : Io) (u : User) (email password : string)
           (refreshToken : Token) : User :=
  mkUser (u_id u) "Super Admin" email (bcrypt_hash password (salt io))
         "super_admin" (u_schoolId u) true (u_lastLogin u) (Some refreshToken).

(** The school document that [/onboarding] builds from a body. *)
Definition school_of (io : Io) (b : OnboardingBody) : School :=
  mkSchool (newId io) (JS.trim (schoolName b)) (safeBoard (board b))
           (JS.trim (adminName b)) (adminEmail b)
           (sanitizedPhone (adminPhone b)) (address_of (schoolAddress b))
           (if_truthy (website b)) (if_truthy (description b)) "active".

(** The document that [/register] creates from a body, with the refresh
    token that it holds at a given moment. *)
Definition registered {lib : Lib} (io : Io) (b : RegisterBody)
           (refreshToken : option Token) : User :=
  mkUser (newId io) (JS.trim (reg_name b)) (reg_email b)
         (bcrypt_hash (reg_password b) (salt io))
         (JS.default (reg_role b) "school_admin") None true (now io)
         refreshToken.

(** The database after the creation steps of [/register], before the
    tokens are signed. *)
Definition created {lib : Lib} (io : Io) (b : RegisterBody) (db : DB) : DB :=
  let db1 := with_users (fun l => (l ++ [registered io b None])%list) db in
  if JS.default (reg_target b) "users" =? "admins" then
    with_admins
      (fun l => (l ++ [mkLegacy (Some (reg_name b)) (reg_email b)
                                (bcrypt_hash (reg_password b) (salt io))
                                false])%list) db1
  else db1.

(** The answer of a successful [/logout]. *)
Definition LoggedOut : Response :=
  reply 200 ["success" ~> JBool true;
             "message" ~> JStr "Logged out successfully"].

(* ------------------------------------------------------------------ *)
(** ** Further sample data *)

Module Cases.

(** No [JWT_SECRET]. *)
Definition env_unsigned : Env :=
  mkEnv None None (Some "refresh-secret") None None None None.

(** The environment super admin holds the address of Alice. *)
Definition env_root : Env :=
  mkEnv (Some "access-secret") None (Some "refresh-secret") None
        (Some "a@x.com") (Some "rootpw1") None.

(** One secret for both kinds of token. *)
Definition env_one_secret : Env :=
  mkEnv (Some "one-secret") None (Some "one-secret") None None None None.

Definition login_root : LoginBody := mkLoginBody "a@x.com" "rootpw1".

(** A login in which the late re-hash of the first save is done before
    the second save begins. *)
Definition salt_late : string := "ABCDEFGHIJKLMNOPQRSTUV".
Definition salt_again : string := "0123456789abcdefghijkl".

Definition io_late : Io :=
  mkIo 1700000000500 Sample.id_c Sample.salt22 (Some (salt_late, salt_again)).

(** Alice with the refresh token of a login at [io0]. *)
Definition db_session : DB :=
  mkDB [Sample.alice_session Sample.refresh_a] [] [] [].

(** A request that bears the refresh token of Alice. *)
Definition get_with_refresh_token (t : Token) : Request :=
  mkRequest "GET" (bearer t) None None None None.

(** Bob has been materialized from [school_admins]; later the record of
    [admins] comes back with another password. *)
Definition bob : User :=
  mkUser Sample.id_b "Bob B." "b@y.com" (Sample.hash "schoolpw" Sample.salt22)
         "school_admin" None true 0 None.

Definition db_bob : DB := mkDB [bob] [] [Sample.bob_school] [].
Definition db_bob_later : DB := mkDB [bob] [Sample.bob_admin] [] [].

(** An onboarding whose contact name fits a school and not a user. *)
Definition long_name : string :=
  "Alexandria Bartholomew Cunningham-Featherstonehaugh the Third".

Definition acme_long : OnboardingBody :=
  mkOnboardingBody "Acme Two" "CBSE" long_name "a@x.com" "+1 (555) 123-4567"
                   None None None.

End Cases.

(** The user document that a successful [/onboarding] stores for [u]. *)
Definition onboarded (io : Io) (b : OnboardingBody) (u : User) : User :=
  set_name (set_schoolId u (newId io)) (JS.trim (adminName b)).

(** The answer of a successful [/onboarding]. *)
Definition Onboarded (u : User) : Response :=
  reply 200 ["success" ~> JBool true; "user" ~> user_json u].

(** [canAccessSchool] on a school admin who has no school. *)
Definition NoSchool (u : User) : Response :=
  reply 403 ["message" ~> JStr "School admin not associated with any school";
             "currentRole" ~> JStr (u_role u)].

(** Case analysis on the innermost condition of a handler. *)
Ltac split_innermost :=
  match goal with
  | |- context [match ?x with _ => _ end] =>
      lazymatch x with
      | context [match _ with _ => _ end] => fail
      | _ => destruct x eqn:?
      end
  end.

(* ================================================================== *)
(** * Properties *)

(** ** The patterns on a few inputs *)

Example email_match_examples :
  map Patterns.email_match
      ["a@x.com"; "first.last@school-mail.co.in"; "a@x.info"; "a+b@x.com";
       "a@x"; "a..b@x.com"; ""]
  = [true; true; false; false; false; false; false].
Proof. reflexivity. Qed.

Example phone_match_examples :
  map Patterns.phone_match
      ["+15551234567"; "1"; "0123"; "+"; "1234567890123456";
       "12345678901234567"]
  = [true; true; false; false; true; false].
Proof. reflexivity. Qed.

Example website_match_examples :
  map Patterns.website_match
      ["https://www.acme.org"; "see http://acme.org/x?y=1 now"; "acme.org";
       "http://a.b_c"]
  = [true; true; false; false].
Proof. reflexivity. Qed.

Example trim_examples :
  map JS.trim ["  ab c  "; "   "; "x"] = ["ab c"; ""; "x"].
Proof. reflexivity. Qed.

Example sanitizedPhone_example :
  sanitizedPhone "+1 (555) 123-4567" = "+15551234567".
Proof. reflexivity. Qed.

(** ** Identifiers *)

Lemma ObjectId_ext (a b : ObjectId) : toString a = toString b -> a = b.
Proof.
  destruct a as [ha wa], b as [hb wb]; unfold toString; simpl.
  intros ->. f_equal. apply UIP_dec, bool_dec.
Qed.

Lemma oid_eqb_eq (a b : ObjectId) : oid_eqb a b = true <-> a = b.
Proof.
  unfold oid_eqb. rewrite String.eqb_eq. split.
  - apply ObjectId_ext.
  - now intros ->.
Qed.

Lemma oid_eqb_refl (a : ObjectId) : oid_eqb a a = true.
Proof. now apply oid_eqb_eq. Qed.

Lemma oid_eqb_neq (a b : ObjectId) : oid_eqb a b = false <-> a <> b.
Proof.
  rewrite <- oid_eqb_eq. destruct (oid_eqb a b); split; congruence.
Qed.

Lemma toString_nonempty (a : ObjectId) : toString a <> "".
Proof.
  destruct a as [h w]; unfold toString; simpl. intros ->. discriminate w.
Qed.

Lemma toString_truthy (a : ObjectId) : JS.truthy (Some (toString a)) = true.
Proof.
  unfold JS.truthy. apply negb_true_iff, String.eqb_neq, toString_nonempty.
Qed.

Lemma token_eqb_eq (a b : Token) : token_eqb a b = true <-> a = b.
Proof.
  destruct a as [k i t e | s], b as [k' i' t' e' | s']; simpl;
    try (split; [discriminate | congruence]).
  - rewrite !andb_true_iff, String.eqb_eq, oid_eqb_eq, !Z.eqb_eq.
    split; [intros [[[-> ->] ->] ->]; reflexivity | intros [= -> -> -> ->]; auto].
  - rewrite String.eqb_eq. split; congruence.
Qed.

(** ** Authorization policy *)

Lemma canViewData_admins (req : Request) (u : User) :
  user req = Some u ->
  u_role u = "super_admin" \/ u_role u = "school_admin" ->
  canViewData req = next req.
Proof.
  intros Hu [Hr | Hr]; unfold canViewData; rewrite Hu, Hr; reflexivity.
Qed.

Lemma canAccessSchool_other (req : Request) (u : User) (own other : ObjectId) :
  user req = Some u ->
  u_role u = "school_admin" ->
  u_schoolId u = Some own ->
  other <> own ->
  requestedSchoolId req = Some (toString other) ->
  canAccessSchool req = send (WrongTenant u own (toString other)).
Proof.
  intros Hu Hr Hs Hne Hq. unfold canAccessSchool.
  rewrite Hu, Hr, Hs, Hq, toString_truthy. simpl.
  assert ((toString other =? toString own) = false) as ->.
  { apply String.eqb_neq. intros E. apply Hne, ObjectId_ext, E. }
  unfold WrongTenant. rewrite Hr. reflexivity.
Qed.

Lemma canAccessSchool_own (req : Request) (u : User) (own : ObjectId) :
  user req = Some u ->
  u_role u = "school_admin" ->
  u_schoolId u = Some own ->
  JS.truthy (requestedSchoolId req) = false ->
  canAccessSchool req = next req.
Proof.
  intros Hu Hr Hs Hq. unfold canAccessSchool.
  rewrite Hu, Hr, Hs, Hq. reflexivity.
Qed.

Lemma canPerformCRUD_not_super (req : Request) (u : User) :
  user req = Some u ->
  u_role u <> "super_admin" ->
  canPerformCRUD req = send (RoleInsufficient u (method req)).
Proof.
  intros Hu Hr. unfold canPerformCRUD. rewrite Hu.
  apply String.eqb_neq in Hr. rewrite Hr. reflexivity.
Qed.

Lemma chain_protect env io db ms req u :
  authenticated env io db req u ->
  chain (protect env io db :: ms) req = chain ms (set_user req u).
Proof. unfold authenticated. intros H. simpl. now rewrite H. Qed.

(** [GET /api/schools] does not run [canAccessSchool] and reads no
    [schoolId]: a school admin is scoped to the own school whatever the
    request names. *)
Lemma schools_list_scoped env io db req u own :
  authenticated env io db req u ->
  u_role u = "school_admin" ->
  u_schoolId u = Some own ->
  schools_list env io db req = inr (Some (QId (Some own))).
Proof.
  intros Ha Hr Hs. unfold schools_list.
  rewrite (chain_protect _ _ _ _ _ _ Ha). cbn [chain].
  rewrite (canViewData_admins _ u); auto.
  unfold schools_query. cbn [user set_user]. now rewrite Hr, Hs.
Qed.

(** C1, as the code has it.  A school admin of [T1] who lists students and
    names another school [T2] is answered 403 by [canAccessSchool]; the
    same admin naming no school is let through, and the query is scoped to
    [T1].  The schools list runs no [canAccessSchool] and reads no school
    from the request: naming [T2] is not refused there, and the query is
    scoped to [T1] whether a school is named or not. *)
Theorem school_admin_tenant_scope
        (env : Env) (io : Io) (db : DB) (u : User) (T1 T2 : ObjectId)
        (named omitted : Request) :
  u_role u = "school_admin" ->
  u_schoolId u = Some T1 ->
  T2 <> T1 ->
  authenticated env io db named u ->
  requestedSchoolId named = Some (toString T2) ->
  authenticated env io db omitted u ->
  JS.truthy (requestedSchoolId omitted) = false ->
  students_list env io db named = inl (WrongTenant u T1 (toString T2))
  /\ students_list env io db omitted = inr (Some (QId (Some T1)))
  /\ schools_list env io db named = inr (Some (QId (Some T1)))
  /\ schools_list env io db omitted = inr (Some (QId (Some T1))).
Proof.
  intros Hr Hs Hne Hn Hq Ho Hf.
  rewrite (schools_list_scoped env io db named u T1 Hn Hr Hs).
  rewrite (schools_list_scoped env io db omitted u T1 Ho Hr Hs).
  unfold students_list.
  rewrite (chain_protect _ _ _ _ _ _ Hn), !(chain_protect _ _ _ _ _ _ Ho).
  cbn [chain].
  rewrite (canViewData_admins _ u), (canViewData_admins _ u); auto.
  rewrite (canAccessSchool_other _ u T1 T2), (canAccessSchool_own _ u T1); auto.
  unfold students_query. cbn [user set_user].
  rewrite Hr, Hs. auto.
Qed.

Lemma school_admin_tenant_scope_witness :
  students_list Sample.env Sample.io0 Sample.db_alice
                (Sample.get (Some (toString Sample.T2)))
  = inl (WrongTenant Sample.alice Sample.T1 (toString Sample.T2))
  /\ students_list Sample.env Sample.io0 Sample.db_alice (Sample.get None)
     = inr (Some (QId (Some Sample.T1)))
  /\ schools_list Sample.env Sample.io0 Sample.db_alice
                  (Sample.get (Some (toString Sample.T2)))
     = inr (Some (QId (Some Sample.T1)))
  /\ schools_list Sample.env Sample.io0 Sample.db_alice (Sample.get None)
     = inr (Some (QId (Some Sample.T1))).
Proof.
  apply (school_admin_tenant_scope Sample.env Sample.io0 Sample.db_alice
           Sample.alice Sample.T1 Sample.T2).
  - reflexivity.
  - reflexivity.
  - intros E. discriminate (f_equal toString E).
  - reflexivity.
  - reflexivity.
  - reflexivity.
  - reflexivity.
Defined.

(** Against C1 as stated: on the schools list Alice, of [T1], names [T2]
    and is not refused. *)
Lemma schools_list_does_not_refuse_other_school :
  u_schoolId Sample.alice = Some Sample.T1
  /\ requestedSchoolId (Sample.get (Some (toString Sample.T2)))
     = Some (toString Sample.T2)
  /\ Sample.T2 <> Sample.T1
  /\ schools_list Sample.env Sample.io0 Sample.db_alice
                  (Sample.get (Some (toString Sample.T2)))
     = inr (Some (QId (Some Sample.T1)))
  /\ schools_list Sample.env Sample.io0 Sample.db_alice
                  (Sample.get (Some (toString Sample.T2)))
     <> inl (WrongTenant Sample.alice Sample.T1 (toString Sample.T2)).
Proof.
  repeat split; discriminate.
Qed.

(** C3.  A school admin who reaches a mutating route is answered 403 by
    [canPerformCRUD] whatever school the request names and whatever the
    environment holds: [ENABLE_CRUD_FOR_SCHOOL_ADMIN], the flag that the
    README documents, is read nowhere and lifts nothing. *)
Theorem school_admin_mutation_denied
        (env : Env) (io : Io) (db : DB) (req : Request) (u : User) :
  authenticated env io db req u ->
  u_role u = "school_admin" ->
  mutation_gate env io db req = send (RoleInsufficient u (method req)).
Proof.
  intros Ha Hr. unfold mutation_gate.
  rewrite (chain_protect _ _ _ _ _ _ Ha). cbn [chain].
  rewrite (canPerformCRUD_not_super _ u); [reflexivity | reflexivity | ].
  rewrite Hr. discriminate.
Qed.

Lemma school_admin_mutation_denied_witness :
  ENABLE_CRUD_FOR_SCHOOL_ADMIN Sample.env_crud = Some "true"
  /\ mutation_gate Sample.env_crud Sample.io0 Sample.db_alice Sample.delete
     = send (RoleInsufficient Sample.alice "DELETE").
Proof.
  split; [reflexivity | ].
  apply (school_admin_mutation_denied Sample.env_crud Sample.io0
           Sample.db_alice Sample.delete Sample.alice); reflexivity.
Defined.

(** ** Request gate *)

Lemma protect_bearer env io db req t :
  authorization req = bearer t ->
  protect env io db req =
  match jwt.verify (Some t) (JWT_SECRET env) io with
  | inr decoded =>
      match findById (users db) (jwt.id decoded) with
      | None => send IdentityGone
      | Some u => next (set_user req u)
      end
  | inl _ => send TokenFailed
  end.
Proof. intros H. unfold protect. rewrite H. reflexivity. Qed.

(** The half of C2 that the code keeps: a valid token whose user has been
    removed is answered 401 and the handler does not run. *)
Lemma protect_identity_gone env io db req t decoded :
  authorization req = bearer t ->
  jwt.verify (Some t) (JWT_SECRET env) io = inr decoded ->
  findById (users db) (jwt.id decoded) = None ->
  protect env io db req = send IdentityGone.
Proof.
  intros Ha Hv Hf. rewrite (protect_bearer _ _ _ _ _ Ha), Hv, Hf. reflexivity.
Qed.

(** C2.  [protect] does not look at [isActive]: a request that bears a
    valid token of a deactivated user is passed on to the handler with that
    user as [req.user]. *)
Theorem protect_passes_deactivated
        (env : Env) (io : Io) (db : DB) (req : Request) (t : Token)
        (decoded : jwt.Payload) (u : User) :
  authorization req = bearer t ->
  jwt.verify (Some t) (JWT_SECRET env) io = inr decoded ->
  findById (users db) (jwt.id decoded) = Some u ->
  u_isActive u = false ->
  protect env io db req = next (set_user req u).
Proof.
  intros Ha Hv Hf _. rewrite (protect_bearer _ _ _ _ _ Ha), Hv, Hf. reflexivity.
Qed.

Lemma protect_passes_deactivated_witness :
  u_isActive Sample.alice_off = false
  /\ protect Sample.env Sample.io0 Sample.db_alice_off (Sample.get None)
     = next (set_user (Sample.get None) Sample.alice_off).
Proof.
  split; [reflexivity | ].
  apply (protect_passes_deactivated Sample.env Sample.io0 Sample.db_alice_off
           (Sample.get None) Sample.access_a
           (jwt.mkPayload Sample.id_a 1700000000 (1700000000 + seven_days)));
    reflexivity.
Defined.

(** ** Session issuer *)

Lemma sign_some i secret span io :
  JS.truthy (Some secret) = true ->
  jwt.sign i (Some secret) span io
  = Some (Signed secret i (jwt.clock io) (jwt.clock io + span)).
Proof.
  unfold JS.truthy, jwt.sign. intros H. apply negb_true_iff in H.
  now rewrite H.
Qed.

Lemma verify_signed key i t e io :
  JS.truthy (Some key) = true ->
  jwt.verify (Some (Signed key i t e)) (Some key) io
  = if (e <=? jwt.clock io)%Z then inl jwt.TokenExpiredError
    else inr (jwt.mkPayload i t e).
Proof.
  unfold JS.truthy, jwt.verify. intros H. apply negb_true_iff in H.
  now rewrite H, String.eqb_refl.
Qed.

(** C9.  With a secret and a positive life time configured, the access
    token signed for a user verifies at once and yields the user's id; once
    the life time has gone by, [jwt.verify] fails with [TokenExpiredError].
    At the gate, a request that bears the token runs the handler as that
    user at once and is answered 401 afterwards. *)
Theorem access_token_verify_then_expire
        (env : Env) (io later : Io) (db : DB) (req : Request) (u : User)
        (secret : string) :
  JWT_SECRET env = Some secret ->
  secret <> "" ->
  (0 < span_or (JWT_EXPIRES_IN env) seven_days)%Z ->
  (jwt.clock io + span_or (JWT_EXPIRES_IN env) seven_days <= jwt.clock later)%Z ->
  authorization req = bearer_of (getSignedJwtToken env io u) ->
  findById (users db) (u_id u) = Some u ->
  exists token : Token,
    getSignedJwtToken env io u = Some token
    /\ jwt.verify (Some token) (JWT_SECRET env) io
       = inr (jwt.mkPayload (u_id u) (jwt.clock io)
                (jwt.clock io + span_or (JWT_EXPIRES_IN env) seven_days))
    /\ jwt.verify (Some token) (JWT_SECRET env) later = inl jwt.TokenExpiredError
    /\ protect env io db req = next (set_user req u)
    /\ protect env later db req = send TokenFailed.
Proof.
  intros Hs Hne Hpos Hlate Ha Hf.
  assert (Ht : JS.truthy (Some secret) = true).
  { apply negb_true_iff, String.eqb_neq, Hne. }
  unfold getSignedJwtToken in *. rewrite Hs, (sign_some _ _ _ _ Ht) in *.
  cbn [bearer_of] in Ha.
  eexists. split; [reflexivity | ].
  rewrite !(protect_bearer _ _ _ _ _ Ha), Hs, !(verify_signed _ _ _ _ _ Ht).
  assert (E1 : (jwt.clock io + span_or (JWT_EXPIRES_IN env) seven_days
                <=? jwt.clock io)%Z = false) by (apply Z.leb_gt; lia).
  assert (E2 : (jwt.clock io + span_or (JWT_EXPIRES_IN env) seven_days
                <=? jwt.clock later)%Z = true) by (apply Z.leb_le; lia).
  rewrite E1, E2. cbn [jwt.id]. rewrite Hf. auto.
Qed.

Lemma access_token_verify_then_expire_witness :
  exists token : Token,
    getSignedJwtToken Sample.env Sample.io0 Sample.alice = Some token
    /\ jwt.verify (Some token) (JWT_SECRET Sample.env) Sample.io0
       = inr (jwt.mkPayload Sample.id_a 1700000000 (1700000000 + 604800))
    /\ jwt.verify (Some token) (JWT_SECRET Sample.env) Sample.io_week
       = inl jwt.TokenExpiredError
    /\ protect Sample.env Sample.io0 Sample.db_alice (Sample.get None)
       = next (set_user (Sample.get None) Sample.alice)
    /\ protect Sample.env Sample.io_week Sample.db_alice (Sample.get None)
       = send TokenFailed.
Proof.
  apply (access_token_verify_then_expire Sample.env Sample.io0 Sample.io_week
           Sample.db_alice (Sample.get None) Sample.alice "access-secret").
  - reflexivity.
  - discriminate.
  - reflexivity.
  - vm_compute. discriminate.
  - reflexivity.
  - reflexivity.
Defined.

(* ------------------------------------------------------------------ *)
(** ** Collections *)

Lemma find_none_existsb {A : Type} (p : A -> bool) (l : list A) :
  find p l = None -> existsb p l = false.
Proof.
  induction l as [| a l IH]; simpl; [reflexivity | ].
  destruct (p a); [discriminate | exact IH].
Qed.

Lemma find_some_existsb {A : Type} (p : A -> bool) (l : list A) (a : A) :
  find p l = Some a -> existsb p l = true.
Proof.
  induction l as [| x l IH]; simpl; [discriminate | ].
  destruct (p x); [reflexivity | exact IH].
Qed.

Lemma existsb_or {A : Type} (p q : A -> bool) (l : list A) :
  existsb (fun a => p a || q a) l = existsb p l || existsb q l.
Proof.
  induction l as [| a l IH]; simpl; [reflexivity | ].
  rewrite IH. destruct (p a), (q a), (existsb p l); reflexivity.
Qed.

Lemma findById_some (l : list User) (i : ObjectId) (u : User) :
  findById l i = Some u -> In u l /\ u_id u = i.
Proof.
  unfold findById. intros H. apply find_some in H as [Hin Hp].
  split; [exact Hin | now apply oid_eqb_eq].
Qed.

Lemma findById_replace (l : list User) (i : ObjectId) (u doc : User) :
  findById l i = Some u -> u_id doc = i ->
  findById (replace_user doc l) i = Some doc.
Proof.
  unfold findById, replace_user. intros H <-.
  induction l as [| v l IH]; simpl in *; [discriminate | ].
  destruct (oid_eqb (u_id v) (u_id doc)) eqn:E.
  - now rewrite oid_eqb_refl.
  - rewrite E. auto.
Qed.

Lemma replace_user_fresh (u : User) (l : list User) :
  findById l (u_id u) = None -> replace_user u l = l.
Proof.
  unfold findById, replace_user.
  induction l as [| v l IH]; simpl; [reflexivity | ].
  destruct (oid_eqb (u_id v) (u_id u)); [discriminate | ].
  intros H. now rewrite IH.
Qed.

Lemma legacy_findOne_some (l : list Legacy) (email : string) (live : bool)
      (r : Legacy) :
  legacy_findOne l email live = Some r ->
  In r l /\ l_email r = email /\ (live = true -> l_isDeleted r = false).
Proof.
  unfold legacy_findOne. intros H. apply find_some in H as [Hin Hp].
  apply andb_true_iff in Hp as [He Hd]. apply String.eqb_eq in He.
  repeat split; auto. intros ->. now destruct (l_isDeleted r).
Qed.

Lemma legacy_findOne_any_none (l : list Legacy) (email : string) :
  legacy_findOne l email false = None ->
  existsb (fun r => l_email r =? email) l = false.
Proof.
  unfold legacy_findOne. induction l as [| r l IH]; simpl; [reflexivity | ].
  rewrite andb_true_r. destruct (l_email r =? email); [discriminate | exact IH].
Qed.

(** ** Validation *)

Lemma validationResult_nil (chains : list (bool * string)) :
  forallb fst chains = true -> validationResult chains = [].
Proof.
  induction chains as [| [ok msg] l IH]; simpl; [reflexivity | ].
  rewrite andb_true_iff. intros [-> H]. simpl. now apply IH.
Qed.

Lemma truthy_some (s : string) : s <> "" -> JS.truthy (Some s) = true.
Proof. intros H. apply negb_true_iff, String.eqb_neq, H. Qed.

Lemma length_nonempty (s : string) (n : nat) :
  (S n <= String.length s)%nat -> (s =? "") = false.
Proof. destruct s; simpl; [lia | reflexivity]. Qed.

Lemma validateUser_ok (u : User) :
  u_name u <> "" -> (String.length (u_name u) <= 50)%nat ->
  Patterns.email_match (u_email u) = true ->
  u_email u <> "" ->
  (6 <= String.length (u_password u))%nat ->
  isIn roles (u_role u) = true ->
  forall withPassword, validateUser withPassword u = [].
Proof.
  intros Hn Hl He He' Hp Hr wp. unfold validateUser, required_then.
  apply String.eqb_neq in Hn, He'. rewrite Hn, He', He, Hr.
  apply Nat.leb_le in Hl. rewrite Hl.
  rewrite (length_nonempty _ 5 Hp).
  apply Nat.leb_le in Hp. rewrite Hp. destruct wp; reflexivity.
Qed.

(** ** What a handler leaves in [users] *)

Lemma try_catch_snd (c : M Response) (h : Err -> Response) (db : DB) :
  snd (try_catch c h db) = snd (c db).
Proof. unfold try_catch. destruct (c db) as [[a | e | r] db']; reflexivity. Qed.

Lemma bind_snd_keeps {A B : Type} (c : M A) (k : A -> M B) (P : DB -> Prop)
      (db : DB) :
  P (snd (c db)) ->
  (forall a db', P db' -> P (snd (k a db'))) ->
  P (snd (bind c k db)).
Proof.
  intros Hc Hk. unfold bind.
  destruct (c db) as [[a | e | r] db']; cbn in *; auto.
Qed.

(* ------------------------------------------------------------------ *)
(** ** Registration *)

Section Register.

Context {lib : Lib}.

Variables (env : Env) (io : Io) (b : RegisterBody) (db : DB).

Hypothesis Hvalid : forallb fst (register_chains b) = true.

(** The half of C7 that the code keeps, for the default target. *)
Lemma register_email_taken (existing : User) :
  JS.default (reg_target b) "users" <> "admins" ->
  find (by_email (reg_email b)) (users db) = Some existing ->
  register env io b db = (EmailTaken, db).
Proof.
  intros Ht Hu. unfold register. rewrite (validationResult_nil _ Hvalid).
  apply String.eqb_neq in Ht. rewrite Ht. run. now rewrite Hu.
Qed.

(** The same for the legacy target. *)
Lemma register_email_taken_admins (existing : Legacy) :
  reg_target b = Some "admins" ->
  legacy_findOne (admins db) (reg_email b) false = Some existing ->
  register env io b db = (EmailTakenAdmins, db).
Proof.
  intros Ht Ha. unfold register. rewrite (validationResult_nil _ Hvalid), Ht.
  cbn [JS.default String.eqb Ascii.eqb Bool.eqb]. run. now rewrite Ha.
Qed.

(** C7.  A registration aimed at [admins] looks the address up in [admins]
    only.  When the address is free there and taken in [users], no 400 is
    sent: [User.create] runs, fails (on the unique index of [email], if not
    before), and the handler answers 500.  Both collections stay as they
    were. *)
Theorem register_admins_skips_users_check (existing : User) :
  reg_target b = Some "admins" ->
  legacy_findOne (admins db) (reg_email b) false = None ->
  find (by_email (reg_email b)) (users db) = Some existing ->
  register env io b db = (ServerError, db).
Proof.
  intros Ht Ha Hu. unfold register. rewrite (validationResult_nil _ Hvalid), Ht.
  cbn [JS.default String.eqb Ascii.eqb Bool.eqb].
  run. rewrite Ha. unfold User_create.
  destruct (validateUser _ _) eqn:Hval; [ | reflexivity].
  run. unfold insert_user. cbn [u_email set_password u_id].
  unfold by_email in Hu.
  now rewrite existsb_or, (find_some_existsb _ _ _ Hu), orb_true_r.
Qed.

(** C10.  [/register] takes no credential and reads [role] from the body.
    A body that passes the validators and the schema, with an address that
    no collection holds, creates the user with the role of the body, or
    with [school_admin] when the body has none, and is answered 201. *)
Theorem register_takes_role_from_body (key rkey : string) :
  JS.trim (reg_name b) <> "" ->
  (String.length (JS.trim (reg_name b)) <= 50)%nat ->
  Patterns.email_match (reg_email b) = true ->
  (6 <= String.length (bcrypt_hash (reg_password b) (salt io)))%nat ->
  find (by_email (reg_email b)) (users db) = None ->
  legacy_findOne (admins db) (reg_email b) false = None ->
  findById (users db) (newId io) = None ->
  JWT_SECRET env = Some key -> key <> "" ->
  JWT_REFRESH_SECRET env = Some rkey -> rkey <> "" ->
  exists token refreshToken u,
    fst (register env io b db) = session 201 token refreshToken u
    /\ users (snd (register env io b db)) = (users db ++ [u])%list
    /\ u_id u = newId io
    /\ u_email u = reg_email b
    /\ u_role u = JS.default (reg_role b) "school_admin".
Proof.
  intros Hn Hl He Hh Hu Ha Hi Hk Hk' Hr Hr'.
  pose proof Hvalid as Hv'. cbn [register_chains forallb fst] in Hv'.
  rewrite !andb_true_iff in Hv'.
  destruct Hv' as (_ & Hem & Hpw & Hrole & Htarget & _).
  unfold isEmailField in Hem. rewrite andb_true_iff, negb_true_iff in Hem.
  destruct Hem as [Hem _]. apply String.eqb_neq in Hem.
  apply Nat.leb_le in Hpw.
  set (role := JS.default (reg_role b) "school_admin").
  assert (Hin : isIn roles role = true).
  { unfold role. destruct (reg_role b); [exact Hrole | reflexivity]. }
  set (doc := mkUser (newId io) (JS.trim (reg_name b)) (reg_email b)
                     (reg_password b) role None true (now io) None).
  set (saved := set_password doc (bcrypt_hash (reg_password b) (salt io))).
  assert (Hdoc : validateUser true doc = [])
    by (apply validateUser_ok; assumption).
  assert (Hsaved : forall t, validateUser true (set_refreshToken saved t) = [])
    by (intros t; apply validateUser_ok; assumption).
  assert (Hins : existsb (fun v => oid_eqb (u_id v) (u_id saved)
                                   || (u_email v =? u_email saved))
                         (users db) = false).
  { rewrite existsb_or. apply orb_false_iff.
    split; apply find_none_existsb; assumption. }
  assert (Hadm : existsb (fun r => l_email r =? reg_email b) (admins db) = false)
    by now apply legacy_findOne_any_none.
  assert (Hcreate : User_create io (reg_name b) (reg_email b) (reg_password b)
                                role db
                    = (Val saved, with_users (fun l => (l ++ [saved])%list) db)).
  { unfold User_create. fold doc. rewrite Hdoc. fold saved. run.
    unfold insert_user. now rewrite Hins. }
  assert (Hpw' : (bcrypt_hash (reg_password b) (salt io) =? "") = false)
    by exact (length_nonempty _ 5 Hh).
  assert (Htok : getSignedJwtToken env io saved
                 = Some (Signed key (newId io) (jwt.clock io)
                           (jwt.clock io + span_or (JWT_EXPIRES_IN env) seven_days))).
  { unfold getSignedJwtToken. rewrite Hk. apply sign_some, truthy_some, Hk'. }
  assert (Href : getRefreshToken env io saved
                 = Some (Signed rkey (newId io) (jwt.clock io)
                           (jwt.clock io
                            + span_or (JWT_REFRESH_EXPIRES_IN env) thirty_days))).
  { unfold getRefreshToken. rewrite Hr. apply sign_some, truthy_some, Hr'. }
  assert (Hfin : forall t,
            replace_user (set_refreshToken saved t) (users db ++ [saved])%list
            = (users db ++ [set_refreshToken saved t])%list).
  { intros t. unfold replace_user. rewrite map_app.
    fold (replace_user (set_refreshToken saved t) (users db)).
    rewrite (replace_user_fresh (set_refreshToken saved t) _ Hi). cbn.
    now rewrite oid_eqb_refl. }
  eexists _, _, _.
  unfold register. rewrite (validationResult_nil _ Hvalid). fold role.
  destruct (reg_target b) as [target |] eqn:Ht; cbn [JS.default].
  - destruct (target =? "admins") eqn:Hta.
    + run. rewrite Ha, Hcreate. cbv beta iota.
      unfold Admin_create.
      cbn [u_password saved set_password]. rewrite Hpw'.
      cbn [admins with_users]. rewrite Hadm. cbv beta iota.
      fold saved. rewrite Htok, Href. cbv beta iota.
      unfold User_save. rewrite Hsaved. run.
      cbn [fst snd users with_users with_admins].
      rewrite Hfin. repeat split.
    + run. rewrite Hu, Hcreate. cbv beta iota. rewrite Htok, Href.
      cbv beta iota.
      unfold User_save. rewrite Hsaved. run. cbn [fst snd users with_users].
      rewrite Hfin. repeat split.
  - cbn [String.eqb Ascii.eqb Bool.eqb]. run. rewrite Hu, Hcreate.
    cbv beta iota. rewrite Htok, Href. cbv beta iota.
    unfold User_save. rewrite Hsaved. run. cbn [fst snd users with_users].
    rewrite Hfin. repeat split.
Qed.

End Register.

Lemma register_admins_skips_users_check_witness :
  find (by_email "a@x.com") (users Sample.db_alice) = Some Sample.alice
  /\ register (lib := Sample.lib) Sample.env Sample.io0 Sample.reg_taken
              Sample.db_alice
     = (ServerError, Sample.db_alice).
Proof.
  split; [reflexivity | ].
  apply (register_admins_skips_users_check (lib := Sample.lib) Sample.env
           Sample.io0 Sample.reg_taken Sample.db_alice eq_refl Sample.alice);
    reflexivity.
Defined.

Lemma register_takes_role_from_body_witness :
  exists token refreshToken u,
    fst (register (lib := Sample.lib) Sample.env Sample.io0 Sample.reg_super
                  Sample.db_empty)
    = session 201 token refreshToken u
    /\ users (snd (register (lib := Sample.lib) Sample.env Sample.io0
                            Sample.reg_super Sample.db_empty))
       = ([] ++ [u])%list
    /\ u_id u = Sample.id_c
    /\ u_email u = "m@x.com"
    /\ u_role u = "super_admin".
Proof.
  apply (register_takes_role_from_body (lib := Sample.lib) Sample.env
           Sample.io0 Sample.reg_super Sample.db_empty eq_refl
           "access-secret" "refresh-secret").
  - discriminate.
  - vm_compute. lia.
  - reflexivity.
  - vm_compute. lia.
  - reflexivity.
  - reflexivity.
  - reflexivity.
  - reflexivity.
  - discriminate.
  - reflexivity.
  - discriminate.
Defined.

(** The same registration without [role]. *)
Example register_default_role :
  option_map u_role
    (findById (users (snd (register (lib := Sample.lib) Sample.env Sample.io0
                                    Sample.reg_plain Sample.db_empty)))
              Sample.id_c)
  = Some "school_admin".
Proof. reflexivity. Qed.

(* ------------------------------------------------------------------ *)
(** ** Login *)

Lemma replace_user_twice (a b : User) (l : list User) :
  u_id a = u_id b -> replace_user b (replace_user a l) = replace_user b l.
Proof.
  intros E. unfold replace_user. rewrite map_map. apply map_ext. intros v.
  rewrite E. destruct (oid_eqb (u_id v) (u_id b)) eqn:H; [ | now rewrite H].
  now rewrite E, oid_eqb_refl.
Qed.

Lemma replace_user_snoc (doc u : User) (l : list User) :
  findById l (u_id u) = None -> u_id doc = u_id u ->
  replace_user doc (l ++ [u]) = (l ++ [doc])%list.
Proof.
  intros Hi E. unfold replace_user. rewrite map_app.
  fold (replace_user doc l). rewrite <- E in Hi.
  rewrite (replace_user_fresh doc _ Hi). cbn.
  now rewrite E, oid_eqb_refl.
Qed.

Lemma validateUser_false (u : User) :
  validateUser true u = [] -> validateUser false u = [].
Proof.
  unfold validateUser. intros H.
  apply app_eq_nil in H as [H1 H]. apply app_eq_nil in H as [H2 H].
  apply app_eq_nil in H as [_ H4]. now rewrite H1, H2, H4.
Qed.

Section Legacy.

Context {lib : Lib}.

(** A bcrypt hash passes the validators of [password]. *)
Lemma validateUser_hashed (u : User) (data salt : string)
      (withPassword : bool) :
  validateUser false u = [] ->
  validateUser withPassword (set_password u (bcrypt_hash data salt)) = [].
Proof.
  unfold validateUser. intros H.
  apply app_eq_nil in H as [H1 H]. apply app_eq_nil in H as [H2 H].
  cbn [app] in H. cbn [u_name u_email u_role u_password set_password].
  rewrite H1, H2, H. destruct withPassword; [ | reflexivity].
  unfold required_then, check.
  rewrite (length_nonempty _ 5), bcrypt_hash_length;
    [reflexivity | rewrite bcrypt_hash_length; lia].
Qed.

Lemma legacy_login_none io coll dflt role email password db :
  legacy_findOne (coll db) email true = None ->
  legacy_login io coll dflt role email password db = (Val None, db).
Proof. intros H. unfold legacy_login. run. now rewrite H. Qed.



Lemma legacy_login_match io coll dflt role email password db r :
  legacy_findOne (coll db) email true = Some r ->
  bcrypt_compare password (l_password r) = true ->
  find (by_email email) (users db) = None ->
  findById (users db) (newId io) = None ->
  legacy_login io coll dflt role email (FStr password) db
  = (Val (Some (materialized io r dflt role)),
     with_users (fun l => (l ++ [materialized io r dflt role])%list) db).
Proof.
  intros H Hc Hu Hi.
  destruct (legacy_findOne_some _ _ _ _ H) as (_ & <- & _).
  unfold legacy_login. run. rewrite H, Hc. cbn [negb].
  unfold User_findOneAndUpdate. run. rewrite Hu.
  fold (materialized io r dflt role). unfold insert_user.
  assert (E : existsb
                (fun v => oid_eqb (u_id v) (u_id (materialized io r dflt role))
                          || (u_email v =? u_email (materialized io r dflt role)))
                (users db) = false).
  { rewrite existsb_or. apply orb_false_iff.
    split; apply find_none_existsb; assumption. }
  now rewrite E.
Qed.

(** The two saves that end an accepted login: [updateLastLogin], then the
    [save] of the refresh token, which the late re-hash may have
    overtaken. *)
Lemma login_tail env io user token refreshToken db :
  validateUser true user = [] ->
  getSignedJwtToken env io user = Some token ->
  getRefreshToken env io user = Some refreshToken ->
  (User_save true (set_lastLogin user (now io)) ;;
   issue_tokens env io true (set_lastLogin user (now io))) db
  = (Val (session 200 token refreshToken (logged_in io user refreshToken)),
     with_users (replace_user (logged_in io user refreshToken)) db).
Proof.
  intros Hdoc Ht Hr. unfold User_save at 1.
  change (validateUser true (set_lastLogin user (now io)))
    with (validateUser true user).
  rewrite Hdoc. unfold issue_tokens. run.
  change (getSignedJwtToken env io (set_lastLogin user (now io)))
    with (getSignedJwtToken env io user).
  change (getRefreshToken env io (set_lastLogin user (now io)))
    with (getRefreshToken env io user).
  rewrite Ht, Hr. unfold User_save_again, logged_in, stored_password.
  destruct (late io) as [[salt1 salt2] |].
  - rewrite validateUser_hashed by exact (validateUser_false _ Hdoc).
    run. unfold session. f_equal.
    unfold with_users. cbn [users admins school_admins schools]. f_equal.
    now apply replace_user_twice.
  - unfold User_save.
    change (validateUser true
              (set_refreshToken (set_lastLogin user (now io))
                                (Some refreshToken)))
      with (validateUser true user).
    rewrite Hdoc. run. unfold session. f_equal.
    unfold with_users. cbn [users admins school_admins schools]. f_equal.
    now apply replace_user_twice.
Qed.

End Legacy.

Section Login.

Context {lib : Lib}.

Variables (env : Env) (io : Io) (b : LoginBody) (db : DB).

Hypothesis Hvalid : forallb fst (login_chains b) = true.
Hypothesis Henv :
  is_env_super_admin env (login_email b) (login_password b) = false.

Lemma login_deactivated (u : User) :
  find (by_email (login_email b)) (users db) = Some u ->
  u_isActive u = false ->
  login env io b db = (AccountDeactivated, db).
Proof.
  intros Hu Ha. open_login. rewrite (validationResult_nil _ Hvalid), Henv.
  run. now rewrite Hu, Ha.
Qed.

Lemma login_mismatch (u : User) :
  find (by_email (login_email b)) (users db) = Some u ->
  u_isActive u = true ->
  bcrypt_compare (login_password b) (u_password u) = false ->
  login env io b db = (InvalidCredentials, db).
Proof.
  intros Hu Ha Hc. open_login. rewrite (validationResult_nil _ Hvalid), Henv.
  run. now rewrite Hu, Ha, Hc.
Qed.



(** C5.  When [users] has no document for the address, the first
    collection, [admins] before [school_admins], that holds a record for it
    which is not deleted decides the login.  If the hash of that record
    verifies the password, the upsert gives [users] a document with the
    trimmed name of the record (the default name of the collection if it
    has none), its address, its hash, the role of the collection and
    [isActive] set.  The login then saves the document twice, and the hash
    stays as the record has it only if the late re-hash of the first save
    does not overtake the second: if it does, the document is left with a
    hash of a hash of the hash of the record. *)
Theorem legacy_login_stores_rehashed_password
        (r : Legacy) (dflt role : string) (token refreshToken : Token) :
  find (by_email (login_email b)) (users db) = None ->
  findById (users db) (newId io) = None ->
  deciding_record db (login_email b) = Some (r, dflt, role) ->
  bcrypt_compare (login_password b) (l_password r) = true ->
  validateUser true (materialized io r dflt role) = [] ->
  getSignedJwtToken env io (materialized io r dflt role) = Some token ->
  getRefreshToken env io (materialized io r dflt role) = Some refreshToken ->
  exists u,
    login env io b db
    = (session 200 token refreshToken u,
       with_users (fun l => (l ++ [u])%list) db)
    /\ u_id u = newId io
    /\ u_name u = JS.trim (JS.or_else (l_name r) dflt)
    /\ u_email u = login_email b
    /\ u_role u = role
    /\ u_isActive u = true
    /\ u_password u
       = match late io with
         | None => l_password r
         | Some (salt1, salt2) =>
             bcrypt_hash (bcrypt_hash (l_password r) salt1) salt2
         end.
Proof.
  intros Hu Hi Hd Hc Hdoc Ht Hr.
  assert (Hlegacy :
            (legacy_findOne (admins db) (login_email b) true = Some r
             /\ dflt = "Admin" /\ role = "super_admin")
            \/ (legacy_findOne (admins db) (login_email b) true = None
                /\ legacy_findOne (school_admins db) (login_email b) true = Some r
                /\ dflt = "School Admin" /\ role = "school_admin")).
  { unfold deciding_record in Hd.
    destruct (legacy_findOne (admins db) _ true) eqn:Ha.
    - injection Hd as -> <- <-. auto.
    - destruct (legacy_findOne (school_admins db) _ true) eqn:Hs; [ | discriminate].
      injection Hd as -> <- <-. auto. }
  assert (He : l_email r = login_email b).
  { destruct Hlegacy as [(Ha & _) | (_ & Hs & _)];
      [now apply legacy_findOne_some in Ha | now apply legacy_findOne_some in Hs]. }
  set (m := materialized io r dflt role) in *.
  exists (logged_in io m refreshToken).
  split; [ | unfold logged_in, stored_password; cbn; rewrite He;
             destruct (late io) as [[salt1 salt2] |]; repeat split].
  assert (Hfin : with_users (replace_user (logged_in io m refreshToken))
                   (with_users (fun l => (l ++ [m])%list) db)
                 = with_users (fun l => (l ++ [logged_in io m refreshToken])%list)
                              db).
  { unfold with_users. cbn [users admins school_admins schools]. f_equal.
    now apply replace_user_snoc. }
  open_login. rewrite (validationResult_nil _ Hvalid), Henv.
  unfold try_catch, bind at 1, User_findOne at 1, gets at 1. rewrite Hu.
  destruct Hlegacy as [(Ha & -> & ->) | (Ha & Hs & -> & ->)].
  - unfold bind at 1.
    rewrite (legacy_login_match io admins _ _ _ _ _ _ Ha Hc Hu Hi).
    unfold bind at 1, ret at 1. fold m.
    rewrite (login_tail env io m token refreshToken _ Hdoc Ht Hr).
    now rewrite Hfin.
  - unfold bind at 1. rewrite (legacy_login_none _ admins _ _ _ _ _ Ha).
    unfold bind at 1.
    rewrite (legacy_login_match io school_admins _ _ _ _ _ _ Hs Hc Hu Hi).
    fold m. rewrite (login_tail env io m token refreshToken _ Hdoc Ht Hr).
    now rewrite Hfin.
Qed.

End Login.


(** A record of [school_admins] decides because that of [admins] is
    deleted; the name is trimmed on the way, and the late re-hash, which
    overtakes the second save here, leaves a password that is not the hash
    of the record. *)
Lemma legacy_login_stores_rehashed_password_witness :
  (exists u,
      login (lib := Sample.lib) Sample.env Cases.io_late Sample.login_bob
            Sample.db_deleted_admin
      = (session 200
           (Signed "access-secret" Sample.id_c 1700000000
                   (1700000000 + seven_days))
           (Signed "refresh-secret" Sample.id_c 1700000000
                   (1700000000 + thirty_days))
           u,
         with_users (fun l => (l ++ [u])%list) Sample.db_deleted_admin)
      /\ u_id u = Sample.id_c
      /\ u_name u = "Bob B."
      /\ u_email u = "b@y.com"
      /\ u_role u = "school_admin"
      /\ u_isActive u = true
      /\ u_password u
         = Sample.hash (Sample.hash (l_password Sample.bob_school)
                                    Cases.salt_late)
                       Cases.salt_again)
  /\ Sample.hash (Sample.hash (l_password Sample.bob_school) Cases.salt_late)
                 Cases.salt_again
     <> l_password Sample.bob_school.
Proof.
  split; [ | discriminate].
  exact (legacy_login_stores_rehashed_password (lib := Sample.lib) Sample.env
           Cases.io_late Sample.login_bob Sample.db_deleted_admin
           eq_refl eq_refl Sample.bob_school "School Admin" "school_admin"
           _ _ eq_refl eq_refl eq_refl eq_refl eq_refl eq_refl eq_refl).
Defined.

(** Beside the re-hash, against C5 as stated: the record of [admins] does
    not verify the password, that of [school_admins] does, and the login is
    refused without a document being written. *)
Lemma first_record_refuses_before_second :
  find (by_email "b@y.com") (users Sample.db_two_stores) = None
  /\ legacy_findOne (school_admins Sample.db_two_stores) "b@y.com" true
     = Some Sample.bob_school
  /\ bcrypt_compare (Lib := Sample.lib) "schoolpw"
                    (l_password Sample.bob_school) = true
  /\ login (lib := Sample.lib) Sample.env Sample.io0 Sample.login_bob
           Sample.db_two_stores
     = (InvalidCredentials, Sample.db_two_stores).
Proof. repeat split. Qed.



(* ------------------------------------------------------------------ *)
(** ** Refresh *)

Lemma differs_false (a b : option Token) :
  differs a b = false -> a = b /\ a <> None.
Proof.
  destruct a as [x |], b as [y |]; simpl; try discriminate.
  intros H. apply negb_false_iff, token_eqb_eq in H. subst. split; congruence.
Qed.

(** What a successful [/refresh] has gone through. *)
Lemma refresh_ok env io presented db resp db' :
  refresh env io presented db = (resp, db') ->
  status resp = 200 ->
  exists key i t e user newToken newRefreshToken,
    presented = Some (Signed key i t e)
    /\ JWT_REFRESH_SECRET env = Some key
    /\ findById (users db) i = Some user
    /\ u_refreshToken user = Some (Signed key i t e)
    /\ getSignedJwtToken env io user = Some newToken
    /\ getRefreshToken env io user = Some newRefreshToken
    /\ resp = rotated newToken newRefreshToken
    /\ db' = with_users
               (replace_user (set_refreshToken user (Some newRefreshToken))) db.
Proof.
  unfold refresh. intros H Hs.
  destruct presented as [[key i t e | s] |];
    cbn [validationResult notEmptyToken flat_map fst snd check app] in H.
  2: { destruct (s =? ""); cbn in H; injection H as <- <-; discriminate Hs. }
  2: { cbn in H; injection H as <- <-; discriminate Hs. }
  cbn [jwt.verify] in H.
  destruct (JWT_REFRESH_SECRET env) as [k |] eqn:Hk.
  2: { cbn in H; injection H as <- <-; discriminate Hs. }
  destruct (k =? "") eqn:Hk0.
  { cbn in H; injection H as <- <-; discriminate Hs. }
  destruct (k =? key) eqn:Hkk.
  2: { cbn in H; injection H as <- <-; discriminate Hs. }
  apply String.eqb_eq in Hkk. subst k.
  cbn [orb negb] in H.
  destruct (e <=? jwt.clock io)%Z.
  { cbn in H; injection H as <- <-; discriminate Hs. }
  run_in H. cbn [jwt.id] in H.
  destruct (findById (users db) i) as [user |] eqn:Hf.
  2: { injection H as <- <-; discriminate Hs. }
  destruct (differs (u_refreshToken user) _) eqn:Hd.
  { injection H as <- <-; discriminate Hs. }
  destruct (getSignedJwtToken env io user) as [newA |] eqn:HA.
  2: { injection H as <- <-; discriminate Hs. }
  destruct (getRefreshToken env io user) as [newR |] eqn:HR.
  2: { injection H as <- <-; discriminate Hs. }
  unfold User_save in H.
  destruct (validateUser false _).
  2: { injection H as <- <-; discriminate Hs. }
  run_in H. injection H as <- <-.
  apply differs_false in Hd as [Hd _].
  exists key, i, t, e, user, newA, newR. repeat split; auto.
Qed.

(** A well-signed token that is not the stored one. *)
Lemma refresh_stale env io key i t e db user :
  findById (users db) i = Some user ->
  u_refreshToken user <> Some (Signed key i t e) ->
  refresh env io (Some (Signed key i t e)) db
  = (stale_answer env io (Signed key i t e), db).
Proof.
  intros Hf Hne. unfold refresh, stale_answer.
  cbn [validationResult notEmptyToken flat_map fst snd check app].
  destruct (jwt.verify _ _ _) as [[] | p] eqn:Hv; try reflexivity.
  assert (jwt.id p = i) as Hp.
  { unfold jwt.verify in Hv.
    destruct (JWT_REFRESH_SECRET env); [ | discriminate].
    destruct (_ || _); [discriminate | ].
    destruct (_ <=? _)%Z; [discriminate | ]. now injection Hv as <-. }
  run. rewrite Hp, Hf.
  assert (differs (u_refreshToken user) (Some (Signed key i t e)) = true) as ->.
  { destruct (u_refreshToken user) as [x |]; [ | reflexivity]. simpl.
    apply negb_true_iff. destruct (token_eqb x _) eqn:E; [ | reflexivity].
    apply token_eqb_eq in E. congruence. }
  reflexivity.
Qed.

(** The token minted by a rotation carries the second of the rotation, so
    that it differs from a token signed in an earlier second. *)
Lemma rotation_in_later_second env io user key i t e newRefreshToken :
  getRefreshToken env io user = Some newRefreshToken ->
  (t < jwt.clock io)%Z ->
  newRefreshToken <> Signed key i t e.
Proof.
  unfold getRefreshToken, jwt.sign. intros H Hlt.
  destruct (JWT_REFRESH_SECRET env) as [k |]; [ | discriminate].
  destruct (k =? ""); [discriminate | ].
  injection H as <-. intros [= _ _ E _]. lia.
Qed.

(** C4, as the code has it.  A rotation is granted only to the token that
    is stored for its user, and stores the token it returns.  If that
    token differs from the one presented, as it does whenever the rotation
    takes place in a later second than the signing of the presented token,
    presenting the old token again is answered 401: "Invalid refresh
    token", or "Refresh token expired" once it has expired; nothing is
    written. *)
Theorem rotation_retires_presented_token
        (env : Env) (io later : Io) (db db' : DB)
        (old newToken newRefreshToken : Token) :
  refresh env io (Some old) db = (rotated newToken newRefreshToken, db') ->
  newRefreshToken <> old ->
  (exists user, In user (users db) /\ u_refreshToken user = Some old)
  /\ (exists user, In user (users db')
                   /\ u_refreshToken user = Some newRefreshToken)
  /\ refresh env later (Some old) db' = (stale_answer env later old, db').
Proof.
  intros H Hne.
  destruct (refresh_ok _ _ _ _ _ _ H eq_refl)
    as (key & i & t & e & user & nA & nR
        & Ht & Hk & Hf & Hst & HA & HR & Hresp & ->).
  injection Ht as ->. injection Hresp as <- <-.
  destruct (findById_some _ _ _ Hf) as [Hin Hid].
  assert (Hf' : findById
                  (users (with_users
                            (replace_user
                               (set_refreshToken user (Some newRefreshToken)))
                            db)) i
                = Some (set_refreshToken user (Some newRefreshToken))).
  { cbn [users with_users]. now apply (findById_replace _ _ user). }
  split; [ | split].
  - exists user. auto.
  - exists (set_refreshToken user (Some newRefreshToken)).
    split; [ | reflexivity]. now apply findById_some in Hf'.
  - apply (refresh_stale _ _ _ _ _ _ _ _ Hf'). cbn. congruence.
Qed.

(** Alice holds a token signed one second before the rotation. *)
Lemma rotation_retires_presented_token_witness :
  (exists user,
      In user [Sample.alice_session Sample.refresh_a_old]
      /\ u_refreshToken user = Some Sample.refresh_a_old)
  /\ (exists user,
         In user [Sample.alice_session Sample.refresh_a]
         /\ u_refreshToken user = Some Sample.refresh_a)
  /\ refresh Sample.env Sample.io_minute
             (Some Sample.refresh_a_old)
             (mkDB [Sample.alice_session Sample.refresh_a] [] [] [])
     = (StaleRefresh, mkDB [Sample.alice_session Sample.refresh_a] [] [] []).
Proof.
  apply (rotation_retires_presented_token Sample.env
           Sample.io0 Sample.io_minute
           (mkDB [Sample.alice_session Sample.refresh_a_old] [] [] [])
           (mkDB [Sample.alice_session Sample.refresh_a] [] [] [])
           Sample.refresh_a_old Sample.access_a Sample.refresh_a).
  - reflexivity.
  - discriminate.
Defined.

(** Against C4 as stated: Alice logs in and rotates within the same second.
    The rotation returns the token it was given, and a minute later that
    token is honoured again. *)
Lemma rotation_within_a_second_returns_same_token :
  fst (login (lib := Sample.lib) Sample.env Sample.io0 Sample.login_alice
             Sample.db_alice)
  = session 200 Sample.access_a Sample.refresh_a
            (Sample.alice_session Sample.refresh_a)
  /\ snd (login (lib := Sample.lib) Sample.env Sample.io0 Sample.login_alice
                Sample.db_alice)
     = mkDB [mkUser Sample.id_a "Alice" "a@x.com"
                    (Sample.hash "secret1" Sample.salt22) "school_admin"
                    (Some Sample.T1) true 1700000000500
                    (Some Sample.refresh_a)] [] [] []
  /\ status (fst (refresh Sample.env Sample.io0
                          (Some Sample.refresh_a)
                          (snd (login (lib := Sample.lib) Sample.env Sample.io0
                                      Sample.login_alice Sample.db_alice))))
     = 200
  /\ status (fst (refresh Sample.env Sample.io_minute
                          (Some Sample.refresh_a)
                          (snd (refresh Sample.env
                                        Sample.io0 (Some Sample.refresh_a)
                                        (snd (login (lib := Sample.lib)
                                                    Sample.env Sample.io0
                                                    Sample.login_alice
                                                    Sample.db_alice))))))
     = 200.
Proof. repeat split. Qed.

(* ------------------------------------------------------------------ *)
(** ** Onboarding *)

Lemma protect_cases env io db req :
  (exists r, protect env io db req = send r /\ status r = 401)
  \/ (exists u, authenticated env io db req u
                /\ findById (users db) (u_id u) = Some u).
Proof.
  unfold authenticated, protect.
  destruct (authorization req) as [words |];
    [ | left; eexists; split; reflexivity].
  destruct (startsWithBearer words); [ | left; eexists; split; reflexivity].
  destruct (jwt.verify _ _ _) as [err | decoded];
    [left; eexists; split; reflexivity | ].
  destruct (findById _ _) as [u |] eqn:Hf;
    [ | left; eexists; split; reflexivity].
  right. exists u. split; [reflexivity | ].
  destruct (findById_some _ _ _ Hf) as [_ <-] in Hf. exact Hf.
Qed.

(** C8, as the code has it.  Every onboarding that is answered 200 has
    created a school under the generated id and has set [schoolId] of the
    authenticated user to that id, whatever it was before. *)
Theorem onboarding_sets_schoolId
        {lib : Lib} (env : Env) (io : Io) (req : Request) (b : OnboardingBody)
        (db db' : DB) (resp : Response) :
  onboarding env io req b db = (resp, db') ->
  status resp = 200 ->
  exists u u' school,
    authenticated env io db req u
    /\ findById (users db') (u_id u) = Some u'
    /\ u_schoolId u' = Some (newId io)
    /\ In school (schools db')
    /\ s_id school = newId io
    /\ s_name school = JS.trim (schoolName b).
Proof.
  intros H Hs. unfold onboarding in H.
  destruct (protect_cases env io db req) as [(r & Hp & Hr) | (u & Hp & Hf)];
    rewrite Hp in H.
  { injection H as <- <-. congruence. }
  destruct (validationResult (onboarding_chains b)).
  2: { cbn in H. injection H as <- <-. discriminate Hs. }
  unfold School_create in H. run_in H.
  destruct (validateSchool _) eqn:Hval.
  2: { injection H as <- <-. discriminate Hs. }
  cbn [s_id s_name] in H.
  destruct (existsb _ (schools db)).
  { injection H as <- <-. discriminate Hs. }
  cbn [user set_user users with_schools] in H. rewrite Hf in H.
  unfold User_save in H.
  destruct (validateUser false _).
  2: { run_in H. injection H as <- <-. discriminate Hs. }
  run_in H. injection H as <- <-.
  eexists u, _, _. split; [exact Hp | ]. split.
  { cbn [users with_users with_schools].
    eapply findById_replace; [exact Hf | ].
    destruct (_ <? _)%nat; reflexivity. }
  split. { destruct (_ <? _)%nat; reflexivity. }
  split.
  { cbn [schools with_users with_schools]. apply in_or_app. right. left.
    reflexivity. }
  split; reflexivity.
Qed.

Lemma onboarding_sets_schoolId_witness :
  exists u u' school,
    authenticated Sample.env Sample.io0 Sample.db_onboarded Sample.post u
    /\ findById
         (users (snd (onboarding (lib := Sample.lib) Sample.env Sample.io0
                                 Sample.post Sample.acme_two
                                 Sample.db_onboarded)))
         (u_id u) = Some u'
    /\ u_schoolId u' = Some Sample.id_c
    /\ In school
          (schools (snd (onboarding (lib := Sample.lib) Sample.env Sample.io0
                                    Sample.post Sample.acme_two
                                    Sample.db_onboarded)))
    /\ s_id school = Sample.id_c
    /\ s_name school = "Acme Two".
Proof.
  apply (onboarding_sets_schoolId (lib := Sample.lib) Sample.env Sample.io0
           Sample.post Sample.acme_two Sample.db_onboarded _
           (fst (onboarding (lib := Sample.lib) Sample.env Sample.io0
                            Sample.post Sample.acme_two Sample.db_onboarded))).
  - vm_compute. reflexivity.
  - reflexivity.
Defined.

(** Against C8 as stated: Alice belongs to the school [T1]; a further
    onboarding is answered 200 and leaves her with the new school. *)
Lemma second_onboarding_overwrites_schoolId :
  findById (users Sample.db_onboarded) Sample.id_a = Some Sample.alice
  /\ u_schoolId Sample.alice = Some Sample.T1
  /\ status (fst (onboarding (lib := Sample.lib) Sample.env Sample.io0
                             Sample.post Sample.acme_two Sample.db_onboarded))
     = 200
  /\ option_map u_schoolId
       (findById
          (users (snd (onboarding (lib := Sample.lib) Sample.env Sample.io0
                                  Sample.post Sample.acme_two
                                  Sample.db_onboarded)))
          Sample.id_a)
     = Some (Some Sample.id_c)
  /\ Sample.id_c <> Sample.T1.
Proof. repeat split. discriminate. Qed.

(* ================================================================== *)
(** * Further properties *)

(** ** Guards *)

Lemma canPerformCRUD_next (req req' : Request) :
  canPerformCRUD req = next req' ->
  req' = req /\ exists u, user req = Some u /\ u_role u = "super_admin".
Proof.
  unfold canPerformCRUD. destruct (user req) as [u |]; [ | discriminate].
  destruct (u_role u =? "super_admin") eqn:E; simpl; [ | discriminate].
  intros [= <-]. split; [reflexivity | ]. exists u.
  split; [reflexivity | now apply String.eqb_eq].
Qed.

(** X1.  Whoever may mutate may view: a request that [canPerformCRUD] lets
    through is let through, unchanged, by [canViewData], by
    [canAccessSchool] whatever school it names, and by the three super-admin
    guards of the two middleware files. *)
Theorem mutation_right_implies_view_right (req req' : Request) :
  canPerformCRUD req = next req' ->
  canViewData req = next req
  /\ canAccessSchool req = next req
  /\ requireSuperAdmin req = next req
  /\ auth.requireSuperAdmin req = next req
  /\ auth.canAccessSchool req = Some (next req).
Proof.
  intros H. destruct (canPerformCRUD_next _ _ H) as (_ & u & Hu & Hr).
  unfold canViewData, canAccessSchool, requireSuperAdmin,
    auth.requireSuperAdmin, auth.canAccessSchool.
  rewrite Hu, Hr. repeat split.
Qed.

Lemma mutation_right_implies_view_right_witness :
  canViewData Fixture.delete_as_root = next Fixture.delete_as_root
  /\ canAccessSchool Fixture.delete_as_root = next Fixture.delete_as_root
  /\ requireSuperAdmin Fixture.delete_as_root = next Fixture.delete_as_root
  /\ auth.requireSuperAdmin Fixture.delete_as_root = next Fixture.delete_as_root
  /\ auth.canAccessSchool Fixture.delete_as_root
     = Some (next Fixture.delete_as_root).
Proof.
  apply (mutation_right_implies_view_right Fixture.delete_as_root
           Fixture.delete_as_root).
  reflexivity.
Defined.

(** X2.  The [canAccessSchool] of [src/middleware/auth.js] compares the
    [ObjectId] of the user with the string of the request by [===]: a school
    admin who belongs to a school is refused whatever the request names,
    the own school included. *)
Theorem auth_canAccessSchool_refuses_school_admin
        (req : Request) (u : User) (own : ObjectId) :
  user req = Some u ->
  u_role u = "school_admin" ->
  u_schoolId u = Some own ->
  auth.canAccessSchool req
  = Some (send (auth.denied
       "Access denied. You can only access your assigned school data.")).
Proof.
  intros Hu Hr Hs. unfold auth.canAccessSchool. now rewrite Hu, Hr, Hs.
Qed.

Lemma auth_canAccessSchool_refuses_school_admin_witness :
  requestedSchoolId Fixture.get_as_alice = Some (toString Sample.T1)
  /\ canAccessSchool Fixture.get_as_alice = next Fixture.get_as_alice
  /\ auth.canAccessSchool Fixture.get_as_alice
     = Some (send (auth.denied
          "Access denied. You can only access your assigned school data.")).
Proof.
  split; [reflexivity | ]. split; [reflexivity | ].
  apply (auth_canAccessSchool_refuses_school_admin Fixture.get_as_alice
           Sample.alice Sample.T1); reflexivity.
Defined.

(** ** Routes that scope to a school *)

Lemma requested_none_query_none (req : Request) :
  JS.truthy (requestedSchoolId req) = false ->
  JS.truthy (query_schoolId req) = false.
Proof.
  unfold requestedSchoolId, JS.or.
  destruct (JS.truthy (params_schoolId req)) eqn:Hp.
  - rewrite Hp. congruence.
  - destruct (JS.truthy (body_schoolId req)) eqn:Hb; [congruence | auto].
Qed.

Section ScopedProperties.

Context {bson : Bson}.

Variables (env : Env) (io : Io) (db : DB) (u : User) (own : ObjectId).

Hypothesis Hrole : u_role u = "school_admin".
Hypothesis Hown : u_schoolId u = Some own.

Lemma school_admin_chain (req : Request) :
  authenticated env io db req u ->
  chain [protect env io db; canViewData; canAccessSchool] req
  = canAccessSchool (set_user req u).
Proof.
  intros Ha. rewrite (chain_protect _ _ _ _ _ _ Ha). cbn [chain].
  rewrite (canViewData_admins _ u); auto.
  destruct (canAccessSchool (set_user req u)); reflexivity.
Qed.

(** X3.  [canAccessSchool] decides on the first of [params], [body] and
    [query] that names a school, the statistics handler reads the query
    string only: a school admin who names the own school in the body and
    another one in the query string is let through, and the statistics are
    matched on the other school. *)
Theorem students_stats_reads_query_string_only
        (req : Request) (other : ObjectId) :
  authenticated env io db req u ->
  JS.truthy (params_schoolId req) = false ->
  body_schoolId req = Some (toString own) ->
  query_schoolId req = Some (toString other) ->
  ObjectId_from (toString other) = Some other ->
  students_stats env io db req = inr (Some (QId (Some other))).
Proof.
  intros Ha Hp Hb Hq Hparse. unfold students_stats.
  rewrite (school_admin_chain _ Ha).
  assert (Hreq : requestedSchoolId (set_user req u) = Some (toString own)).
  { unfold requestedSchoolId, JS.or. cbn [params_schoolId body_schoolId set_user].
    now rewrite Hp, Hb, toString_truthy. }
  unfold canAccessSchool. cbn [user set_user]. rewrite Hrole, Hown, Hreq.
  cbn [String.eqb Ascii.eqb Bool.eqb JS.strict_eq].
  rewrite toString_truthy, String.eqb_refl. cbn [negb andb].
  unfold students_stats_query. cbn [query_schoolId set_user].
  rewrite Hq, toString_truthy. cbn [JS.default]. now rewrite Hparse.
Qed.

(** X4.  When the school is named in the query string or not at all, the
    statistics of a school admin are never matched on another school: the
    request is refused, or the [$match] stage carries the own school. *)
Theorem students_stats_scoped_by_query_string (req : Request) :
  authenticated env io db req u ->
  JS.truthy (params_schoolId req) = false ->
  JS.truthy (body_schoolId req) = false ->
  ObjectId_from (toString own) = Some own ->
  match students_stats env io db req with
  | inl _ => True
  | inr q => q = Some (QId (Some own))
  end.
Proof.
  intros Ha Hp Hb Hparse. unfold students_stats.
  rewrite (school_admin_chain _ Ha).
  assert (Hreq : requestedSchoolId (set_user req u) = query_schoolId req).
  { unfold requestedSchoolId, JS.or.
    cbn [params_schoolId body_schoolId set_user query_schoolId].
    now rewrite Hp, Hb. }
  unfold canAccessSchool. cbn [user set_user]. rewrite Hrole, Hown, Hreq.
  cbn [String.eqb Ascii.eqb Bool.eqb].
  destruct (query_schoolId req) as [s |] eqn:Hq;
    cbn [JS.truthy JS.strict_eq JS.default].
  - destruct (s =? "") eqn:Hs; cbn [negb andb].
    + unfold students_stats_query. cbn [query_schoolId user set_user].
      rewrite Hq. cbn [JS.truthy]. rewrite Hs. cbn [negb].
      now rewrite Hrole, Hown, Hparse.
    + destruct (s =? toString own) eqn:E; cbn [negb]; [ | exact I].
      apply String.eqb_eq in E. subst s.
      unfold students_stats_query. cbn [query_schoolId user set_user].
      rewrite Hq, toString_truthy. cbn [JS.default]. now rewrite Hparse.
  - cbn [andb]. unfold students_stats_query. cbn [query_schoolId user set_user].
    rewrite Hq. cbn [JS.truthy]. now rewrite Hrole, Hown, Hparse.
Qed.

(** X5.  The advanced search of students takes its school from the query
    string and from nowhere else: for a school admin who names no school
    the query has no [schoolId] entry, so that it ranges over the students
    of every school. *)
Theorem students_search_unscoped (req : Request) :
  authenticated env io db req u ->
  JS.truthy (requestedSchoolId req) = false ->
  students_search env io db req = inr None.
Proof.
  intros Ha Hq. unfold students_search.
  rewrite (school_admin_chain _ Ha).
  rewrite (canAccessSchool_own _ u own); auto.
  unfold students_search_query. cbn [query_schoolId set_user].
  now rewrite (requested_none_query_none _ Hq).
Qed.

(** X6.  [GET /api/schools/:id] by a school admin: the middleware does not
    see the [:id] of the path, the handler compares the school that was
    found with the school of the user.  The document is sent for the own
    school only; any other school that exists is answered 403, one that
    does not exist 404. *)
Theorem schools_get_own_school_only (req : Request) (id : string)
        (i : ObjectId) :
  authenticated env io db req u ->
  JS.truthy (requestedSchoolId req) = false ->
  ObjectId_from id = Some i ->
  schools_get env io db req id
  = match find (fun s => oid_eqb (s_id s) i) (schools db) with
    | None => inl (reply 404 ["message" ~> JStr "School not found"])
    | Some school =>
        if oid_eqb (s_id school) own then inr school
        else inl (reply 403
               ["message" ~> JStr "Access denied. You can only view your own school."])
    end.
Proof.
  intros Ha Hq Hparse. unfold schools_get.
  rewrite (school_admin_chain _ Ha), (canAccessSchool_own _ u own); auto.
  unfold schools_get_handler. rewrite Hparse.
  destruct (find _ (schools db)) as [school |]; [ | reflexivity].
  cbn [user set_user]. rewrite Hrole, Hown.
  cbn [String.eqb Ascii.eqb Bool.eqb].
  fold (oid_eqb (s_id school) own). now destruct (oid_eqb (s_id school) own).
Qed.

End ScopedProperties.

Lemma students_stats_reads_query_string_only_witness :
  canAccessSchool (set_user Fixture.get_mixed Sample.alice)
  = next (set_user Fixture.get_mixed Sample.alice)
  /\ students_stats (bson := Fixture.bson) Sample.env Sample.io0
                    Sample.db_alice Fixture.get_mixed
     = inr (Some (QId (Some Sample.T2))).
Proof.
  split; [reflexivity | ].
  apply (students_stats_reads_query_string_only (bson := Fixture.bson)
           Sample.env Sample.io0 Sample.db_alice Sample.alice Sample.T1
           eq_refl eq_refl Fixture.get_mixed Sample.T2); reflexivity.
Defined.

Lemma students_stats_scoped_by_query_string_witness :
  match students_stats (bson := Fixture.bson) Sample.env Sample.io0
                       Sample.db_alice (Sample.get (Some (toString Sample.T1)))
  with
  | inl _ => True
  | inr q => q = Some (QId (Some Sample.T1))
  end.
Proof.
  apply (students_stats_scoped_by_query_string (bson := Fixture.bson)
           Sample.env Sample.io0 Sample.db_alice Sample.alice Sample.T1
           eq_refl eq_refl (Sample.get (Some (toString Sample.T1))));
    reflexivity.
Defined.

Lemma students_search_unscoped_witness :
  students_search Sample.env Sample.io0 Sample.db_alice (Sample.get None)
  = inr None.
Proof.
  apply (students_search_unscoped Sample.env Sample.io0 Sample.db_alice
           Sample.alice Sample.T1 eq_refl eq_refl (Sample.get None));
    reflexivity.
Defined.

Lemma schools_get_own_school_only_witness :
  schools_get (bson := Fixture.bson) Sample.env Sample.io0 Fixture.db_schools
              (Sample.get None) (toString Sample.T2)
  = inl (reply 403
      ["message" ~> JStr "Access denied. You can only view your own school."])
  /\ schools_get (bson := Fixture.bson) Sample.env Sample.io0
                 Fixture.db_schools (Sample.get None) (toString Sample.T1)
     = inr Sample.acme.
Proof.
  split.
  - exact (schools_get_own_school_only (bson := Fixture.bson) Sample.env
             Sample.io0 Fixture.db_schools Sample.alice Sample.T1
             eq_refl eq_refl (Sample.get None) (toString Sample.T2) Sample.T2
             eq_refl eq_refl eq_refl).
  - reflexivity.
Defined.

(* ------------------------------------------------------------------ *)
(** ** The keys of [users] *)

Lemma NoDup_map_eq {A B : Type} (f : A -> B) (l : list A) (a b : A) :
  NoDup (map f l) -> In a l -> In b l -> f a = f b -> a = b.
Proof.
  induction l as [| x l IH]; simpl; [tauto | ].
  intros Hn Ha Hb E. apply NoDup_cons_iff in Hn as [Hx Hn].
  destruct Ha as [-> | Ha], Hb as [-> | Hb]; auto.
  - exfalso. apply Hx. rewrite E. now apply in_map.
  - exfalso. apply Hx. rewrite <- E. now apply in_map.
Qed.

Lemma existsb_false_In {A : Type} (p : A -> bool) (l : list A) (a : A) :
  existsb p l = false -> In a l -> p a = false.
Proof.
  intros H Hin. destruct (p a) eqn:E; [ | reflexivity].
  rewrite <- H. symmetry. apply existsb_exists. now exists a.
Qed.

Lemma NoDup_snoc {A : Type} (l : list A) (a : A) :
  NoDup l -> ~ In a l -> NoDup (l ++ [a]).
Proof.
  induction l as [| x l IH]; simpl; intros Hn Ha.
  - constructor; [tauto | constructor].
  - apply NoDup_cons_iff in Hn as [Hx Hn]. constructor.
    + rewrite in_app_iff. simpl. intros [H | [H | []]]; [tauto | ].
      apply Ha. now left.
    + apply IH; tauto.
Qed.

Lemma present_same (d d' : User) (db : DB) :
  u_id d' = u_id d -> u_email d' = u_email d ->
  present d db -> present d' db.
Proof. intros Hi He (v & Hin & H1 & H2). exists v. now rewrite Hi, He. Qed.

Lemma present_In (u : User) (db : DB) : In u (users db) -> present u db.
Proof. intros H. now exists u. Qed.

Lemma present_stored (doc : User) (db : DB) :
  unique_keys db -> present doc db ->
  forall v, In v (users db) -> u_id v = u_id doc -> u_email v = u_email doc.
Proof.
  intros [Hn _] (w & Hin & Hi & He) v Hv E.
  assert (v = w) by (apply (NoDup_map_eq u_id (users db)); congruence).
  now subst.
Qed.

Lemma replace_user_keys (doc : User) (l : list User) :
  (forall v, In v l -> u_id v = u_id doc -> u_email v = u_email doc) ->
  map u_id (replace_user doc l) = map u_id l
  /\ map u_email (replace_user doc l) = map u_email l.
Proof.
  induction l as [| x l IH]; simpl; intros H; [auto | ].
  destruct IH as [I1 I2]; [intros v Hv; apply H; now right | ].
  rewrite I1, I2.
  destruct (oid_eqb (u_id x) (u_id doc)) eqn:E; [ | auto].
  apply oid_eqb_eq in E. rewrite <- E, <- (H x (or_introl eq_refl) E). auto.
Qed.

Lemma replace_user_sound (doc : User) (db : DB) :
  unique_keys db -> present doc db ->
  unique_keys (with_users (replace_user doc) db)
  /\ forall d, present d db -> present d (with_users (replace_user doc) db).
Proof.
  intros Hu Hp. pose proof (present_stored doc db Hu Hp) as Hs.
  destruct (replace_user_keys doc (users db) Hs) as [K1 K2].
  split.
  - unfold unique_keys. cbn [users with_users]. rewrite K1, K2. exact Hu.
  - intros d (v & Hin & Hi & He).
    exists (if oid_eqb (u_id v) (u_id doc) then doc else v). split.
    + cbn [users with_users]. unfold replace_user.
      apply (in_map (fun v => if oid_eqb (u_id v) (u_id doc) then doc else v)),
        Hin.
    + destruct (oid_eqb (u_id v) (u_id doc)) eqn:E; [ | auto].
      apply oid_eqb_eq in E. rewrite <- (Hs v Hin E), <- E. auto.
Qed.

(** The rules of [sound]. *)

Lemma sound_bind {A B : Type} (P : DB -> Prop) (c : M A) (Q : A -> DB -> Prop)
      (k : A -> M B) (R : B -> DB -> Prop) :
  sound P c Q -> (forall a, sound (Q a) (k a) R) -> sound P (bind c k) R.
Proof.
  intros Hc Hk db Hu HP. destruct (Hc db Hu HP) as (U1 & F1 & Q1).
  unfold bind. destruct (c db) as [[a | e | r] db1]; cbn [fst snd] in *.
  - destruct (Hk a db1 U1 (Q1 a eq_refl)) as (U2 & F2 & Q2). auto.
  - split; [exact U1 | split; [exact F1 | discriminate]].
  - split; [exact U1 | split; [exact F1 | discriminate]].
Qed.

Lemma sound_pre {A : Type} (P P' : DB -> Prop) (c : M A)
      (Q : A -> DB -> Prop) :
  (forall db, P db -> P' db) -> sound P' c Q -> sound P c Q.
Proof. intros H Hc db Hu HP. apply Hc; auto. Qed.

Lemma sound_post {A : Type} (P : DB -> Prop) (c : M A)
      (Q Q' : A -> DB -> Prop) :
  (forall a db, Q a db -> Q' a db) -> sound P c Q -> sound P c Q'.
Proof.
  intros H Hc db Hu HP. destruct (Hc db Hu HP) as (U & F & HQ). auto.
Qed.

Lemma sound_keep {A : Type} (P : DB -> Prop) (c : M A) (Q : A -> DB -> Prop)
      (d : User) :
  sound P c Q ->
  sound (fun db => P db /\ present d db) c (fun a db => Q a db /\ present d db).
Proof.
  intros Hc db Hu [HP Hd]. destruct (Hc db Hu HP) as (U & F & HQ). auto.
Qed.

Lemma sound_ret {A : Type} (P : DB -> Prop) (a : A) (Q : A -> DB -> Prop) :
  (forall db, P db -> Q a db) -> sound P (ret a) Q.
Proof.
  intros H db Hu HP. unfold ret. cbn [fst snd].
  split; [exact Hu | split; [auto | ]]. intros ? [= <-]. auto.
Qed.

Lemma sound_gets {A : Type} (P : DB -> Prop) (f : DB -> A)
      (Q : A -> DB -> Prop) :
  (forall db, P db -> Q (f db) db) -> sound P (gets f) Q.
Proof.
  intros H db Hu HP. unfold gets. cbn [fst snd].
  split; [exact Hu | split; [auto | ]]. intros ? [= <-]. auto.
Qed.

Lemma sound_throw {A : Type} (P : DB -> Prop) (e : Err)
      (Q : A -> DB -> Prop) :
  sound P (throw e) Q.
Proof.
  intros db Hu HP. unfold throw. cbn [fst snd].
  split; [exact Hu | split; [auto | discriminate]].
Qed.

Lemma sound_respond {A : Type} (P : DB -> Prop) (r : Response)
      (Q : A -> DB -> Prop) :
  sound P (respond r) Q.
Proof.
  intros db Hu HP. unfold respond. cbn [fst snd].
  split; [exact Hu | split; [auto | discriminate]].
Qed.

Lemma sound_orThrow {A : Type} (P : DB -> Prop) (v : option A) (e : Err) :
  sound P (orThrow v e) (fun a db => v = Some a /\ P db).
Proof.
  intros db Hu HP. unfold orThrow, ret, throw.
  destruct v; cbn [fst snd]; (split; [exact Hu | split; [auto | ]]).
  - intros ? [= <-]. auto.
  - discriminate.
Qed.

Lemma sound_insert_user (P : DB -> Prop) (u : User) :
  sound P (insert_user u) (fun _ db => present u db).
Proof.
  intros db [U1 U2] _. unfold insert_user.
  destruct (existsb _ (users db)) eqn:E; cbn [fst snd].
  - split; [split; assumption | split; [auto | discriminate]].
  - rewrite existsb_or in E. apply orb_false_iff in E as [Ei Ee].
    split; [split | split]; cbn [users with_users].
    + rewrite map_app. apply NoDup_snoc; [exact U1 | ].
      intros Hin. apply in_map_iff in Hin as (v & Hv & Hin).
      apply (existsb_false_In _ _ v) in Ei; [ | exact Hin].
      apply oid_eqb_neq in Ei. contradiction.
    + rewrite map_app. apply NoDup_snoc; [exact U2 | ].
      intros Hin. apply in_map_iff in Hin as (v & Hv & Hin).
      apply (existsb_false_In _ _ v) in Ee; [ | exact Hin].
      apply String.eqb_neq in Ee. contradiction.
    + intros d (v & Hin & H). exists v. split; [ | exact H].
      apply in_or_app. now left.
    + intros _ _. exists u. split; [ | auto]. apply in_or_app. right. now left.
Qed.

Lemma sound_replace (doc0 doc : User) :
  u_id doc = u_id doc0 -> u_email doc = u_email doc0 ->
  sound (present doc0) (modify (with_users (replace_user doc)))
        (fun _ db => present doc0 db).
Proof.
  intros Hi He db Hu Hp.
  assert (Hd : present doc db) by now apply (present_same doc0).
  destruct (replace_user_sound doc db Hu Hd) as [U F].
  unfold modify. cbn [fst snd]. auto.
Qed.

Lemma sound_try_catch (c : M Response) (h : Err -> Response) (db : DB)
      (Q : Response -> DB -> Prop) :
  sound (fun _ => True) c Q -> unique_keys db ->
  unique_keys (snd (try_catch c h db)).
Proof. intros Hc Hu. rewrite try_catch_snd. now apply Hc. Qed.

Section Sound.

Context {lib : Lib}.

Lemma sound_User_save (withPassword : bool) (doc0 doc : User) :
  u_id doc = u_id doc0 -> u_email doc = u_email doc0 ->
  sound (present doc0) (User_save withPassword doc)
        (fun _ db => present doc0 db).
Proof.
  intros Hi He. unfold User_save.
  destruct (validateUser withPassword doc);
    [now apply sound_replace | apply sound_throw].
Qed.

Lemma sound_User_create (P : DB -> Prop) io name email password role :
  sound P (User_create io name email password role)
        (fun u db => present u db).
Proof.
  unfold User_create. destruct (validateUser _ _); [ | apply sound_throw].
  eapply sound_bind; [apply sound_insert_user | ].
  intros ?. now apply sound_ret.
Qed.

Lemma sound_User_findOneAndUpdate (P : DB -> Prop) io email name password role
      isActive :
  sound P (User_findOneAndUpdate io email name email password role isActive)
        (fun u db => present u db).
Proof.
  unfold User_findOneAndUpdate, User_findOne.
  eapply sound_bind.
  { apply (sound_gets _ _ (fun found db =>
             found = find (by_email email) (users db))). reflexivity. }
  intros [u | ].
  - intros db Hu HP. symmetry in HP. apply find_some in HP as [Hin He].
    apply String.eqb_eq in He.
    apply (sound_bind (present u) _ (fun _ db => present u db));
      [ | | exact Hu | now apply present_In].
    + apply sound_replace; [reflexivity | now rewrite He].
    + intros ?. apply sound_ret. intros db'.
      apply present_same; [reflexivity | now rewrite He].
  - eapply sound_bind; [apply sound_insert_user | ].
    intros ?. now apply sound_ret.
Qed.

Lemma sound_User_save_again (io : Io) (doc0 doc : User) :
  u_id doc = u_id doc0 -> u_email doc = u_email doc0 ->
  sound (present doc0) (User_save_again io doc)
        (fun _ db => present doc0 db).
Proof.
  intros Hi He. unfold User_save_again.
  destruct (late io) as [[salt1 salt2] |]; [ | now apply sound_User_save].
  destruct (validateUser true _); [now apply sound_replace | apply sound_throw].
Qed.

Lemma sound_issue_tokens env io again user :
  sound (present user) (issue_tokens env io again user)
        (fun _ _ => True).
Proof.
  unfold issue_tokens.
  eapply sound_bind; [apply sound_orThrow | ]. intros token.
  eapply sound_bind; [apply sound_orThrow | ]. intros refreshToken.
  eapply sound_bind.
  - eapply sound_pre; [ | destruct again;
                          [apply (sound_User_save_again _ user); reflexivity
                          | apply (sound_User_save _ user); reflexivity]].
    tauto.
  - intros ?. now apply sound_ret.
Qed.

Lemma sound_legacy_login (P : DB -> Prop) io coll dflt role email password :
  sound P (legacy_login io coll dflt role email password)
        (fun o db => forall u, o = Some u -> present u db).
Proof.
  unfold legacy_login.
  eapply sound_bind; [apply (sound_gets _ _ (fun _ _ => True)); auto | ].
  intros [r | ]; [ | apply sound_ret; discriminate].
  eapply sound_bind.
  { instantiate (1 := fun _ _ => True). unfold compare_field.
    destruct password; [now apply sound_ret | apply sound_throw]. }
  intros ok. destruct (negb ok); [apply sound_respond | ].
  eapply sound_bind; [apply sound_User_findOneAndUpdate | ].
  intros u. apply sound_ret. now intros db H ? [= <-].
Qed.

Lemma register_unique_keys env io b db :
  unique_keys db -> unique_keys (snd (register env io b db)).
Proof.
  intros Hu. unfold register.
  apply (sound_try_catch _ _ _ (fun _ _ => True)); [ | exact Hu].
  destruct (validationResult _); [ | apply sound_respond]. cbv zeta.
  eapply sound_bind.
  { instantiate (1 := fun _ _ => True). destruct (_ =? "admins").
    - eapply sound_bind; [apply (sound_gets _ _ (fun _ _ => True)); auto | ].
      intros [r | ]; [apply sound_respond | now apply sound_ret].
    - eapply sound_bind; [apply (sound_gets _ _ (fun _ _ => True)); auto | ].
      intros [r | ]; [apply sound_respond | now apply sound_ret]. }
  intros ?. eapply sound_bind.
  { instantiate (1 := fun u db => present u db). destruct (_ =? "admins").
    - eapply sound_bind; [apply sound_User_create | ]. intros temp.
      eapply sound_bind; [ | intros ?; apply sound_ret; intros ? H; exact H].
      intros db0 H0 Hp. unfold Admin_create.
      destruct (_ =? ""); [ | destruct (existsb _ _)]; cbn [fst snd];
        (split; [exact H0 | split; [auto | ]]);
        try discriminate.
      intros ? _. exact Hp.
    - apply sound_User_create. }
  intros user.
  eapply sound_bind; [apply sound_orThrow | ]. intros token.
  eapply sound_bind; [apply sound_orThrow | ]. intros refreshToken.
  eapply sound_bind.
  - eapply sound_pre; [ | apply (sound_User_save _ user); reflexivity].
    tauto.
  - intros ?. now apply sound_ret.
Qed.

Lemma login_unique_keys env io email password db :
  unique_keys db -> unique_keys (snd (login_on env io email password db)).
Proof.
  intros Hu. unfold login_on.
  apply (sound_try_catch _ _ _ (fun _ _ => True)); [ | exact Hu].
  destruct (validationResult _); [ | apply sound_respond]. cbv zeta.
  destruct (env_credentials _ _ _).
  { eapply sound_bind; [apply sound_User_findOneAndUpdate | ].
    intros mirror. apply sound_issue_tokens. }
  eapply sound_bind.
  { unfold User_findOne.
    apply (sound_gets _ _ (fun found db =>
             forall u, found = Some u -> present u db)).
    intros db0 _ u H. apply find_some in H as [Hin _].
    now apply present_In. }
  intros found. eapply sound_bind.
  { instantiate (1 := fun o db => forall u, o = Some u -> present u db).
    destruct found as [u | ]; [ | apply sound_legacy_login].
    destruct (negb (u_isActive u)); [apply sound_respond | ].
    eapply sound_bind.
    { instantiate (1 := fun _ db => present u db). unfold compare_field.
      destruct password; [apply sound_ret; auto | apply sound_throw]. }
    intros isMatch. destruct (negb isMatch); [apply sound_respond | ].
    apply sound_ret. now intros db0 H ? [= <-]. }
  intros user. eapply sound_bind.
  { instantiate (1 := fun o db => forall u, o = Some u -> present u db).
    destruct user; [apply sound_ret; auto | apply sound_legacy_login]. }
  intros [user' | ]; [ | apply sound_respond].
  apply (sound_pre _ (present user')); [auto | ].
  eapply sound_bind; [apply (sound_User_save _ user'); reflexivity | ].
  intros ?.
  eapply sound_pre; [ | apply sound_issue_tokens].
  intros db0. now apply present_same.
Qed.

Lemma refresh_unique_keys env io t db :
  unique_keys db -> unique_keys (snd (refresh env io t db)).
Proof.
  intros Hu. unfold refresh.
  apply (sound_try_catch _ _ _ (fun _ _ => True)); [ | exact Hu].
  destruct (validationResult _); [ | apply sound_respond].
  eapply sound_bind.
  { instantiate (1 := fun _ _ => True).
    destruct (jwt.verify _ _ _) as [[] | payload];
      [apply sound_throw | apply sound_throw | now apply sound_ret]. }
  intros decoded. eapply sound_bind.
  { unfold User_findById.
    apply (sound_gets _ _ (fun found db =>
             forall u, found = Some u -> present u db)).
    intros db0 _ u H. apply findById_some in H as [Hin _].
    now apply present_In. }
  intros [user | ]; [ | apply sound_respond].
  destruct (differs _ _); [apply sound_respond | ].
  apply (sound_pre _ (present user)); [auto | ].
  eapply sound_bind; [apply sound_orThrow | ]. intros token.
  eapply sound_bind; [apply sound_orThrow | ]. intros refreshToken.
  eapply sound_bind.
  - eapply sound_pre; [ | apply (sound_User_save _ user); reflexivity].
    tauto.
  - intros ?. now apply sound_ret.
Qed.

Lemma logout_unique_keys env io req db :
  unique_keys db -> unique_keys (snd (logout env io req db)).
Proof.
  intros Hu. unfold logout.
  destruct (protect_cases env io db req) as [(r & -> & _) | (u & Hp & Hf)];
    [exact Hu | ].
  rewrite Hp. cbn [user set_user].
  apply findById_some in Hf as [Hin _].
  rewrite try_catch_snd. cbn [orThrow]. run. unfold User_save.
  destruct (validateUser _ _); run; cbn [snd]; [ | exact Hu].
  apply replace_user_sound; [exact Hu | ].
  apply (present_same u); [reflexivity .. | now apply present_In].
Qed.

Lemma onboarding_unique_keys env io req b db :
  unique_keys db -> unique_keys (snd (onboarding env io req b db)).
Proof.
  intros Hu. unfold onboarding.
  destruct (protect env io db req) as [r | req']; [exact Hu | ].
  apply (sound_try_catch _ _ _ (fun _ _ => True)); [ | exact Hu].
  destruct (validationResult _); [ | apply sound_respond].
  eapply sound_bind.
  { instantiate (1 := fun _ _ => True). unfold School_create.
    destruct (validateSchool _); [ | apply sound_throw].
    intros db0 H0 _. destruct (existsb _ _); cbn [fst snd];
      (split; [exact H0 | split; [auto | auto]]). }
  intros school. eapply sound_bind.
  { instantiate (1 := fun o db => forall u, o = Some u -> present u db).
    destruct (user req') as [u | ]; [ | apply sound_ret; discriminate].
    unfold User_findById. apply sound_gets.
    intros db0 _ v H. apply findById_some in H as [Hin _].
    now apply present_In. }
  intros found. eapply sound_bind; [apply sound_orThrow | ]. intros user.
  apply (sound_pre _ (present user)); [intros db0 [-> H]; auto | ].
  eapply sound_bind; [ | intros ?; now apply sound_ret].
  apply sound_User_save; destruct (0 <? _)%nat; reflexivity.
Qed.

End Sound.

(** X7.  No request to the routes that write breaks the unique keys of
    [users]: from a collection in which no two documents share an [_id] or
    an [email], any sequence of registrations, logins, refreshes, logouts
    and onboardings, whatever their bodies, tokens and clocks, leaves such
    a collection.  In particular no [save] and no upsert of these handlers
    moves a document onto the address of another. *)
Theorem requests_keep_unique_keys
        {lib : Lib} (env : Env) (calls : list (Io * Call)) (db : DB) :
  unique_keys db -> unique_keys (serve_all env calls db).
Proof.
  revert db. induction calls as [| [io c] rest IH]; intros db Hu; [exact Hu | ].
  cbn [serve_all]. apply IH. destruct c; cbn [serve].
  - now apply register_unique_keys.
  - now apply login_unique_keys.
  - now apply refresh_unique_keys.
  - now apply logout_unique_keys.
  - now apply onboarding_unique_keys.
Qed.

Lemma requests_keep_unique_keys_witness :
  unique_keys Sample.db_alice
  /\ unique_keys
       (serve_all (lib := Sample.lib) Sample.env
          [(Sample.io0, Register Sample.reg_plain);
           (Sample.io0, Login "a@x.com" (FStr "secret1"));
           (Sample.io_minute, Refresh (Some Sample.refresh_a));
           (Sample.io_minute, Logout (Sample.get None))]
          Sample.db_alice).
Proof.
  assert (H : unique_keys Sample.db_alice).
  { split; (constructor; [intros [] | constructor]). }
  split; [exact H | ].
  apply (requests_keep_unique_keys (lib := Sample.lib) Sample.env _
           Sample.db_alice H).
Defined.

(* ------------------------------------------------------------------ *)
(** ** Sessions *)

Lemma sign_inv i secret span io token :
  jwt.sign i secret span io = Some token ->
  exists key, secret = Some key /\ JS.truthy (Some key) = true
              /\ token = Signed key i (jwt.clock io) (jwt.clock io + span).
Proof.
  unfold jwt.sign. destruct secret as [key |]; [ | discriminate].
  destruct (key =? "") eqn:E; [discriminate | ]. intros [= <-].
  exists key. repeat split. unfold JS.truthy. now rewrite E.
Qed.

Lemma refresh_grants env io db user key t e newToken newRefreshToken :
  JWT_REFRESH_SECRET env = Some key ->
  JS.truthy (Some key) = true ->
  (jwt.clock io < e)%Z ->
  findById (users db) (u_id user) = Some user ->
  u_refreshToken user = Some (Signed key (u_id user) t e) ->
  getSignedJwtToken env io user = Some newToken ->
  getRefreshToken env io user = Some newRefreshToken ->
  validateUser false user = [] ->
  refresh env io (Some (Signed key (u_id user) t e)) db
  = (rotated newToken newRefreshToken,
     with_users (replace_user (set_refreshToken user (Some newRefreshToken)))
                db).
Proof.
  intros Hk Ht He Hf Hs HA HR Hv. unfold refresh.
  cbn [validationResult notEmptyToken flat_map fst snd check app].
  rewrite Hk, (verify_signed _ _ _ _ _ Ht).
  assert (E : (e <=? jwt.clock io)%Z = false) by (apply Z.leb_gt; lia).
  rewrite E. run. cbn [jwt.id]. rewrite Hf, Hs.
  cbn [differs]. 
  assert (Hq : token_eqb (Signed key (u_id user) t e)
                         (Signed key (u_id user) t e) = true)
    by now apply token_eqb_eq.
  rewrite Hq. cbn [negb]. rewrite HA, HR. unfold User_save.
  change (validateUser false (set_refreshToken user (Some newRefreshToken)))
    with (validateUser false user).
  rewrite Hv. reflexivity.
Qed.

Section Session.

Context {lib : Lib}.

Variables (env : Env) (io : Io) (b : LoginBody) (db : DB) (u : User).
Variables (token refreshToken : Token).

Hypothesis Hvalid : forallb fst (login_chains b) = true.
Hypothesis Henv :
  is_env_super_admin env (login_email b) (login_password b) = false.
Hypothesis Hfound : find (by_email (login_email b)) (users db) = Some u.
Hypothesis Hactive : u_isActive u = true.
Hypothesis Hpassword : bcrypt_compare (login_password b) (u_password u) = true.
Hypothesis Hdoc : validateUser true u = [].
Hypothesis Htoken : getSignedJwtToken env io u = Some token.
Hypothesis Hrefresh : getRefreshToken env io u = Some refreshToken.

Lemma login_grants :
  login env io b db
  = (session 200 token refreshToken (logged_in io u refreshToken),
     with_users (replace_user (logged_in io u refreshToken)) db).
Proof.
  open_login. rewrite (validationResult_nil _ Hvalid), Henv.
  unfold try_catch, bind at 1, User_findOne at 1, gets at 1. rewrite Hfound.
  rewrite Hactive. cbn [negb]. unfold bind at 1. unfold bind at 1.
  unfold compare_field, ret at 1. rewrite Hpassword. cbn [negb].
  unfold ret at 1. unfold bind at 1, ret at 1.
  now rewrite (login_tail env io u token refreshToken db Hdoc Htoken Hrefresh).
Qed.

(** X8.  An accepted login: a body that passes the validators, for an
    active document of [users] whose hash verifies, is answered 200 with
    the two tokens signed for that document; [users] changes in that
    document only, and there in [lastLogin] and [refreshToken], and in
    [password] when the late re-hash of the first save overtakes the
    second: the document is then left with a hash of a hash of its hash. *)
Theorem login_opens_session :
  login env io b db
  = (session 200 token refreshToken (logged_in io u refreshToken),
     with_users (replace_user (logged_in io u refreshToken)) db)
  /\ same_account (logged_in io u refreshToken) u
  /\ u_lastLogin (logged_in io u refreshToken) = now io
  /\ u_refreshToken (logged_in io u refreshToken) = Some refreshToken
  /\ u_password (logged_in io u refreshToken)
     = match late io with
       | None => u_password u
       | Some (salt1, salt2) =>
           bcrypt_hash (bcrypt_hash (u_password u) salt1) salt2
       end.
Proof.
  split; [exact login_grants | ]. split; [repeat split | ].
  split; [reflexivity | ]. split; [reflexivity | ].
  unfold logged_in, stored_password. cbn [u_password set_password].
  destruct (late io) as [[salt1 salt2] |]; reflexivity.
Qed.

Hypothesis Hid : findById (users db) (u_id u) = Some u.

(** X9.  The access token of an accepted login opens the gate: until it
    expires, a request that bears it runs as the document that the login
    has stored. *)
Theorem login_token_passes_protect (later : Io) (req : Request) :
  authorization req = bearer token ->
  (jwt.clock later < jwt.clock io + span_or (JWT_EXPIRES_IN env) seven_days)%Z ->
  authenticated env later (snd (login env io b db)) req
                (logged_in io u refreshToken).
Proof.
  intros Ha Hlt. rewrite login_grants. cbn [snd]. unfold authenticated.
  destruct (sign_inv _ _ _ _ _ Htoken) as (key & Hk & Ht & ->).
  rewrite (protect_bearer _ _ _ _ _ Ha), Hk, (verify_signed _ _ _ _ _ Ht).
  assert (E : (jwt.clock io + span_or (JWT_EXPIRES_IN env) seven_days
               <=? jwt.clock later)%Z = false) by (apply Z.leb_gt; lia).
  rewrite E. cbn [jwt.id users with_users].
  now rewrite (findById_replace _ _ u (logged_in io u refreshToken) Hid).
Qed.

(** X10.  The refresh token of an accepted login is the one that
    [/refresh] honours: until it expires, presenting it is answered 200
    with the tokens signed at that moment, and the new refresh token takes
    its place in the document. *)
Theorem login_refresh_token_rotates (later : Io)
        (newToken newRefreshToken : Token) :
  (jwt.clock later
   < jwt.clock io + span_or (JWT_REFRESH_EXPIRES_IN env) thirty_days)%Z ->
  getSignedJwtToken env later u = Some newToken ->
  getRefreshToken env later u = Some newRefreshToken ->
  refresh env later (Some refreshToken) (snd (login env io b db))
  = (rotated newToken newRefreshToken,
     with_users
       (replace_user
          (set_refreshToken (logged_in io u refreshToken)
                            (Some newRefreshToken))) db).
Proof.
  intros Hlt HA HR. rewrite login_grants. cbn [snd].
  destruct (sign_inv _ _ _ _ _ Hrefresh) as (key & Hk & Ht & E).
  set (u' := logged_in io u refreshToken).
  assert (Hf : findById (users (with_users (replace_user u') db)) (u_id u')
               = Some u').
  { cbn [users with_users]. now apply (findById_replace _ _ u). }
  rewrite E.
  rewrite (refresh_grants env later _ u' key _ _ newToken newRefreshToken
             Hk Ht Hlt Hf); try assumption.
  - f_equal. unfold with_users. cbn [users admins school_admins schools].
    f_equal. now apply replace_user_twice.
  - unfold u', logged_in. cbn [u_refreshToken set_refreshToken].
    now rewrite E.
  - change (validateUser false u = []). now apply validateUser_false.
Qed.

End Session.

Lemma login_opens_session_witness :
  login (lib := Sample.lib) Sample.env Cases.io_late Sample.login_alice
        Sample.db_alice
  = (session 200 Sample.access_a Sample.refresh_a
       (logged_in (lib := Sample.lib) Cases.io_late Sample.alice
                  Sample.refresh_a),
     with_users
       (replace_user
          (logged_in (lib := Sample.lib) Cases.io_late Sample.alice
                     Sample.refresh_a))
       Sample.db_alice)
  /\ same_account
       (logged_in (lib := Sample.lib) Cases.io_late Sample.alice
                  Sample.refresh_a)
       Sample.alice
  /\ u_lastLogin (logged_in (lib := Sample.lib) Cases.io_late Sample.alice
                            Sample.refresh_a)
     = now Cases.io_late
  /\ u_refreshToken (logged_in (lib := Sample.lib) Cases.io_late Sample.alice
                               Sample.refresh_a)
     = Some Sample.refresh_a
  /\ u_password (logged_in (lib := Sample.lib) Cases.io_late Sample.alice
                           Sample.refresh_a)
     = Sample.hash (Sample.hash (u_password Sample.alice) Cases.salt_late)
                   Cases.salt_again.
Proof.
  apply (login_opens_session (lib := Sample.lib) Sample.env Cases.io_late
           Sample.login_alice Sample.db_alice Sample.alice Sample.access_a
           Sample.refresh_a); reflexivity.
Defined.

Lemma login_token_passes_protect_witness :
  authenticated Sample.env Sample.io_minute
    (snd (login (lib := Sample.lib) Sample.env Sample.io0 Sample.login_alice
                Sample.db_alice))
    (Sample.get None)
    (logged_in (lib := Sample.lib) Sample.io0 Sample.alice Sample.refresh_a).
Proof.
  apply (login_token_passes_protect (lib := Sample.lib) Sample.env Sample.io0
           Sample.login_alice Sample.db_alice Sample.alice Sample.access_a
           Sample.refresh_a); reflexivity.
Defined.

Lemma login_refresh_token_rotates_witness :
  refresh Sample.env Sample.io_minute (Some Sample.refresh_a)
          (snd (login (lib := Sample.lib) Sample.env Sample.io0
                      Sample.login_alice Sample.db_alice))
  = (rotated
       (Signed "access-secret" Sample.id_a 1700000060
               (1700000060 + seven_days))
       (Signed "refresh-secret" Sample.id_a 1700000060
               (1700000060 + thirty_days)),
     with_users
       (replace_user
          (set_refreshToken
             (logged_in (lib := Sample.lib) Sample.io0 Sample.alice Sample.refresh_a)
             (Some (Signed "refresh-secret" Sample.id_a 1700000060
                           (1700000060 + thirty_days)))))
       Sample.db_alice).
Proof.
  apply (login_refresh_token_rotates (lib := Sample.lib) Sample.env Sample.io0
           Sample.login_alice Sample.db_alice Sample.alice Sample.access_a
           Sample.refresh_a); reflexivity.
Defined.

(* ------------------------------------------------------------------ *)
(** ** Registration, step by step *)

Lemma find_snoc {A : Type} (p : A -> bool) (l : list A) (a : A) :
  find p l = None -> p a = true -> find p (l ++ [a]) = Some a.
Proof.
  induction l as [| x l IH]; simpl; intros H Ha; [now rewrite Ha | ].
  destruct (p x); [discriminate | auto].
Qed.

Section Registration.

Context {lib : Lib}.

Variables (env : Env) (io : Io) (b : RegisterBody) (db : DB).

Hypothesis Hvalid : forallb fst (register_chains b) = true.
Hypothesis Hname : JS.trim (reg_name b) <> "".
Hypothesis Hlength : (String.length (JS.trim (reg_name b)) <= 50)%nat.
Hypothesis Hemail : Patterns.email_match (reg_email b) = true.
Hypothesis Hhash :
  (6 <= String.length (bcrypt_hash (reg_password b) (salt io)))%nat.
Hypothesis Hfree : find (by_email (reg_email b)) (users db) = None.
Hypothesis Hfree_admins :
  legacy_findOne (admins db) (reg_email b) false = None.
Hypothesis Hnew : findById (users db) (newId io) = None.

Lemma registered_valid (t : option Token) (withPassword : bool) :
  validateUser withPassword (registered io b t) = [].
Proof.
  pose proof Hvalid as Hv. cbn [register_chains forallb fst] in Hv.
  rewrite !andb_true_iff in Hv.
  destruct Hv as (_ & Hem & Hpw & Hrole & _).
  unfold isEmailField in Hem. rewrite andb_true_iff, negb_true_iff in Hem.
  destruct Hem as [Hem _]. apply String.eqb_neq in Hem.
  apply validateUser_ok; try assumption.
  cbn [u_role registered]. destruct (reg_role b); [exact Hrole | reflexivity].
Qed.

Lemma users_created :
  users (created io b db) = (users db ++ [registered io b None])%list.
Proof. unfold created. now destruct (_ =? "admins"). Qed.


(** The creation steps run to their end, and the answer depends on the
    signing alone. *)
Lemma register_runs :
  register env io b db
  = match getSignedJwtToken env io (registered io b None),
          getRefreshToken env io (registered io b None) with
    | Some token, Some refreshToken =>
        (session 201 token refreshToken (registered io b (Some refreshToken)),
         with_users (replace_user (registered io b (Some refreshToken)))
                    (created io b db))
    | _, _ => (ServerError, created io b db)
    end.
Proof.
  pose proof Hvalid as Hv. cbn [register_chains forallb fst] in Hv.
  rewrite !andb_true_iff in Hv. destruct Hv as (_ & _ & Hpw & _).
  apply Nat.leb_le in Hpw.
  assert (Hdoc : validateUser true
                   (mkUser (newId io) (JS.trim (reg_name b)) (reg_email b)
                      (reg_password b)
                      (JS.default (reg_role b) "school_admin") None true
                      (now io) None) = []).
  { pose proof (registered_valid None true) as H.
    unfold validateUser, required_then in *.
    cbn [u_name u_email u_password u_role registered] in *.
    rewrite (length_nonempty _ 5 Hhash) in H.
    rewrite (length_nonempty _ 5 Hpw).
    apply Nat.leb_le in Hhash, Hpw. rewrite Hhash in H. rewrite Hpw.
    exact H. }
  assert (Hins : existsb (fun v => oid_eqb (u_id v)
                                           (u_id (registered io b None))
                                   || (u_email v
                                       =? u_email (registered io b None)))
                         (users db) = false).
  { rewrite existsb_or. apply orb_false_iff.
    split; apply find_none_existsb; assumption. }
  assert (Hcreate :
            User_create io (reg_name b) (reg_email b) (reg_password b)
                        (JS.default (reg_role b) "school_admin") db
            = (Val (registered io b None),
               with_users (fun l => (l ++ [registered io b None])%list) db)).
  { unfold User_create. rewrite Hdoc. run. unfold insert_user.
    fold (registered io b None) in *.
    change (set_password _ _) with (registered io b None).
    now rewrite Hins. }
  assert (Hpw' : (bcrypt_hash (reg_password b) (salt io) =? "") = false)
    by exact (length_nonempty _ 5 Hhash).
  assert (Hadm : existsb (fun r => l_email r =? reg_email b) (admins db) = false)
    by now apply legacy_findOne_any_none.
  unfold register, created. rewrite (validationResult_nil _ Hvalid).
  cbv zeta. destruct (JS.default (reg_target b) "users" =? "admins").
  - run. rewrite Hfree_admins, Hcreate. cbv beta iota.
    unfold Admin_create. cbn [u_password registered]. rewrite Hpw'.
    cbn [admins with_users]. rewrite Hadm. cbv beta iota.
    destruct (getSignedJwtToken env io _) as [token |]; [ | reflexivity].
    destruct (getRefreshToken env io _) as [refreshToken |]; [ | reflexivity].
    unfold User_save.
    change (set_refreshToken (registered io b None) (Some refreshToken))
      with (registered io b (Some refreshToken)).
    now rewrite registered_valid.
  - run. rewrite Hfree, Hcreate. cbv beta iota.
    destruct (getSignedJwtToken env io _) as [token |]; [ | reflexivity].
    destruct (getRefreshToken env io _) as [refreshToken |]; [ | reflexivity].
    unfold User_save.
    change (set_refreshToken (registered io b None) (Some refreshToken))
      with (registered io b (Some refreshToken)).
    now rewrite registered_valid.
Qed.


(** X12.  A registration that cannot sign has created the account all the
    same: without [JWT_SECRET] the handler answers 500 after
    [User.create], the document stays in [users] without a refresh token,
    and the same body sent again is answered 400 as an address already
    registered. *)
Theorem register_without_secret_leaves_account (again : Io) :
  JS.truthy (JWT_SECRET env) = false ->
  register env io b db = (ServerError, created io b db)
  /\ users (created io b db) = (users db ++ [registered io b None])%list
  /\ register env again b (created io b db)
     = (if JS.default (reg_target b) "users" =? "admins"
        then EmailTakenAdmins else EmailTaken,
        created io b db).
Proof.
  intros Hs.
  assert (Hsign : getSignedJwtToken env io (registered io b None) = None).
  { unfold getSignedJwtToken, jwt.sign. unfold JS.truthy in Hs.
    destruct (JWT_SECRET env) as [key |]; [ | reflexivity].
    apply negb_false_iff in Hs. now rewrite Hs. }
  rewrite register_runs, Hsign. split; [reflexivity | ].
  split; [apply users_created | ].
  destruct (JS.default (reg_target b) "users" =? "admins") eqn:Ht.
  - apply String.eqb_eq in Ht.
    assert (Htarget : reg_target b = Some "admins").
    { destruct (reg_target b) as [target |]; [ | discriminate].
      cbn in Ht. now subst. }
    apply (register_email_taken_admins env again b _ Hvalid
             (mkLegacy (Some (reg_name b)) (reg_email b)
                       (bcrypt_hash (reg_password b) (salt io)) false));
      [exact Htarget | ].
    unfold created. rewrite Htarget. cbn [JS.default].
    cbn [String.eqb Ascii.eqb Bool.eqb admins with_admins with_users].
    unfold legacy_findOne. apply find_snoc; [exact Hfree_admins | ].
    cbn [l_email andb negb]. now rewrite String.eqb_refl.
  - apply (register_email_taken env again b _ Hvalid (registered io b None)).
    + now apply String.eqb_neq.
    + rewrite users_created.
      apply find_snoc; [exact Hfree | apply String.eqb_refl].
Qed.

End Registration.

(* ------------------------------------------------------------------ *)
(** ** Logout *)

Lemma authenticated_found env io db req u :
  authenticated env io db req u ->
  findById (users db) (u_id u) = Some u.
Proof.
  intros Ha.
  destruct (protect_cases env io db req) as [(r & Hp & _) | (v & Hp & Hf)];
    unfold authenticated in *; rewrite Hp in Ha; [discriminate | ].
  injection Ha as <-. exact Hf.
Qed.

(** [protect] reads [users] through [findById] only. *)
Lemma authenticated_replace env io db req u doc :
  authenticated env io db req u ->
  u_id doc = u_id u ->
  authenticated env io (with_users (replace_user doc) db) req doc.
Proof.
  unfold authenticated, protect. intros Ha Hi.
  destruct (authorization req) as [words |]; [ | discriminate].
  destruct (startsWithBearer words); [ | discriminate].
  destruct (jwt.verify _ _ _) as [err | decoded]; [discriminate | ].
  destruct (findById (users db) (jwt.id decoded)) as [v |] eqn:Hf;
    [ | discriminate].
  injection Ha as ->. cbn [users with_users].
  destruct (findById_some _ _ _ Hf) as [_ Hd].
  rewrite (findById_replace _ _ u doc Hf); [reflexivity | congruence].
Qed.

Section Logout.

Variables (env : Env) (io : Io) (db : DB) (req : Request) (u : User).

Hypothesis Hauth : authenticated env io db req u.
Hypothesis Hdoc : validateUser false u = [].

Lemma logout_runs :
  logout env io req db
  = (LoggedOut, with_users (replace_user (set_refreshToken u None)) db).
Proof.
  unfold logout. unfold authenticated in Hauth. rewrite Hauth.
  cbn [user set_user orThrow]. run. unfold User_save.
  change (validateUser false (set_refreshToken u None))
    with (validateUser false u).
  now rewrite Hdoc.
Qed.

(** X13.  A logout ends the refresh tokens of the account: it is answered
    200, the document loses its refresh token, and from then on every
    signed refresh token that names the account is refused by [/refresh],
    which writes nothing. *)
Theorem logout_retires_refresh_tokens
        (later : Io) (key : string) (t e : Z) :
  fst (logout env io req db) = LoggedOut
  /\ findById (users (snd (logout env io req db))) (u_id u)
     = Some (set_refreshToken u None)
  /\ refresh env later (Some (Signed key (u_id u) t e))
             (snd (logout env io req db))
     = (stale_answer env later (Signed key (u_id u) t e),
        snd (logout env io req db)).
Proof.
  rewrite logout_runs. cbn [fst snd].
  assert (Hf : findById
                 (users (with_users (replace_user (set_refreshToken u None)) db))
                 (u_id u) = Some (set_refreshToken u None)).
  { cbn [users with_users].
    apply (findById_replace _ _ u); [ | reflexivity].
    now apply (authenticated_found env io db req). }
  split; [reflexivity | ]. split; [exact Hf | ].
  apply (refresh_stale _ _ _ _ _ _ _ _ Hf). discriminate.
Qed.

(** X14.  A logout does not end the access token: a request that would
    have passed [protect] at a later moment still passes it after the
    logout, as the document without refresh token. *)
Theorem logout_keeps_access_token (later : Io) (req' : Request) :
  authenticated env later db req' u ->
  authenticated env later (snd (logout env io req db)) req'
                (set_refreshToken u None).
Proof.
  intros Ha. rewrite logout_runs. cbn [snd].
  now apply (authenticated_replace env later db req' u).
Qed.

End Logout.

Lemma logout_retires_refresh_tokens_witness :
  fst (logout Sample.env Sample.io_minute (Sample.get None)
              (mkDB [Sample.alice_session Sample.refresh_a] [] [] []))
  = LoggedOut
  /\ findById
       (users (snd (logout Sample.env Sample.io_minute (Sample.get None)
                      (mkDB [Sample.alice_session Sample.refresh_a] [] [] []))))
       Sample.id_a
     = Some Sample.alice
  /\ refresh Sample.env Sample.io_minute (Some Sample.refresh_a)
             (snd (logout Sample.env Sample.io_minute (Sample.get None)
                     (mkDB [Sample.alice_session Sample.refresh_a] [] [] [])))
     = (StaleRefresh,
        snd (logout Sample.env Sample.io_minute (Sample.get None)
               (mkDB [Sample.alice_session Sample.refresh_a] [] [] []))).
Proof.
  apply (logout_retires_refresh_tokens Sample.env Sample.io_minute
           (mkDB [Sample.alice_session Sample.refresh_a] [] [] [])
           (Sample.get None) (Sample.alice_session Sample.refresh_a));
    reflexivity.
Defined.

Lemma logout_keeps_access_token_witness :
  authenticated Sample.env Sample.io_minute
    (snd (logout Sample.env Sample.io0 (Sample.get None)
            (mkDB [Sample.alice_session Sample.refresh_a] [] [] [])))
    (Sample.get (Some "64b000000000000000000001"))
    Sample.alice.
Proof.
  apply (logout_keeps_access_token Sample.env Sample.io0
           (mkDB [Sample.alice_session Sample.refresh_a] [] [] [])
           (Sample.get None) (Sample.alice_session Sample.refresh_a));
    reflexivity.
Defined.

(* ------------------------------------------------------------------ *)
(** ** What the handlers write *)

Lemma refresh_answers_200_or_keeps env io t db :
  status (fst (refresh env io t db)) = 200 \/ snd (refresh env io t db) = db.
Proof.
  unfold refresh, User_save. run.
  repeat split_innermost; cbn [fst snd status reply]; auto.
Qed.

(** X15.  [/refresh] writes one thing only: either the database is left as
    it was, or the request is answered 200 and the refresh token of the
    document that held the presented token has been replaced by the new
    one. *)
Theorem refresh_writes_refresh_token_only
        (env : Env) (io : Io) (t : option Token) (db : DB) :
  snd (refresh env io t db) = db
  \/ exists user newToken newRefreshToken,
       findById (users db) (u_id user) = Some user
       /\ u_refreshToken user = t
       /\ refresh env io t db
          = (rotated newToken newRefreshToken,
             with_users
               (replace_user (set_refreshToken user (Some newRefreshToken)))
               db).
Proof.
  destruct (refresh_answers_200_or_keeps env io t db) as [H | H];
    [right | now left].
  destruct (refresh_ok env io t db _ _ (surjective_pairing _) H)
    as (key & i & t0 & e & user & nA & nR
        & Ht & Hk & Hf & Hst & HA & HR & Hresp & Hdb).
  exists user, nA, nR.
  destruct (findById_some _ _ _ Hf) as [_ Hi]. rewrite Hi.
  split; [exact Hf | ]. split; [congruence | ].
  rewrite (surjective_pairing (refresh env io t db)). now rewrite Hresp, Hdb.
Qed.

Lemma login_answers_200_500_or_keeps {lib : Lib} env io email password db :
  status (fst (login_on env io email password db)) = 200
  \/ status (fst (login_on env io email password db)) = 500
  \/ snd (login_on env io email password db) = db.
Proof.
  unfold login_on, legacy_login, issue_tokens, User_findOneAndUpdate,
    User_save_again, User_save, insert_user. run.
  repeat split_innermost; cbn [fst snd status reply failure]; auto.
Qed.

(** X16.  A login that is refused has written nothing: unless the answer
    is 200 or 500, no collection has changed; in particular no legacy
    record is materialized by a failed attempt. *)
Theorem login_refusal_writes_nothing
        {lib : Lib} (env : Env) (io : Io) (b : LoginBody) (db : DB) :
  status (fst (login env io b db)) <> 200 ->
  status (fst (login env io b db)) <> 500 ->
  snd (login env io b db) = db.
Proof.
  intros H2 H5. unfold login in *.
  destruct (login_answers_200_500_or_keeps env io (login_email b)
              (FStr (login_password b)) db) as [H | [H | H]];
    [contradiction | contradiction | exact H].
Qed.

Lemma login_refusal_writes_nothing_witness :
  status (fst (login (lib := Sample.lib) Sample.env Sample.io0
                     Sample.login_bob Sample.db_two_stores)) = 401
  /\ snd (login (lib := Sample.lib) Sample.env Sample.io0 Sample.login_bob
                Sample.db_two_stores)
     = Sample.db_two_stores.
Proof.
  split; [reflexivity | ].
  apply (login_refusal_writes_nothing (lib := Sample.lib) Sample.env
           Sample.io0 Sample.login_bob Sample.db_two_stores);
    vm_compute; discriminate.
Defined.

(** X17.  Once [users] holds a document for an address, [/login] decides
    on [users] alone: two databases with the same [users] give the same
    answer and the same [users] afterwards, whatever the legacy
    collections hold for the address by then.  And a login never writes to
    [admins], [school_admins] or [schools]. *)
Theorem login_ignores_legacy_once_materialized
        {lib : Lib} (env : Env) (io : Io) (b : LoginBody) (db db2 : DB)
        (u : User) :
  find (by_email (login_email b)) (users db) = Some u ->
  users db2 = users db ->
  fst (login env io b db2) = fst (login env io b db)
  /\ users (snd (login env io b db2)) = users (snd (login env io b db))
  /\ admins (snd (login env io b db2)) = admins db2
  /\ school_admins (snd (login env io b db2)) = school_admins db2
  /\ schools (snd (login env io b db2)) = schools db2.
Proof.
  intros Hu He. unfold login, login_on.
  destruct (validationResult _); [ | run; cbn [fst snd]; auto].
  cbv zeta.
  destruct (env_credentials _ _ _);
    unfold legacy_login, issue_tokens, User_findOneAndUpdate, User_save_again,
      User_save, insert_user; run; rewrite He, Hu;
    repeat split_innermost;
    cbn [fst snd users admins school_admins schools with_users];
    rewrite ?He; auto.
Qed.

Lemma login_ignores_legacy_once_materialized_witness :
  fst (login (lib := Sample.lib) Sample.env Sample.io0 Sample.login_bob
             Cases.db_bob_later)
  = fst (login (lib := Sample.lib) Sample.env Sample.io0 Sample.login_bob
               Cases.db_bob)
  /\ users (snd (login (lib := Sample.lib) Sample.env Sample.io0
                       Sample.login_bob Cases.db_bob_later))
     = users (snd (login (lib := Sample.lib) Sample.env Sample.io0
                         Sample.login_bob Cases.db_bob))
  /\ admins (snd (login (lib := Sample.lib) Sample.env Sample.io0
                        Sample.login_bob Cases.db_bob_later))
     = [Sample.bob_admin]
  /\ school_admins (snd (login (lib := Sample.lib) Sample.env Sample.io0
                               Sample.login_bob Cases.db_bob_later))
     = []
  /\ schools (snd (login (lib := Sample.lib) Sample.env Sample.io0
                         Sample.login_bob Cases.db_bob_later))
     = [].
Proof.
  apply (login_ignores_legacy_once_materialized (lib := Sample.lib) Sample.env
           Sample.io0 Sample.login_bob Cases.db_bob Cases.db_bob_later
           Cases.bob); reflexivity.
Defined.

(* ------------------------------------------------------------------ *)
(** ** The environment super admin *)

Section Takeover.

Context {lib : Lib}.

Variables (env : Env) (io : Io) (b : LoginBody) (db : DB) (u : User).
Variables (token refreshToken : Token).

Hypothesis Hvalid : forallb fst (login_chains b) = true.
Hypothesis Henv :
  is_env_super_admin env (login_email b) (login_password b) = true.
Hypothesis Hfound : find (by_email (login_email b)) (users db) = Some u.
Hypothesis Hemail : Patterns.email_match (login_email b) = true.
Hypothesis Htoken : getSignedJwtToken env io u = Some token.
Hypothesis Hrefresh : getRefreshToken env io u = Some refreshToken.

(** X18.  The credentials of the environment take over the account that
    holds their address: whatever the role, the password and [isActive] of
    the document in [users], the login is answered 200, and the document
    is left as an active [super_admin] named "Super Admin" whose password
    is the hash of the environment password; its [_id], [schoolId] and
    [lastLogin] stay. *)
Theorem env_super_admin_takes_over :
  login env io b db
  = (session 200 token refreshToken
       (taken_over io u (login_email b) (login_password b) refreshToken),
     with_users
       (replace_user
          (taken_over io u (login_email b) (login_password b) refreshToken))
       db).
Proof.
  pose proof Hvalid as Hv.
  cbn [login_chains login_chains_on forallb fst] in Hv.
  rewrite !andb_true_iff in Hv. destruct Hv as (Hem & _).
  unfold isEmailField in Hem. rewrite andb_true_iff, negb_true_iff in Hem.
  destruct Hem as [Hem _].
  assert (Hdoc : forall t,
            validateUser false
              (mkUser (u_id u) "Super Admin" (login_email b)
                      (bcrypt_hash (login_password b) (salt io)) "super_admin"
                      (u_schoolId u) true (u_lastLogin u) t) = []).
  { intros t. unfold validateUser, required_then.
    cbn [u_name u_email u_role]. rewrite Hem, Hemail. reflexivity. }
  open_login. rewrite (validationResult_nil _ Hvalid), Henv.
  unfold User_findOneAndUpdate, issue_tokens. run. rewrite Hfound.
  change (JS.trim "Super Admin") with "Super Admin".
  change (getSignedJwtToken env io
            (mkUser (u_id u) "Super Admin" (login_email b)
                    (bcrypt_hash (login_password b) (salt io)) "super_admin"
                    (u_schoolId u) true (u_lastLogin u) (u_refreshToken u)))
    with (getSignedJwtToken env io u).
  change (getRefreshToken env io
            (mkUser (u_id u) "Super Admin" (login_email b)
                    (bcrypt_hash (login_password b) (salt io)) "super_admin"
                    (u_schoolId u) true (u_lastLogin u) (u_refreshToken u)))
    with (getRefreshToken env io u).
  rewrite Htoken, Hrefresh. unfold User_save, set_refreshToken.
  cbn [u_id u_name u_email u_password u_role u_schoolId u_isActive
       u_lastLogin].
  rewrite Hdoc. run. unfold session, taken_over. f_equal.
  unfold with_users. cbn [users admins school_admins schools]. f_equal.
  now apply replace_user_twice.
Qed.

End Takeover.

Lemma env_super_admin_takes_over_witness :
  login (lib := Sample.lib) Cases.env_root Sample.io0 Cases.login_root
        Sample.db_alice_off
  = (session 200 Sample.access_a Sample.refresh_a
       (mkUser Sample.id_a "Super Admin" "a@x.com"
               (Sample.hash "rootpw1" Sample.salt22) "super_admin"
               (Some Sample.T1) true 0 (Some Sample.refresh_a)),
     mkDB [mkUser Sample.id_a "Super Admin" "a@x.com"
                  (Sample.hash "rootpw1" Sample.salt22) "super_admin"
                  (Some Sample.T1) true 0 (Some Sample.refresh_a)]
          [] [] []).
Proof.
  apply (env_super_admin_takes_over (lib := Sample.lib) Cases.env_root
           Sample.io0 Cases.login_root Sample.db_alice_off Sample.alice_off
           Sample.access_a Sample.refresh_a); reflexivity.
Defined.

(* ------------------------------------------------------------------ *)
(** ** Tokens at the gate *)

(** X19.  [protect] tells an access token from a refresh token by the
    secret alone: a request that bears the refresh token of a user, not
    yet expired, passes as that user exactly when [JWT_SECRET] is the
    secret that signed it, and is answered 401 otherwise. *)
Theorem refresh_token_at_protect
        (env : Env) (io later : Io) (db : DB) (req : Request) (u : User)
        (rkey : string) (refreshToken : Token) :
  JWT_REFRESH_SECRET env = Some rkey ->
  getRefreshToken env io u = Some refreshToken ->
  authorization req = bearer refreshToken ->
  findById (users db) (u_id u) = Some u ->
  (jwt.clock later
   < jwt.clock io + span_or (JWT_REFRESH_EXPIRES_IN env) thirty_days)%Z ->
  protect env later db req
  = if JS.strict_eq (JWT_SECRET env) rkey then next (set_user req u)
    else send TokenFailed.
Proof.
  intros Hr Ht Ha Hf Hlt. unfold getRefreshToken in Ht. rewrite Hr in Ht.
  destruct (sign_inv _ _ _ _ _ Ht) as (key & [= <-] & Hk & ->).
  rewrite (protect_bearer _ _ _ _ _ Ha). unfold jwt.verify, JS.strict_eq.
  destruct (JWT_SECRET env) as [k |]; [ | reflexivity].
  destruct (k =? rkey) eqn:E.
  - apply String.eqb_eq in E. subst k. unfold JS.truthy in Hk.
    apply negb_true_iff in Hk. rewrite Hk. cbn [orb negb].
    assert (E : (jwt.clock io
                 + span_or (JWT_REFRESH_EXPIRES_IN env) thirty_days
                 <=? jwt.clock later)%Z = false) by (apply Z.leb_gt; lia).
    rewrite E. cbn [jwt.id]. now rewrite Hf.
  - cbn [negb]. now rewrite orb_true_r.
Qed.

Lemma refresh_token_at_protect_witness :
  protect Cases.env_one_secret Sample.io_minute Sample.db_alice
          (Cases.get_with_refresh_token
             (Signed "one-secret" Sample.id_a 1700000000
                     (1700000000 + thirty_days)))
  = next (set_user
            (Cases.get_with_refresh_token
               (Signed "one-secret" Sample.id_a 1700000000
                       (1700000000 + thirty_days)))
            Sample.alice).
Proof.
  apply (refresh_token_at_protect Cases.env_one_secret Sample.io0
           Sample.io_minute Sample.db_alice _ Sample.alice "one-secret"
           (Signed "one-secret" Sample.id_a 1700000000
                   (1700000000 + thirty_days))); reflexivity.
Defined.

(* ------------------------------------------------------------------ *)
(** ** Password change and tokens *)

(** X22.  [changedPasswordAfter] compares whole seconds: for a change at or
    after the epoch, a token counts as older than the change exactly when
    it was signed in an earlier second; a token signed earlier within the
    second of the change is not reported. *)
Theorem changedPasswordAfter_whole_seconds (signed changed : Io) :
  (0 <= now changed)%Z ->
  changedPasswordAfter (Some (now changed)) (jwt.clock signed)
  = (jwt.clock signed <? jwt.clock changed)%Z.
Proof.
  intros H. unfold changedPasswordAfter, jwt.clock.
  now rewrite Z.quot_div_nonneg by lia.
Qed.

Lemma changedPasswordAfter_whole_seconds_witness :
  (now Sample.io0 < now Sample.io_minute)%Z
  /\ changedPasswordAfter (Some (now Sample.io_minute))
                          (jwt.clock Sample.io0) = true
  /\ changedPasswordAfter (Some (now Sample.io0 + 400)%Z)
                          (jwt.clock Sample.io0) = false.
Proof.
  split; [reflexivity | ]. split.
  - apply (changedPasswordAfter_whole_seconds Sample.io0 Sample.io_minute).
    vm_compute. discriminate.
  - apply (changedPasswordAfter_whole_seconds Sample.io0
             (mkIo (now Sample.io0 + 400)%Z Sample.id_c Sample.salt22 None)).
    vm_compute. discriminate.
Defined.

(* ------------------------------------------------------------------ *)
(** ** Onboarding, step by step *)

Lemma validateUser_set_name (u : User) (name : string) :
  validateUser false u = [] ->
  name <> "" -> (String.length name <= 50)%nat ->
  validateUser false (set_name u name) = [].
Proof.
  unfold validateUser. intros H Hn Hl.
  apply app_eq_nil in H as [_ H]. apply app_eq_nil in H as [H2 H].
  cbn [u_name u_email u_role set_name]. rewrite H2, H.
  unfold required_then. apply String.eqb_neq in Hn. rewrite Hn.
  apply Nat.leb_le in Hl. now rewrite Hl.
Qed.

Section OnboardingSteps.

Context {lib : Lib}.

Variables (env : Env) (io : Io) (req : Request) (b : OnboardingBody).
Variables (db : DB) (u : User).

Hypothesis Hauth : authenticated env io db req u.
Hypothesis Hvalid : forallb fst (onboarding_chains b) = true.
Hypothesis Hschool : validateSchool (school_of io b) = [].
Hypothesis Hfree :
  existsb (fun s => oid_eqb (s_id s) (newId io)
                    || (s_name s =? JS.trim (schoolName b))) (schools db)
  = false.

Lemma contact_name_present : JS.trim (adminName b) <> "".
Proof.
  pose proof Hschool as H. unfold validateSchool in H.
  apply app_eq_nil in H as [_ H]. apply app_eq_nil in H as [_ H].
  apply app_eq_nil in H as [H _]. unfold required_then in H.
  cbn [s_adminName school_of] in H. intros E. rewrite E in H. discriminate.
Qed.

(** The handler up to the [save] of the user. *)
Lemma onboarding_runs :
  onboarding env io req b db
  = match validateUser false (onboarded io b u) with
    | [] =>
        (Onboarded (onboarded io b u),
         with_users (replace_user (onboarded io b u))
           (with_schools (fun l => (l ++ [school_of io b])%list) db))
    | messages =>
        (failure 400 (JS.or_else (first_error messages) "Validation error"),
         with_schools (fun l => (l ++ [school_of io b])%list) db)
    end.
Proof.
  pose proof contact_name_present as Hn.
  assert (Hlen : (0 <? String.length (JS.trim (adminName b)))%nat = true).
  { apply Nat.ltb_lt. destruct (JS.trim (adminName b)); [congruence | ].
    cbn. lia. }
  unfold onboarding. unfold authenticated in Hauth. rewrite Hauth.
  rewrite (validationResult_nil _ Hvalid). unfold School_create.
  fold (school_of io b). rewrite Hschool. run.
  cbn [s_id s_name school_of]. rewrite Hfree.
  cbn [user set_user users with_schools].
  rewrite (authenticated_found env io db req u Hauth).
  rewrite Hlen. unfold User_save.
  change (set_name (set_schoolId u (s_id (school_of io b)))
                   (JS.trim (adminName b)))
    with (onboarded io b u).
  destruct (validateUser false (onboarded io b u)); reflexivity.
Qed.

(** X20.  An onboarding that goes through: for a body that passes the
    validators and the school schema, under a school name that is free,
    and a contact name of at most fifty characters, any authenticated user
    with a valid document is answered 200; the school is appended, and the
    document of the user changes in [schoolId] and [name] only, so that
    its role, a [super_admin] included, stays what it was. *)
Theorem onboarding_accepts :
  validateUser false u = [] ->
  (String.length (JS.trim (adminName b)) <= 50)%nat ->
  onboarding env io req b db
  = (Onboarded (onboarded io b u),
     with_users (replace_user (onboarded io b u))
       (with_schools (fun l => (l ++ [school_of io b])%list) db))
  /\ u_schoolId (onboarded io b u) = Some (s_id (school_of io b))
  /\ u_role (onboarded io b u) = u_role u
  /\ u_email (onboarded io b u) = u_email u
  /\ u_password (onboarded io b u) = u_password u
  /\ u_isActive (onboarded io b u) = u_isActive u
  /\ u_refreshToken (onboarded io b u) = u_refreshToken u.
Proof.
  intros Hdoc Hl. split; [ | repeat split].
  rewrite onboarding_runs. unfold onboarded.
  rewrite validateUser_set_name; auto using contact_name_present.
Qed.

(** X21.  An onboarding that stops half way: a contact name of more than
    fifty characters passes the school schema and fails that of the user.
    For a user whose stored document is valid, so that the name is the
    one path to fail, the request is answered 400 with the message of the
    name after the school has been created; the user is left without it,
    and the same request sent again is answered 500, the name of the
    school being taken from then on. *)
Theorem onboarding_long_contact_name_leaves_school (again : Io) :
  validateUser false u = [] ->
  (50 < String.length (JS.trim (adminName b)))%nat ->
  authenticated env again db req u ->
  onboarding env io req b db
  = (failure 400 "Name cannot be more than 50 characters",
     with_schools (fun l => (l ++ [school_of io b])%list) db)
  /\ onboarding env again req b
       (with_schools (fun l => (l ++ [school_of io b])%list) db)
     = (ServerError,
        with_schools (fun l => (l ++ [school_of io b])%list) db).
Proof.
  intros Hdoc Hlong Hagain. split.
  - rewrite onboarding_runs.
    assert (E : validateUser false (onboarded io b u)
                = ["Name cannot be more than 50 characters"]).
    { revert Hdoc. unfold validateUser, required_then, onboarded.
      cbn [u_name u_email u_role set_name set_schoolId]. intros H.
      apply app_eq_nil in H as [_ H]. rewrite H.
      pose proof contact_name_present as Hn. apply String.eqb_neq in Hn.
      rewrite Hn.
      assert (E : (String.length (JS.trim (adminName b)) <=? 50)%nat = false)
        by (apply Nat.leb_gt; lia).
      now rewrite E. }
    rewrite E, first_error_single. reflexivity.
  - unfold onboarding.
    change (protect env again
              (with_schools (fun l => (l ++ [school_of io b])%list) db) req)
      with (protect env again db req).
    unfold authenticated in Hagain. rewrite Hagain.
    rewrite (validationResult_nil _ Hvalid). unfold School_create.
    fold (school_of again b).
    change (validateSchool (school_of again b))
      with (validateSchool (school_of io b)).
    rewrite Hschool. run. cbn [schools with_schools].
    rewrite existsb_app. cbn [existsb s_name school_of].
    now rewrite String.eqb_refl, !orb_true_r.
Qed.

End OnboardingSteps.

Lemma onboarding_accepts_witness :
  onboarding (lib := Sample.lib) Sample.env Sample.io0 Sample.post
             Sample.acme_two Sample.db_onboarded
  = (Onboarded (onboarded Sample.io0 Sample.acme_two Sample.alice),
     with_users
       (replace_user (onboarded Sample.io0 Sample.acme_two Sample.alice))
       (with_schools
          (fun l => (l ++ [school_of Sample.io0 Sample.acme_two])%list)
          Sample.db_onboarded))
  /\ u_schoolId (onboarded Sample.io0 Sample.acme_two Sample.alice)
     = Some Sample.id_c
  /\ u_role (onboarded Sample.io0 Sample.acme_two Sample.alice)
     = "school_admin"
  /\ u_email (onboarded Sample.io0 Sample.acme_two Sample.alice) = "a@x.com"
  /\ u_password (onboarded Sample.io0 Sample.acme_two Sample.alice)
     = u_password Sample.alice
  /\ u_isActive (onboarded Sample.io0 Sample.acme_two Sample.alice) = true
  /\ u_refreshToken (onboarded Sample.io0 Sample.acme_two Sample.alice)
     = None.
Proof.
  apply (onboarding_accepts (lib := Sample.lib) Sample.env Sample.io0
           Sample.post Sample.acme_two Sample.db_onboarded Sample.alice);
    try reflexivity.
  vm_compute. lia.
Defined.

Lemma onboarding_long_contact_name_leaves_school_witness :
  onboarding (lib := Sample.lib) Sample.env Sample.io0 Sample.post
             Cases.acme_long Sample.db_onboarded
  = (failure 400 "Name cannot be more than 50 characters",
     with_schools
       (fun l => (l ++ [school_of Sample.io0 Cases.acme_long])%list)
       Sample.db_onboarded)
  /\ onboarding (lib := Sample.lib) Sample.env Sample.io_minute Sample.post
                Cases.acme_long
                (with_schools
                   (fun l => (l ++ [school_of Sample.io0 Cases.acme_long])%list)
                   Sample.db_onboarded)
     = (ServerError,
        with_schools
          (fun l => (l ++ [school_of Sample.io0 Cases.acme_long])%list)
          Sample.db_onboarded).
Proof.
  apply (onboarding_long_contact_name_leaves_school (lib := Sample.lib)
           Sample.env Sample.io0 Sample.post Cases.acme_long
           Sample.db_onboarded Sample.alice); try reflexivity.
  vm_compute. lia.
Defined.


Lemma register_without_secret_leaves_account_witness :
  register (lib := Sample.lib) Cases.env_unsigned Sample.io0 Sample.reg_plain
           Sample.db_alice
  = (ServerError,
     created (lib := Sample.lib) Sample.io0 Sample.reg_plain Sample.db_alice)
  /\ users (created (lib := Sample.lib) Sample.io0 Sample.reg_plain
                    Sample.db_alice)
     = [Sample.alice;
        registered (lib := Sample.lib) Sample.io0 Sample.reg_plain None]
  /\ register (lib := Sample.lib) Cases.env_unsigned Sample.io_minute
              Sample.reg_plain
              (created (lib := Sample.lib) Sample.io0 Sample.reg_plain
                       Sample.db_alice)
     = (EmailTaken,
        created (lib := Sample.lib) Sample.io0 Sample.reg_plain
                Sample.db_alice).
Proof.
  apply (register_without_secret_leaves_account (lib := Sample.lib)
           Cases.env_unsigned Sample.io0 Sample.reg_plain Sample.db_alice);
    try reflexivity.
  - discriminate.
  - vm_compute. lia.
  - vm_compute. lia.
Defined.

(* ------------------------------------------------------------------ *)
(** ** A school admin without a school *)

(** X23.  Before onboarding, a school admin has no [schoolId].  The
    students list refuses such a user, but the schools list, which runs no
    [canAccessSchool] and scopes only when [schoolId] is set, is left
    unscoped: its query ranges over every school. *)
Theorem schools_list_unscoped_without_school
        (env : Env) (io : Io) (db : DB) (req : Request) (u : User) :
  authenticated env io db req u ->
  u_role u = "school_admin" ->
  u_schoolId u = None ->
  schools_list env io db req = inr None
  /\ students_list env io db req = inl (NoSchool u).
Proof.
  intros Ha Hr Hs. unfold schools_list, students_list.
  rewrite !(chain_protect _ _ _ _ _ _ Ha). cbn [chain].
  rewrite (canViewData_admins _ u); auto.
  unfold schools_query, canAccessSchool. cbn [user set_user].
  unfold NoSchool. rewrite Hr, Hs. split; reflexivity.
Qed.

Lemma schools_list_unscoped_without_school_witness :
  schools_list Sample.env Sample.io_minute
    (snd (register (lib := Sample.lib) Sample.env Sample.io0 Sample.reg_plain
                   Sample.db_alice))
    (Cases.get_with_refresh_token
       (Signed "access-secret" Sample.id_c 1700000000
               (1700000000 + seven_days)))
  = inr None
  /\ students_list Sample.env Sample.io_minute
       (snd (register (lib := Sample.lib) Sample.env Sample.io0
                      Sample.reg_plain Sample.db_alice))
       (Cases.get_with_refresh_token
          (Signed "access-secret" Sample.id_c 1700000000
                  (1700000000 + seven_days)))
     = inl (reply 403
              ["message" ~> JStr "School admin not associated with any school";
               "currentRole" ~> JStr "school_admin"]).
Proof.
  apply (schools_list_unscoped_without_school Sample.env Sample.io_minute _ _
           (registered (lib := Sample.lib) Sample.io0 Sample.reg_plain
              (Some (Signed "refresh-secret" Sample.id_c 1700000000
                            (1700000000 + thirty_days)))));
    reflexivity.
Defined.

(* ------------------------------------------------------------------ *)
(** ** One refresh token per account *)

Lemma find_replace (email : string) (l : list User) (u doc : User) :
  find (by_email email) l = Some u ->
  findById l (u_id u) = Some u ->
  u_id doc = u_id u -> u_email doc = email ->
  find (by_email email) (replace_user doc l) = Some doc.
Proof.
  unfold findById, replace_user, by_email. intros Hf Hi Ed Ee. rewrite Ed.
  induction l as [| v l IH]; simpl in *; [discriminate | ].
  destruct (oid_eqb (u_id v) (u_id u)) eqn:E.
  - now rewrite Ee, String.eqb_refl.
  - destruct (u_email v =? email) eqn:E'.
    + injection Hf as ->. now rewrite oid_eqb_refl in E.
    + auto.
Qed.

Section SecondLogin.

Context {lib : Lib}.

Variables (env : Env) (io again : Io) (b : LoginBody) (db : DB) (u : User).
Variables (token refreshToken token' refreshToken' : Token).

Hypothesis Hvalid : forallb fst (login_chains b) = true.
Hypothesis Henv :
  is_env_super_admin env (login_email b) (login_password b) = false.
Hypothesis Hfound : find (by_email (login_email b)) (users db) = Some u.
Hypothesis Hid : findById (users db) (u_id u) = Some u.
Hypothesis Hactive : u_isActive u = true.
Hypothesis Hpassword : bcrypt_compare (login_password b) (u_password u) = true.
Hypothesis Hdoc : validateUser true u = [].
Hypothesis Htoken : getSignedJwtToken env io u = Some token.
Hypothesis Hrefresh : getRefreshToken env io u = Some refreshToken.
Hypothesis Htoken' : getSignedJwtToken env again u = Some token'.
Hypothesis Hrefresh' : getRefreshToken env again u = Some refreshToken'.
Hypothesis Hlater : (jwt.clock io < jwt.clock again)%Z.

Lemma second_login_finds_first (doc : User) :
  u_id doc = u_id u -> u_email doc = u_email u ->
  find (by_email (login_email b))
       (users (with_users (replace_user doc) db)) = Some doc
  /\ findById (users (with_users (replace_user doc) db)) (u_id u) = Some doc.
Proof.
  intros Ei Ee. split; cbn [users with_users].
  - apply (find_replace _ _ u); auto. rewrite Ee.
    cbn. unfold by_email in Hfound. apply find_some in Hfound as [_ H].
    now apply String.eqb_eq in H.
  - now apply (findById_replace _ _ u).
Qed.

(** What the re-hash does to the account: when the password no longer
    verifies against the hash that the first login has stored, the next
    login with it is refused. *)
Lemma login_after_rehash_is_refused :
  bcrypt_compare (login_password b) (u_password (logged_in io u refreshToken))
  = false ->
  login env again b (snd (login env io b db))
  = (InvalidCredentials, snd (login env io b db)).
Proof.
  intros Hc.
  rewrite (login_grants env io b db u token refreshToken); try assumption.
  cbn [snd].
  destruct (second_login_finds_first (logged_in io u refreshToken)
              eq_refl eq_refl) as [Hf1 _].
  now apply (login_mismatch env again b _ Hvalid Henv
               (logged_in io u refreshToken)).
Qed.

(** X24.  An account holds one refresh token: a second login, in a later
    second, that is accepted, the password verifying against the hash
    that the first login has stored, replaces the token of the first,
    which [/refresh] refuses from then on without writing. *)
Theorem second_login_retires_first_refresh_token (later : Io) :
  bcrypt_compare (login_password b) (u_password (logged_in io u refreshToken))
  = true ->
  fst (login env again b (snd (login env io b db)))
  = session 200 token' refreshToken'
            (logged_in again (logged_in io u refreshToken) refreshToken')
  /\ refresh env later (Some refreshToken)
             (snd (login env again b (snd (login env io b db))))
     = (stale_answer env later refreshToken,
        snd (login env again b (snd (login env io b db)))).
Proof.
  intros Hstill.
  rewrite (login_grants env io b db u token refreshToken); try assumption.
  cbn [snd].
  set (u1 := logged_in io u refreshToken).
  set (db1 := with_users (replace_user u1) db).
  destruct (second_login_finds_first u1 eq_refl eq_refl) as [Hf1 Hi1].
  fold db1 in Hf1, Hi1.
  assert (Hdoc1 : validateUser true u1 = []).
  { unfold u1, logged_in, stored_password.
    destruct (late io) as [[salt1 salt2] |]; [ | exact Hdoc].
    apply validateUser_hashed. change (validateUser false u = []).
    now apply validateUser_false. }
  rewrite (login_grants env again b db1 u1 token' refreshToken');
    try assumption; try reflexivity.
  cbn [fst snd]. split; [reflexivity | ].
  set (u2 := logged_in again u1 refreshToken').
  destruct (sign_inv _ _ _ _ _ Hrefresh) as (key & Hk & Ht & E).
  rewrite E.
  apply refresh_stale with (user := u2).
  - cbn [users with_users]. now apply (findById_replace _ _ u1).
  - cbn [u_refreshToken u2 logged_in set_refreshToken]. intros [= H].
    revert H. apply (rotation_in_later_second env again u); assumption.
Qed.

End SecondLogin.

Lemma second_login_retires_first_refresh_token_witness :
  fst (login (lib := Sample.lib) Sample.env Sample.io_minute
             Sample.login_alice
             (snd (login (lib := Sample.lib) Sample.env Sample.io0
                         Sample.login_alice Sample.db_alice)))
  = session 200
      (Signed "access-secret" Sample.id_a 1700000060 (1700000060 + seven_days))
      (Signed "refresh-secret" Sample.id_a 1700000060
              (1700000060 + thirty_days))
      (logged_in (lib := Sample.lib) Sample.io_minute
         (logged_in (lib := Sample.lib) Sample.io0 Sample.alice Sample.refresh_a)
         (Signed "refresh-secret" Sample.id_a 1700000060
                 (1700000060 + thirty_days)))
  /\ refresh Sample.env Sample.io_minute (Some Sample.refresh_a)
             (snd (login (lib := Sample.lib) Sample.env Sample.io_minute
                         Sample.login_alice
                         (snd (login (lib := Sample.lib) Sample.env Sample.io0
                                     Sample.login_alice Sample.db_alice))))
     = (StaleRefresh,
        snd (login (lib := Sample.lib) Sample.env Sample.io_minute
                   Sample.login_alice
                   (snd (login (lib := Sample.lib) Sample.env Sample.io0
                               Sample.login_alice Sample.db_alice)))).
Proof.
  apply (second_login_retires_first_refresh_token (lib := Sample.lib)
           Sample.env Sample.io0 Sample.io_minute Sample.login_alice
           Sample.db_alice Sample.alice Sample.access_a Sample.refresh_a);
    reflexivity.
Defined.
